(** * TRK 2-34 reader: framing, record decode, summaries and byte transforms

    A shallow embedding of the [trk234] package (Reader.py, SFDU.py, Info.py,
    util.py), of the scripts [trk234_regroup.py] and [trk234_purify.py] and
    of [two_list_sort] of [trk234_info.py], followed by the properties
    proved about them. *)

From Stdlib Require Import ZArith Lia List String Ascii.
From Stdlib Require Import Strings.Byte.
From stdpp Require Import base option list gmap sets strings pretty sorting.

Open Scope Z_scope.

(** ** Python values the code works on *)

Module Py.

(** The exceptions the modelled code can raise; the messages of
    [ValueError] are CPython's.  [out_of_fuel] is not a Python exception:
    it marks a loop of the model that was cut short, and is shown never to
    occur. *)
Inductive exn : Type :=
| struct_error
| AttributeError (type_name attr : string)
| ValueError (msg : string)
| OverflowError
| IndexError
| KeyError (key : Z)
| UnicodeDecodeError
| NameError (name : string)
| FileNotFoundError (path : string)
| out_of_fuel.

Inductive result (A : Type) : Type :=
| Ok (a : A)
| Err (e : exn).
Arguments Ok {A} a.
Arguments Err {A} e.

Definition rbind {A B} (r : result A) (f : A -> result B) : result B :=
  match r with
  | Ok a => f a
  | Err e => Err e
  end.

#[export] Instance result_ret : MRet result := @Ok.
#[export] Instance result_bind : MBind result := fun A B f r => rbind r f.

Fixpoint rmap {A B} (f : A -> result B) (l : list A) : result (list B) :=
  match l with
  | [] => Ok []
  | x :: l' => y ← f x; ys ← rmap f l'; Ok (y :: ys)
  end.

Abbreviation bytes := (list byte).

Definition len {A} (l : list A) : Z := Z.of_nat (length l).

(** An index of a slice brought inside the list: a negative one counts from
    the end, and both ends are clipped. *)
Definition clip {A} (l : list A) (i : Z) : Z :=
  if i <? 0 then Z.max (len l + i) 0 else Z.min i (len l).

(** [l[a:b]]: empty when the clipped [b] is not past the clipped [a]. *)
Definition slice {A} (l : list A) (a b : Z) : list A :=
  take (Z.to_nat (clip l b - clip l a)) (drop (Z.to_nat (clip l a)) l).

(** [l[i]], with Python's negative indices. *)
Definition getitem {A} (l : list A) (i : Z) : result A :=
  let j := if i <? 0 then len l + i else i in
  if j <? 0 then Err IndexError
  else match l !! Z.to_nat j with
       | Some x => Ok x
       | None => Err IndexError
       end.

(** [range(n)] *)
Definition range (n : Z) : list Z := map Z.of_nat (seq 0 (Z.to_nat n)).

Definition byte_val (b : byte) : Z := Z.of_N (Byte.to_N b).

(** Big-endian unsigned value of a byte string. *)
Definition be_value (bs : bytes) : Z :=
  fold_left (fun acc b => acc * 256 + byte_val b) bs 0.

(** [struct.unpack('>Q', bs)[0]] *)
Definition unpack_Q (bs : bytes) : result Z :=
  if decide (length bs = 8%nat) then Ok (be_value bs) else Err struct_error.

(** [struct.unpack('>B', bs)[0]] *)
Definition unpack_B (bs : bytes) : result Z :=
  match bs with
  | [b] => Ok (byte_val b)
  | _ => Err struct_error
  end.

(** [struct.unpack('>4s', bs)[0].decode('ascii')] *)
Definition unpack_4s_ascii (bs : bytes) : result string :=
  if decide (length bs = 4%nat) then
    if forallb (fun b => byte_val b <? 128) bs
    then Ok (string_of_list_ascii (map ascii_of_byte bs))
    else Err UnicodeDecodeError
  else Err struct_error.


(** *** Printing and files

    What a run can observe and change: the lines printed so far, oldest
    first, and the files on disk. *)
Record world : Type := World {
  stdout : list string;
  files : gmap string bytes
}.

(** A computation that may print, touch files and raise. *)
Definition M (A : Type) : Type := world -> result A * world.

#[export] Instance M_ret : MRet M := fun A a w => (Ok a, w).
#[export] Instance M_bind : MBind M := fun A B f m w =>
  match m w with
  | (Ok a, w') => f a w'
  | (Err e, w') => (Err e, w')
  end.

Definition lift {A} (r : result A) : M A := fun w => (r, w).
Definition raise {A} (e : exn) : M A := fun w => (Err e, w).

(** [print(s)] *)
Definition print (s : string) : M unit :=
  fun w => (Ok tt, World (stdout w ++ [s]) (files w)).

(** [open(path, 'rb').read()] *)
Definition read_file (path : string) : M bytes :=
  fun w => match files w !! path with
           | Some b => (Ok b, w)
           | None => (Err (FileNotFoundError path), w)
           end.

(** [open(path, 'wb')]: the file is created, or emptied. *)
Definition open_wb (path : string) : M unit :=
  fun w => (Ok tt, World (stdout w) (<[path := []]> (files w))).

(** [fout.write(b)] on a file opened by [open_wb]. *)
Definition write (path : string) (b : bytes) : M unit :=
  fun w => (Ok tt,
            World (stdout w)
              (<[path := default [] (files w !! path) ++ b]> (files w))).

(** [for x in l: f(x)] *)
Fixpoint for_each {A} (l : list A) (f : A -> M unit) : M unit :=
  match l with
  | [] => mret tt
  | x :: l' => _ ← f x; for_each l' f
  end.

(** [[f(x) for x in l]] where [f] may print and raise. *)
Fixpoint mmap {A B} (f : A -> M B) (l : list A) : M (list B) :=
  match l with
  | [] => mret []
  | x :: l' => y ← f x; ys ← mmap f l'; mret (y :: ys)
  end.

(** A computation that leaves the files as they are. *)
Definition keeps_files {A} (m : M A) : Prop :=
  forall w, files (snd (m w)) = files w.

(** A computation that returns normally and appends [out] to the file at
    [path], which must exist. *)
Definition writes {A} (path : string) (out : bytes) (m : M A) : Prop :=
  forall w old,
    files w !! path = Some old ->
    (exists a, fst (m w) = Ok a) /\
    files (snd (m w)) = <[path := old ++ out]> (files w).

(** [enumerate(l)] *)
Definition enumerate {A} (l : list A) : list (Z * A) :=
  imap (fun i x => (Z.of_nat i, x)) l.

(** *** float

    A Python [float] is an IEEE 754 double: a NaN, an infinity, or the
    number [m * 2^e].  (The sign of a zero is not kept: nothing below
    depends on it.) *)
Inductive float : Type :=
| Fnan
| Finf (negative : bool)
| Ffinite (m e : Z).

(** The double whose 64 bits are [b]: what [struct.unpack('>d', ...)]
    makes of the eight bytes of big-endian value [b]. *)
Definition float_of_bits (b : Z) : float :=
  let b := b mod 2 ^ 64 in
  let negative := 2 ^ 63 <=? b in
  let E := (b / 2 ^ 52) mod 2 ^ 11 in
  let F := b mod 2 ^ 52 in
  let sign := if negative then -1 else 1 in
  if E =? 2047 then (if F =? 0 then Finf negative else Fnan)
  else if E =? 0 then Ffinite (sign * F) (-1074)
  else Ffinite (sign * (2 ^ 52 + F)) (E - 1075).

(** [math.modf] on the number [m * 2^e]: its whole part, and the mantissa
    [r] of its fractional part [r * 2^e], both with the sign of the
    number. *)
Definition modf (m e : Z) : Z * Z :=
  if 0 <=? e then (m * 2 ^ e, 0)
  else (Z.quot m (2 ^ (- e)), Z.rem m (2 ^ (- e))).

(** The double nearest to [n * 2^e], as mantissa and exponent: a mantissa
    of more than 53 bits is cut to 53, ties going to the even one.  (For
    [e] at or above -1074 and a result that a double can hold, which is
    where it is used.) *)
Definition round_to_double (n e : Z) : Z * Z :=
  let k := Z.log2 (Z.abs n) + 1 - 53 in
  if k <=? 0 then (n, e)
  else
    let q := Z.abs n / 2 ^ k in
    let r := Z.abs n mod 2 ^ k in
    let q' := if (2 ^ k <? 2 * r) || ((2 * r =? 2 ^ k) && Z.odd q)
              then q + 1 else q in
    (Z.sgn n * q', e + k).

(** [round(x)] for the float [p * 2^e]: the nearest integer, ties going
    to the even one. *)
Definition round_half_even (p e : Z) : Z :=
  if 0 <=? e then p * 2 ^ e
  else
    let D := 2 ^ (- e) in
    let q := p / D in
    let r := p mod D in
    if 2 * r <? D then q
    else if D <? 2 * r then q + 1
    else if Z.even q then q else q + 1.

(** *** datetime

    A [datetime] is held as the whole number of microseconds since the
    start of day 0 of the proleptic Gregorian calendar, day 1 being
    0001-01-01; a [timedelta] as a whole number of microseconds.  Both are
    the normalised forms the library itself compares and adds. *)
Definition us_per_day : Z := 86400000000.
Definition MINYEAR : Z := 1.
Definition MAXYEAR : Z := 9999.
Definition MAXORDINAL : Z := 3652059.

Definition datetime : Type := Z.
Definition timedelta : Type := Z.

(** Days before January 1 of [year]. *)
Definition days_before_year (year : Z) : Z :=
  let y := year - 1 in
  y * 365 + y / 4 - y / 100 + y / 400.

(** [datetime(year=year, month=1, day=1)] *)
Definition datetime_jan1 (year : Z) : result datetime :=
  if (MINYEAR <=? year) && (year <=? MAXYEAR)
  then Ok ((days_before_year year + 1) * us_per_day)
  else Err (ValueError ("year " +:+ pretty year +:+ " is out of range")).

(** The [timedelta] of [days] days and [us] microseconds, both integers;
    the library refuses more than 999999999 days either way. *)
Definition timedelta_of (days us : Z) : result timedelta :=
  let d := days * us_per_day + us in
  if (-999999999 <=? d / us_per_day) && (d / us_per_day <=? 999999999)
  then Ok d
  else Err OverflowError.

(** [timedelta(days=days, seconds=sec)] for a float [sec].  The library
    takes the whole seconds of [sec] as an integer, which fails on a NaN
    and on an infinity; it multiplies the fractional part by 10^6 in
    double arithmetic, and rounds the product to a whole number of
    microseconds, ties going to the even one:
    [microseconds_of_seconds m e] are the microseconds it makes of the
    seconds [m * 2^e]. *)
Definition microseconds_of_seconds (m e : Z) : Z :=
  let '(whole, r) := modf m e in
  let '(p, e') := round_to_double (r * 1000000) e in
  whole * 1000000 + round_half_even p e'.

Definition timedelta_of_seconds (days : Z) (sec : float)
    : result timedelta :=
  match sec with
  | Fnan => Err (ValueError "cannot convert float NaN to integer")
  | Finf _ => Err OverflowError
  | Ffinite m e => timedelta_of days (microseconds_of_seconds m e)
  end.

(** [d + td] *)
Definition datetime_add (d : datetime) (td : timedelta) : result datetime :=
  let r := d + td in
  if (0 <? r / us_per_day) && (r / us_per_day <=? MAXORDINAL)
  then Ok r
  else Err OverflowError.

(** [min(l)] and [max(l)] on a list of datetimes. *)
Definition py_min (l : list datetime) : result datetime :=
  match l with
  | [] => Err (ValueError "min() arg is an empty sequence")
  | x :: l' => Ok (fold_left Z.min l' x)
  end.

Definition py_max (l : list datetime) : result datetime :=
  match l with
  | [] => Err (ValueError "max() arg is an empty sequence")
  | x :: l' => Ok (fold_left Z.max l' x)
  end.

(** *** % formatting *)

(** ['%d' % z] and ['%i' % z] *)
Definition fmt_d (z : Z) : string := pretty z.

Fixpoint replicate_string (n : nat) (c : ascii) : string :=
  match n with
  | O => EmptyString
  | S n' => String c (replicate_string n' c)
  end.

(** ['%10s' % s]: right-justified in a field of [w] characters. *)
Definition rjust (w : nat) (s : string) : string :=
  replicate_string (w - String.length s) " "%char +:+ s.

(** ['%02i' % z]: zero-padded to two characters, the sign first. *)
Definition fmt_02i (z : Z) : string :=
  if z <? 0
  then "-" +:+ replicate_string (1 - String.length (pretty (- z))) "0"%char
           +:+ pretty (- z)
  else replicate_string (2 - String.length (pretty z)) "0"%char +:+ pretty z.

(** [path.split('/')[-1]] *)
Fixpoint last_component (acc path : string) : string :=
  match path with
  | EmptyString => acc
  | String c rest =>
      if Ascii.eqb c "/"%char then last_component EmptyString rest
      else last_component (acc +:+ String c EmptyString) rest
  end.


(** *** Objects and dictionaries

    An instance of one of the CHDO classes: its class name and the numeric
    attributes it carries.  Which attributes exist depends on the class, and
    the code asks with [hasattr] or fails with [AttributeError].  An
    attribute that holds an integer is carried as that integer; the seconds
    of day [sec], a float, as the 64 bits of the double. *)
Record object : Type := Object {
  cls : string;
  attrs : gmap string Z
}.

(** [o.a] *)
Definition getattr (o : object) (a : string) : result Z :=
  match attrs o !! a with
  | Some v => Ok v
  | None => Err (AttributeError (cls o) a)
  end.

(** [o.a] where [o] may be [None]. *)
Definition getattr_opt (o : option object) (a : string) : result Z :=
  match o with
  | Some o' => getattr o' a
  | None => Err (AttributeError "NoneType" a)
  end.

(** [o.a] for an attribute that holds a float. *)
Definition getattr_float (o : option object) (a : string) : result float :=
  b ← getattr_opt o a; Ok (float_of_bits b).

(** [hasattr(o, a)] where [o] may be [None]. *)
Definition hasattr (o : option object) (a : string) : bool :=
  match o with
  | Some o' => bool_decide (is_Some (attrs o' !! a))
  | None => false
  end.

(** [d[k]] on a dictionary with integer keys. *)
Definition dict_get {V} (d : gmap Z V) (k : Z) : result V :=
  match d !! k with
  | Some v => Ok v
  | None => Err (KeyError k)
  end.

(** [list(set(l))]: the distinct elements, in an order the language does
    not fix. *)
Definition list_set `{Countable A} (l : list A) : list A :=
  elements (list_to_set l : gset A).

End Py.
Export Py.

(** ** util.py *)

Module util.

Definition data_descriptions : gmap string string :=
  list_to_map
    [ ("C123", "Uplink types"); ("C124", "Downlink types");
      ("C125", "Derived types"); ("C126", "Inferometric types");
      ("C127", "Filtered types") ]%string.

Definition format_codes : gmap Z string :=
  list_to_map
    [ (0, "Uplink Carrier Phase"); (1, "Downlink Carrier Phase");
      (2, "Uplink Sequential Ranging Phase");
      (3, "Downlink Sequential Ranging Phase");
      (4, "Uplink PN Ranging Phase"); (5, "Downlink PN Ranging Phase");
      (6, "Doppler"); (7, "Sequential Ranging"); (8, "Angles");
      (9, "Ramps"); (10, "VLBI"); (11, "DRVID"); (12, "Smoothed Noise");
      (13, "Allan Deviation"); (14, "PN Ranging"); (15, "Tone Ranging");
      (16, "Carrier Observable"); (17, "Total Phase Observable") ]%string.

Definition bands : gmap Z string :=
  list_to_map
    [ (0, "Unknown"); (1, "S"); (2, "X"); (3, "Ka"); (4, "Ku");
      (5, "L") ]%string.

(** [len([ s for s in l if code(s) == i ])] *)
Definition count_code {A} (code : A -> Z) (l : list A) (i : Z) : Z :=
  len (List.filter (fun s => code s =? i) l).

(** [types(sfdu_list)]: the number of each type of SFDU (0-17).  The Python
    function reads [s.pri_chdo.format_code]; here that read is the argument
    [code]. *)
Definition types {A} (code : A -> Z) (sfdu_list : list A) : list Z :=
  map (count_code code sfdu_list) (range 18).

End util.

(** ** SFDU.py *)

Module SFDU.

(** What the code reads of an [SFDULabel] and of a [PrimaryCHDO]. *)
Record SFDULabel : Type := { data_description_id : string }.
Record PrimaryCHDO : Type := { format_code : Z }.

(** The classes of [trk234.components] the record is built from.  For each
    fixed header there is the freshly constructed object and its [decode];
    [chdo_decode c] is the [decode] of the secondary or tracking class
    named [c], giving the attributes it sets.  Each [decode] may raise. *)
Class Components : Type := {
  SFDULabel_new : SFDULabel;
  SFDULabel_decode : bytes -> result SFDULabel;
  SFDUAggCHDO_new : object;
  SFDUAggCHDO_decode : bytes -> result object;
  PrimaryCHDO_new : PrimaryCHDO;
  PrimaryCHDO_decode : bytes -> result PrimaryCHDO;
  chdo_decode : string -> bytes -> result (gmap string Z)
}.

Record t : Type := mk {
  binarydata : bytes;
  number : Z;
  label : SFDULabel;
  agg_chdo : object;
  pri_chdo : PrimaryCHDO;
  sec_chdo : option object;
  trk_chdo : option object;
  is_decoded : bool
}.

Definition set_binarydata (v : bytes) (s : t) : t :=
  mk v (number s) (label s) (agg_chdo s) (pri_chdo s) (sec_chdo s)
     (trk_chdo s) (is_decoded s).
Definition set_number (v : Z) (s : t) : t :=
  mk (binarydata s) v (label s) (agg_chdo s) (pri_chdo s) (sec_chdo s)
     (trk_chdo s) (is_decoded s).
Definition set_label (v : SFDULabel) (s : t) : t :=
  mk (binarydata s) (number s) v (agg_chdo s) (pri_chdo s) (sec_chdo s)
     (trk_chdo s) (is_decoded s).
Definition set_agg_chdo (v : object) (s : t) : t :=
  mk (binarydata s) (number s) (label s) v (pri_chdo s) (sec_chdo s)
     (trk_chdo s) (is_decoded s).
Definition set_pri_chdo (v : PrimaryCHDO) (s : t) : t :=
  mk (binarydata s) (number s) (label s) (agg_chdo s) v (sec_chdo s)
     (trk_chdo s) (is_decoded s).
Definition set_sec_chdo (v : option object) (s : t) : t :=
  mk (binarydata s) (number s) (label s) (agg_chdo s) (pri_chdo s) v
     (trk_chdo s) (is_decoded s).
Definition set_trk_chdo (v : option object) (s : t) : t :=
  mk (binarydata s) (number s) (label s) (agg_chdo s) (pri_chdo s)
     (sec_chdo s) v (is_decoded s).
Definition set_is_decoded (v : bool) (s : t) : t :=
  mk (binarydata s) (number s) (label s) (agg_chdo s) (pri_chdo s)
     (sec_chdo s) (trk_chdo s) v.

(** [timestamp]: [datetime(year, 1, 1) + timedelta(days=doy - 1,
    seconds=sec)], the seconds of day being a float. *)
Definition timestamp (self : t) : result datetime :=
  year ← getattr_opt (sec_chdo self) "year";
  d ← datetime_jan1 year;
  doy ← getattr_opt (sec_chdo self) "doy";
  sec ← getattr_float (sec_chdo self) "sec";
  td ← timedelta_of_seconds (doy - 1) sec;
  datetime_add d td.

(** [last_modified]: [datetime(1958, 1, 1) + timedelta(days=mod_day,
    milliseconds=mod_msec)]. *)
Definition last_modified (self : t) : result datetime :=
  d ← datetime_jan1 1958;
  mod_day ← getattr_opt (sec_chdo self) "mod_day";
  mod_msec ← getattr_opt (sec_chdo self) "mod_msec";
  td ← timedelta_of mod_day (mod_msec * 1000);
  datetime_add d td.

(** [tracking_mode]: the label of the tracking mode; [None] when the
    function falls off its last [elif]. *)
Definition tracking_mode (self : t) : result (option string) :=
  if decide (data_description_id (label self) <> "C123") then
    m4 ← getattr_opt (sec_chdo self) "prdx_mode";
    if m4 =? 4 then Ok (Some "Invalid") else
    m3 ← getattr_opt (sec_chdo self) "prdx_mode";
    if m3 =? 3 then
      stn ← getattr_opt (sec_chdo self) "ul_prdx_stn";
      Ok (Some ("3W/" +:+ fmt_d stn))
    else
    m2 ← getattr_opt (sec_chdo self) "prdx_mode";
    if m2 =? 2 then Ok (Some "2W") else
    m1 ← getattr_opt (sec_chdo self) "prdx_mode";
    if m1 =? 1 then Ok (Some "1W") else
    m0 ← getattr_opt (sec_chdo self) "prdx_mode";
    if m0 =? 0 then Ok (Some "None") else Ok None
  else Ok (Some "N/A").

(** [dss_id]: the (uplink, downlink) station ids, 0 where the secondary
    header has none. *)
Definition dss_id (self : t) : result (Z * Z) :=
  uplink_id ← (if hasattr (sec_chdo self) "ul_dss_id"
               then getattr_opt (sec_chdo self) "ul_dss_id" else Ok 0);
  dnlink_id ← (if hasattr (sec_chdo self) "dl_dss_id"
               then getattr_opt (sec_chdo self) "dl_dss_id" else Ok 0);
  Ok (uplink_id, dnlink_id).

(** [radio_band]: the (uplink, downlink) band names. *)
Definition radio_band (self : t) : result (string * string) :=
  uplink_band ← (if hasattr (sec_chdo self) "ul_band"
                 then getattr_opt (sec_chdo self) "ul_band" else Ok 0);
  dnlink_band ← (if hasattr (sec_chdo self) "dl_band"
                 then getattr_opt (sec_chdo self) "dl_band" else Ok 0);
  ub ← dict_get util.bands uplink_band;
  db ← dict_get util.bands dnlink_band;
  Ok (ub, db).

(** The class the secondary stage instantiates for a data description id;
    [None] on the final [else]. *)
Definition secondary_class (data_description_id : string) : option string :=
  if decide (data_description_id = "C123") then Some "UplinkCHDO"
  else if decide (data_description_id = "C124") then Some "DownlinkCHDO"
  else if decide (data_description_id = "C125") then Some "DerivedCHDO"
  else if decide (data_description_id = "C126") then Some "InferometricCHDO"
  else if decide (data_description_id = "C127") then Some "FilteredCHDO"
  else None.

(** The class the tracking stage instantiates for a format code; [None] on
    the final [else]. *)
Definition tracking_class (format_code : Z) : option string :=
  if format_code =? 0 then Some "UplinkCarrierPhaseTrackingCHDO"
  else if format_code =? 1 then Some "DownlinkCarrierPhaseTrackingCHDO"
  else if format_code =? 2
       then Some "UplinkSequentialRangingPhaseTrackingCHDO"
  else if format_code =? 3
       then Some "DownlinkSequentialRangingPhaseTrackingCHDO"
  else if format_code =? 4 then Some "UplinkPnRangingPhaseTrackingCHDO"
  else if format_code =? 5 then Some "DownlinkPnRangingPhaseTrackingCHDO"
  else if format_code =? 6 then Some "DopplerCountTrackingCHDO"
  else if format_code =? 7 then Some "SequentialRangeTrackingCHDO"
  else if format_code =? 8 then Some "AngleTrackingCHDO"
  else if format_code =? 9 then Some "RampTrackingCHDO"
  else if format_code =? 10 then Some "VlbiCHDO"
  else if format_code =? 11 then Some "DrvidTrackingCHDO"
  else if format_code =? 12 then Some "SmoothedNoiseTrackingCHDO"
  else if format_code =? 13 then Some "AllanDeviationTrackingCHDO"
  else if format_code =? 14 then Some "PnRangeTrackingCHDO"
  else if format_code =? 15 then Some "ToneRangeTrackingCHDO"
  else if format_code =? 16
       then Some "CarrierFrequencyObservableTrackingCHDO"
  else if format_code =? 17
       then Some "TotalCountPhaseObservableTrackingCHDO"
  else None.

Definition secondary_warning (number : Z) (data_description_id : string)
    : string :=
  "SFDU " +:+ fmt_d number +:+ ": Warning: Unknown secondary CHDO type "
    +:+ data_description_id +:+ ". Skipping...".

Definition tracking_warning (number format_code : Z) : string :=
  "SFDU " +:+ fmt_d number +:+ ": Warning: Unknown tracking CHDO type "
    +:+ fmt_d format_code +:+ ". Skipping...".

Section Decode.
Context `{Components}.

(** [SFDU()] *)
Definition new : t :=
  mk [] 0 SFDULabel_new SFDUAggCHDO_new PrimaryCHDO_new None None false.

(** The tracking stage of [decode] and the statement after it. *)
Definition decode_tracking (self : t) (trk : bool) : M t :=
  if trk then
    match tracking_class (format_code (pri_chdo self)) with
    | Some c =>
        a ← lift (chdo_decode c (binarydata self));
        mret (set_is_decoded true (set_trk_chdo (Some (Object c a)) self))
    | None =>
        _ ← print (tracking_warning (number self)
                     (format_code (pri_chdo self)));
        mret (set_is_decoded false self)
    end
  else mret (set_is_decoded true self).

(** The secondary stage of [decode] and what follows it. *)
Definition decode_secondary (self : t) (sec trk : bool) : M t :=
  if sec then
    match secondary_class (data_description_id (label self)) with
    | Some c =>
        a ← lift (chdo_decode c (binarydata self));
        decode_tracking (set_sec_chdo (Some (Object c a)) self) trk
    | None =>
        _ ← print (secondary_warning (number self)
                     (data_description_id (label self)));
        mret (set_is_decoded false self)
    end
  else decode_tracking self trk.

(** [decode(binarystring, label, agg_chdo, pri_chdo, sec_chdo,
    trk_chdo)]; the flags are named [lbl], [agg], [pri], [sec], [trk]. *)
Definition decode (self : t) (binarystring : bytes)
    (lbl agg pri sec trk : bool) : M t :=
  let self := set_binarydata binarystring self in
  self ← (if lbl
          then l ← lift (SFDULabel_decode (binarydata self));
               mret (set_label l self)
          else mret self);
  self ← (if agg
          then a ← lift (SFDUAggCHDO_decode (binarydata self));
               mret (set_agg_chdo a self)
          else mret self);
  self ← (if pri
          then p ← lift (PrimaryCHDO_decode (binarydata self));
               mret (set_pri_chdo p self)
          else mret self);
  decode_secondary self sec trk.

(** What the secondary stage leaves in [sec_chdo], and the flag the record
    ends with, when [decode] returns. *)
Definition secondary_of (fr : bytes) (ddid : string) : option object :=
  match secondary_class ddid with
  | Some c => match chdo_decode c fr with
              | Ok a => Some (Object c a)
              | Err _ => None
              end
  | None => None
  end.

Definition sec_after (old : option object) (fr : bytes) (ddid : string)
    (sec : bool) : option object :=
  if sec then match secondary_of fr ddid with
              | Some o => Some o
              | None => old
              end
  else old.

Definition decoded_after (ddid : string) (code : Z) (sec trk : bool) : bool :=
  (if sec then bool_decide (is_Some (secondary_class ddid)) else true)
  && (if trk then bool_decide (is_Some (tracking_class code)) else true).

(** The three fixed headers of a record decode. *)
Definition headers_decode (fr : bytes) (l : SFDULabel) (a : object)
    (p : PrimaryCHDO) : Prop :=
  SFDULabel_decode fr = Ok l /\ SFDUAggCHDO_decode fr = Ok a /\
  PrimaryCHDO_decode fr = Ok p.

Definition known_ddid (ddid : string) : Prop :=
  ddid ∈ ["C123"; "C124"; "C125"; "C126"; "C127"]%string.

Definition known_code (code : Z) : Prop := 0 <= code <= 17.

(** A record every stage of which decodes. *)
Definition fully_decodable (fr : bytes) : Prop :=
  exists l a p c1 a1 c2 a2,
    headers_decode fr l a p /\
    secondary_class (data_description_id l) = Some c1 /\
    chdo_decode c1 fr = Ok a1 /\
    tracking_class (format_code p) = Some c2 /\
    chdo_decode c2 fr = Ok a2.

(** A record with an unknown code, as record number [i]: its headers
    decode, and either its data description id is unknown, or that is known,
    the secondary header decodes and the format code is unknown.  [line] is
    the warning the code prints for it. *)
Definition unknown_variant (i : Z) (fr : bytes) (line : string) : Prop :=
  exists l a p,
    headers_decode fr l a p /\
    ((~ known_ddid (data_description_id l) /\
      line = secondary_warning i (data_description_id l)) \/
     (exists c a1,
         secondary_class (data_description_id l) = Some c /\
         chdo_decode c fr = Ok a1 /\
         ~ known_code (format_code p) /\
         line = tracking_warning i (format_code p))).

End Decode.

End SFDU.

(** ** Reader.py *)

Module Reader.

Record t : Type := mk {
  filename : string;
  sfdu_list : list SFDU.t;
  is_decoded : bool;
  binarydata : bytes;
  index : list Z
}.

(** [read(filename)] *)
Definition read (filename : string) : M bytes := read_file filename.


(** The [while] loop of [Reader.sfdu_index]; [fuel] bounds the number of
    iterations. *)
Fixpoint sfdu_index_loop (fuel : nat) (binarydata : bytes) (N : Z)
    (ind : list Z) (next_ind offset : Z) : result (list Z) :=
  if next_ind <? N then
    match fuel with
    | O => Err out_of_fuel
    | S fuel' =>
        rbind (unpack_Q (slice binarydata (offset + 12) (offset + 20)))
          (fun sfdu_length =>
        rbind (getitem ind (-1)) (fun last_ind =>
        let next_ind := sfdu_length + 20 + last_ind in
        let offset := next_ind in
        sfdu_index_loop fuel' binarydata N (ind ++ [next_ind])
          next_ind offset))
    end
  else Ok ind.

(** [Reader.sfdu_index]: the start index of every SFDU, and the end of the
    last one. *)
Definition sfdu_index (binarydata : bytes) : result (list Z) :=
  let N := len binarydata in
  sfdu_index_loop (length binarydata) binarydata N [0] 0 0.

(** The boundary list as the specification words it: start at a boundary,
    stop once it has reached the buffer length, otherwise read the 8-byte
    big-endian length at offsets 12..20 of the record and go on from
    boundary + length + 20. *)
Inductive chain_from (binarydata : bytes) : Z -> list Z -> Prop :=
| chain_stop b :
    len binarydata <= b ->
    chain_from binarydata b [b]
| chain_step b L rest :
    b < len binarydata ->
    unpack_Q (slice binarydata (b + 12) (b + 20)) = Ok L ->
    chain_from binarydata (b + L + 20) rest ->
    chain_from binarydata b (b :: rest).

Definition declared_length_chain (binarydata : bytes) (ind : list Z) : Prop :=
  chain_from binarydata 0 ind.

(** The byte ranges [binarydata[ind[i]:ind[i+1]]] of consecutive
    boundaries. *)
Fixpoint frames (binarydata : bytes) (ind : list Z) : list bytes :=
  match ind with
  | a :: (b :: _) as ind' => slice binarydata a b :: frames binarydata ind'
  | _ => []
  end.


(** The boundaries the chain passes through: [reaches_from d b0 b] when
    following declared lengths from [b0] arrives at [b]. *)
Inductive reaches_from (binarydata : bytes) : Z -> Z -> Prop :=
| reaches_here b : reaches_from binarydata b b
| reaches_next b0 L b :
    b0 < len binarydata ->
    unpack_Q (slice binarydata (b0 + 12) (b0 + 20)) = Ok L ->
    reaches_from binarydata (b0 + L + 20) b ->
    reaches_from binarydata b0 b.

(** A well-formed record of declared length [L]: 20 bytes of label, whose
    bytes 12..20 hold [L], and [L] more bytes. *)
Definition record_of_length (r : bytes) (L : Z) : Prop :=
  unpack_Q (slice r 12 20) = Ok L /\ len r = L + 20.

(** [get_data_types]: the format code of every SFDU, read at byte 31 of its
    byte range. *)
Definition get_data_types (self : t) : result (list Z) :=
  j ← sfdu_index (binarydata self);
  rmap (fun i =>
          a ← getitem j i;
          b ← getitem j (i + 1);
          unpack_B (slice (slice (binarydata self) a b) 31 32))
       (range (len j - 1)).

Section Decode.
Context `{SFDU.Components}.

(** [Reader(filename)] *)
Definition new (path : string) : M t :=
  let filename := last_component "" path in
  binarydata ← read path;
  index ← lift (sfdu_index binarydata);
  mret (mk filename [] false binarydata index).

(** [decode(progress=False, label, agg_chdo, pri_chdo, sec_chdo,
    trk_chdo)]; the progress display, off by default and never switched
    on by the callers at hand, is left out. *)
Definition decode (self : t) (lbl agg pri sec trk : bool) : M t :=
  let ind := index self in
  let n := len ind - 1 in
  sfdus ← mmap (fun i =>
                  a ← lift (getitem ind i);
                  b ← lift (getitem ind (i + 1));
                  SFDU.decode (SFDU.set_number i SFDU.new)
                    (slice (binarydata self) a b) lbl agg pri sec trk)
               (range n);
  mret (mk (filename self) sfdus true (binarydata self) (index self)).

(** How record [s] of a decoded reader relates to its numbered frame [p],
    the three fixed headers having been asked for. *)
Definition decoded_from (sec trk : bool) (p : Z * bytes) (s : SFDU.t) : Prop :=
  SFDU.number s = fst p /\ SFDU.binarydata s = snd p /\
  SFDU.SFDULabel_decode (snd p) = Ok (SFDU.label s) /\
  SFDU.SFDUAggCHDO_decode (snd p) = Ok (SFDU.agg_chdo s) /\
  SFDU.PrimaryCHDO_decode (snd p) = Ok (SFDU.pri_chdo s) /\
  SFDU.sec_chdo s
  = SFDU.sec_after None (snd p)
      (SFDU.data_description_id (SFDU.label s)) sec /\
  SFDU.is_decoded s
  = SFDU.decoded_after (SFDU.data_description_id (SFDU.label s))
      (SFDU.format_code (SFDU.pri_chdo s)) sec trk.

End Decode.

End Reader.

(** ** Info.py *)

Module Info.

Record t : Type := mk {
  numRecords : Z;
  dataTypes : list Z;
  numberDataTypes : list Z;
  startTime : option datetime;
  endTime : option datetime;
  lastModified : option datetime;
  spacecraftId : list Z;
  dnlinkDssId : list Z;
  uplinkDssId : list Z;
  dnlinkBand : list string;
  uplinkBand : list string;
  trackingMode : list (option string);
  dataDescriptionIds : list string;
  dopplerCountTime : list Z;
  filename : option string
}.

(** The attributes as [__init__] sets them before the file is looked at. *)
Definition initial : t :=
  mk 0 [] [] None None None [] [] [] [] [] [] [] [] None.

Definition set_filename (v : string) (s : t) : t :=
  mk (numRecords s) (dataTypes s) (numberDataTypes s) (startTime s)
     (endTime s) (lastModified s) (spacecraftId s) (dnlinkDssId s)
     (uplinkDssId s) (dnlinkBand s) (uplinkBand s) (trackingMode s)
     (dataDescriptionIds s) (dopplerCountTime s) (Some v).

(** [[ i for i, e in enumerate(n) if e != 0 ]] *)
Definition nonzero_indices (n : list Z) : list Z :=
  map fst (List.filter (fun ie => negb (snd ie =? 0))
             (combine (range (len n)) n)).

(** The lists the station loop of [get_info] and of [quicklook] builds. *)
Record lists : Type := mk_lists {
  ul_dss_id : list Z;
  dl_dss_id : list Z;
  ul_band : list Z;
  dl_band : list Z;
  trk_mode : list (option string)
}.

Definition ddid (x : SFDU.t) : string :=
  SFDU.data_description_id (SFDU.label x).

Definition code (x : SFDU.t) : Z := SFDU.format_code (SFDU.pri_chdo x).

(** One turn of the station loop of [get_info]. *)
Definition station_step (acc : lists) (x : SFDU.t) : result lists :=
  let sec := SFDU.sec_chdo x in
  if decide (ddid x = "C123") then
    u ← getattr_opt sec "ul_dss_id";
    ub ← getattr_opt sec "ul_band";
    Ok (mk_lists (ul_dss_id acc ++ [u]) (dl_dss_id acc)
          (ul_band acc ++ [ub]) (dl_band acc) (trk_mode acc))
  else if decide (ddid x = "C124") then
    d ← getattr_opt sec "dl_dss_id";
    db ← getattr_opt sec "dl_band";
    m ← SFDU.tracking_mode x;
    Ok (mk_lists (ul_dss_id acc) (dl_dss_id acc ++ [d]) (ul_band acc)
          (dl_band acc ++ [db]) (trk_mode acc ++ [m]))
  else if decide (ddid x = "C125") then
    d ← getattr_opt sec "dl_dss_id";
    m ← SFDU.tracking_mode x;
    Ok (mk_lists (ul_dss_id acc) (dl_dss_id acc ++ [d]) (ul_band acc)
          (dl_band acc) (trk_mode acc ++ [m]))
  else if decide (ddid x = "C126") then
    u ← getattr_opt sec "ul_dss_id";
    d ← getattr_opt sec "dl_dss_id";
    d2 ← getattr_opt sec "dl_dss_id_2";
    db ← getattr_opt sec "dl_band";
    ub ← getattr_opt sec "ul_band";
    m ← SFDU.tracking_mode x;
    Ok (mk_lists (ul_dss_id acc ++ [u]) (dl_dss_id acc ++ [d; d2])
          (ul_band acc ++ [ub]) (dl_band acc ++ [db])
          (trk_mode acc ++ [m]))
  else if decide (ddid x = "C127") then
    d ← getattr_opt sec "dl_dss_id";
    db ← getattr_opt sec "dl_band";
    m ← SFDU.tracking_mode x;
    Ok (mk_lists (ul_dss_id acc) (dl_dss_id acc ++ [d]) (ul_band acc)
          (dl_band acc ++ [db]) (trk_mode acc ++ [m]))
  else Ok acc.

Fixpoint station_loop (acc : lists) (l : list SFDU.t) : result lists :=
  match l with
  | [] => Ok acc
  | x :: l' => acc' ← station_step acc x; station_loop acc' l'
  end.

(** The last statement of [get_info]: the count times of the records of
    format code 16. *)
Definition doppler_count_times (l : list SFDU.t) : result (list Z) :=
  ts ← rmap (fun x => getattr_opt (SFDU.sec_chdo x) "cnt_time")
            (List.filter (fun x => code x =? 16) l);
  Ok (list_set ts).

(** [get_info(f)]: the summary from the decoded records of [f]. *)
Definition get_info (self : t) (f : Reader.t) : result t :=
  let sfdu_list := Reader.sfdu_list f in
  let numRecords := len sfdu_list in
  let numberDataTypes := util.types code sfdu_list in
  let dataTypes := nonzero_indices numberDataTypes in
  let decoded := List.filter SFDU.is_decoded sfdu_list in
  dt ← rmap SFDU.timestamp decoded;
  startTime ← py_min dt;
  endTime ← py_max dt;
  dtm ← rmap SFDU.last_modified decoded;
  lastModified ← py_max dtm;
  scft ← rmap (fun x => getattr_opt (SFDU.sec_chdo x) "scft_id") decoded;
  let spacecraftId := list_set scft in
  let dataDescriptionIds := list_set (map ddid sfdu_list) in
  acc ← station_loop (mk_lists [] [] [] [] []) sfdu_list;
  let dnlinkDssId := list_set (dl_dss_id acc) in
  let uplinkDssId := list_set (ul_dss_id acc) in
  dnlinkBand ← rmap (dict_get util.bands) (list_set (dl_band acc));
  uplinkBand ← rmap (dict_get util.bands) (list_set (ul_band acc));
  let trackingMode := list_set (trk_mode acc) in
  dopplerCountTime ← doppler_count_times sfdu_list;
  Ok (mk numRecords dataTypes numberDataTypes (Some startTime)
        (Some endTime) (Some lastModified) spacecraftId dnlinkDssId
        uplinkDssId dnlinkBand uplinkBand trackingMode dataDescriptionIds
        dopplerCountTime (filename self)).

(** What the station loop of [quicklook] collects; [prdx_mode] holds the
    raw mode codes. *)
Record quick_lists : Type := mk_quick {
  q_data_description_id : list string;
  q_dl_dss_id : list Z;
  q_dl_band : list Z;
  q_ul_dss_id : list Z;
  q_ul_band : list Z;
  q_prdx_mode : list Z
}.

(** One turn of the station loop of [quicklook], on the bytes of one
    record. *)
Definition quick_step (acc : quick_lists) (bindata : bytes)
    : result quick_lists :=
  ddid ← unpack_4s_ascii (slice bindata 8 12);
  let acc := mk_quick (q_data_description_id acc ++ [ddid])
               (q_dl_dss_id acc) (q_dl_band acc) (q_ul_dss_id acc)
               (q_ul_band acc) (q_prdx_mode acc) in
  acc ← (if decide (ddid = "C124") then
           d ← unpack_B (slice bindata 66 67);
           b ← unpack_B (slice bindata 67 68);
           m ← unpack_B (slice bindata 69 70);
           Ok (mk_quick (q_data_description_id acc) (q_dl_dss_id acc ++ [d])
                 (q_dl_band acc ++ [b]) (q_ul_dss_id acc) (q_ul_band acc)
                 (q_prdx_mode acc ++ [m]))
         else Ok acc);
  if decide (ddid = "C123") then
    u ← unpack_B (slice bindata 66 67);
    b ← unpack_B (slice bindata 67 68);
    Ok (mk_quick (q_data_description_id acc) (q_dl_dss_id acc)
          (q_dl_band acc) (q_ul_dss_id acc ++ [u]) (q_ul_band acc ++ [b])
          (q_prdx_mode acc))
  else Ok acc.

Fixpoint quick_loop (f : Reader.t) (acc : quick_lists) (idx : list Z)
    : result quick_lists :=
  match idx with
  | [] => Ok acc
  | i :: idx' =>
      a ← getitem (Reader.index f) i;
      b ← getitem (Reader.index f) (i + 1);
      acc' ← quick_step acc (slice (Reader.binarydata f) a b);
      quick_loop f acc' idx'
  end.

Section Summaries.
Context `{SFDU.Components}.

(** [quicklook(f)]: the summary from the index of [f] and reads at fixed
    offsets; only the first and the last record are decoded. *)
Definition quicklook (self : t) (f : Reader.t) : M t :=
  _ ← print "Getting data type list...";
  let numRecords := len (Reader.index f) - 1 in
  format_codes ← lift (Reader.get_data_types f);
  let numberDataTypes := util.types (fun s : Z => s) format_codes in
  let dataTypes := nonzero_indices numberDataTypes in
  _ ← print "Getting DSS information...";
  acc ← lift (quick_loop f (mk_quick [] [] [] [] [] [])
                (range (len (Reader.index f) - 1)));
  let dataDescriptionIds := list_set (q_data_description_id acc) in
  let dnlinkDssId := list_set (q_dl_dss_id acc) in
  let uplinkDssId := list_set (q_ul_dss_id acc) in
  dnlinkBand ← lift (rmap (dict_get util.bands)
                       (list_set (q_dl_band acc)));
  uplinkBand ← lift (rmap (dict_get util.bands)
                       (list_set (q_ul_band acc)));
  let trackingMode :=
    map (fun x => Some (fmt_d x +:+ "W"))
      (List.filter (fun x => (x =? 1) || (x =? 2) || (x =? 3))
         (list_set (q_prdx_mode acc))) in
  _ ← print "Getting timestamps...";
  a0 ← lift (getitem (Reader.index f) 0);
  a1 ← lift (getitem (Reader.index f) 1);
  start ← SFDU.decode SFDU.new (slice (Reader.binarydata f) a0 a1)
            true true true true true;
  b0 ← lift (getitem (Reader.index f) (-2));
  b1 ← lift (getitem (Reader.index f) (-1));
  end_ ← SFDU.decode SFDU.new (slice (Reader.binarydata f) b0 b1)
           true true true true true;
  startTime ← lift (SFDU.timestamp start);
  endTime ← lift (SFDU.timestamp end_);
  lastModified ← lift (SFDU.timestamp end_);
  scft ← lift (getattr_opt (SFDU.sec_chdo start) "scft_id");
  mret (mk numRecords dataTypes numberDataTypes (Some startTime)
          (Some endTime) (Some lastModified) [scft] dnlinkDssId
          uplinkDssId dnlinkBand uplinkBand trackingMode
          dataDescriptionIds (dopplerCountTime self) (filename self)).

(** [Info(f, quicklook)]: the summary, and the reader, which the full
    path decodes when it was not yet. *)
Definition new (f : Reader.t) (quick : bool) : M (t * Reader.t) :=
  f ← (if negb quick
       then if negb (Reader.is_decoded f)
            then Reader.decode f true true true true false
            else mret f
       else mret f);
  self ← (if quick
          then _ ← print ("Running `quicklook` algorithm. This "
                  +:+ "algorithm is fast, but is not as "
                  +:+ "detailed/accurate as the default...");
               quicklook initial f
          else lift (get_info initial f));
  mret (set_filename (Reader.filename f) self, f).

End Summaries.

End Info.

(** ** scripts/trk234_regroup.py *)

Module trk234_regroup.

Record args : Type := mk_args {
  Input : string;
  Output : string;
  verbose : bool;
  prompt : bool;
  validate : bool
}.

(** [print_log(message, verbose)] *)
Definition print_log (message : string) (verbose : bool) : M unit :=
  if verbose then print message else mret tt.

Definition sort_types : list Z := range 18.

(** [[ x for x in sfdus if x.pri_chdo.format_code == i ]] *)
Definition matching (sfdus : list SFDU.t) (i : Z) : list SFDU.t :=
  List.filter (fun x => Info.code x =? i) sfdus.

(** The records in the order the grouping loop writes them. *)
Definition written (sfdus : list SFDU.t) : list SFDU.t :=
  concat (map (matching sfdus) sort_types).

(** The grouping loop: for each type in turn, write the matching SFDUs and
    log their number. *)
Definition group_and_write (a : args) (sfdus : list SFDU.t) : M unit :=
  for_each sort_types (fun i =>
    let sfdu_list := matching sfdus i in
    _ ← for_each sfdu_list (fun s => write (Output a) (SFDU.binarydata s));
    print_log ("   Wrote " +:+ fmt_d (len sfdu_list)
                 +:+ " SFDUs in file of data type " +:+ fmt_02i i
                 +:+ " to output") (verbose a)).

(** The bytes of a list of records one after the other, and their
    number. *)
Definition bytes_of (sfdus : list SFDU.t) : bytes :=
  concat (map SFDU.binarydata sfdus).

Definition byte_count (sfdus : list SFDU.t) : Z :=
  fold_right (fun s n => len (SFDU.binarydata s) + n) 0 sfdus.

(** The records whose format code the grouping loop looks for. *)
Definition surviving (sfdus : list SFDU.t) : list SFDU.t :=
  List.filter (fun x => bool_decide (Info.code x ∈ sort_types)) sfdus.

Definition row (c1 c2 c3 : string) : string :=
  rjust 10 c1 +:+ rjust 10 c2 +:+ rjust 10 c3.

Section Main.
Context `{SFDU.Components}.

(** The block under [if args.validate]. *)
Definition validation (a : args) (sfdus : list SFDU.t) : M unit :=
  f2 ← Reader.new (Input a);
  f2 ← Reader.decode f2 true true true false false;
  let sfdus2 := Reader.sfdu_list f2 in
  let n1 := len sfdus in
  let n2 := len sfdus2 in
  _ ← (if decide (n1 <> n2)
       then print "WARNING: files contain different number of SFDUs!"
       else mret tt);
  let n_type1 := util.types Info.code sfdus in
  let n_type2 := util.types Info.code sfdus2 in
  _ ← (if decide (n_type1 <> n_type2)
       then print "WARNING: files contain different numbers of data types!"
       else mret tt);
  _ ← print "Output Validation Results:";
  _ ← print (row "SFDU Type" "Input" "Output");
  _ ← print (row "Total" (fmt_d n1) (fmt_d n2));
  for_each sort_types (fun i =>
    c1 ← lift (getitem n_type1 i);
    c2 ← lift (getitem n_type2 i);
    print (row (fmt_d i) (fmt_d c1) (fmt_d c2))).

(** [main(args)].  Under [args.prompt] the script calls [raw_input],
    which Python 3 does not define. *)
Definition main (a : args) : M unit :=
  _ ← print_log ("Reading " +:+ Input a) (verbose a);
  f ← Reader.new (Input a);
  f ← Reader.decode f true true true false false;
  let sfdus := Reader.sfdu_list f in
  _ ← print_log ("Sorting " +:+ Input a +:+ " by file type ascending")
        (verbose a);
  _ ← (if prompt a then raise (NameError "raw_input") else mret tt);
  _ ← open_wb (Output a);
  _ ← print_log ("Beginning writing of binary data to " +:+ Output a)
        (verbose a);
  _ ← group_and_write a sfdus;
  _ ← print_log "Finished binary file write" (verbose a);
  if validate a then validation a sfdus else mret tt.

End Main.

End trk234_regroup.

(** ** scripts/trk234_purify.py *)

Module trk234_purify.

Record args : Type := mk_args {
  Input : string;
  Output : string;
  verbose : bool;
  prompt : bool;
  dl_band : option string;
  ul_band : option string;
  dl_dss_id : option Z;
  ul_dss_id : option Z;
  format_code : option Z
}.

Definition print_log (message : string) (verbose : bool) : M unit :=
  if verbose then print message else mret tt.

Definition dquote : string := String "034"%char EmptyString.

Definition discarding (s : SFDU.t) : string :=
  "Discarding SFDU " +:+ fmt_d (SFDU.number s).

(** A test of the loop on a station id: [None] when the record passes it,
    the log line when it is discarded. *)
Definition test_dss_id (wanted : option Z) (s : SFDU.t) (attr what : string)
    : result (option string) :=
  match wanted with
  | Some w =>
      if hasattr (SFDU.sec_chdo s) attr then
        v ← getattr_opt (SFDU.sec_chdo s) attr;
        if decide (w <> v) then
          Ok (Some (discarding s +:+ " - does not match user specified "
                      +:+ what +:+ " (" +:+ fmt_d w +:+ ", this one = "
                      +:+ fmt_d v +:+ ")"))
        else Ok None
      else Ok None
  | None => Ok None
  end.

(** The same on a band, compared by name. *)
Definition test_band (wanted : option string) (s : SFDU.t)
    (attr what : string) : result (option string) :=
  match wanted with
  | Some w =>
      if hasattr (SFDU.sec_chdo s) attr then
        v ← getattr_opt (SFDU.sec_chdo s) attr;
        name ← dict_get util.bands v;
        if decide (w <> name) then
          Ok (Some (discarding s +:+ " - does not match user specified "
                      +:+ what +:+ "(" +:+ w +:+ ", this one = " +:+ name
                      +:+ ")"))
        else Ok None
      else Ok None
  | None => Ok None
  end.

(** The tests of the loop body in order: the log line of the first test the
    record fails, [None] when it is to be written. *)
Definition discard_reason (a : args) (s : SFDU.t)
    : result (option string) :=
  if bool_decide (is_Some (util.data_descriptions !! Info.ddid s)) then
    if bool_decide (is_Some (util.format_codes !! Info.code s)) then
      match (match format_code a with
             | Some w =>
                 if decide (w <> Info.code s)
                 then Some (discarding s
                        +:+ " - does not match user specified format code ("
                        +:+ fmt_d w +:+ ", this one = "
                        +:+ fmt_d (Info.code s) +:+ ")")
                 else None
             | None => None
             end) with
      | Some msg => Ok (Some msg)
      | None =>
          r ← test_dss_id (ul_dss_id a) s "ul_dss_id" "uplink DSS ID";
          match r with
          | Some msg => Ok (Some msg)
          | None =>
          r ← test_band (ul_band a) s "ul_band" "uplink band ";
          match r with
          | Some msg => Ok (Some msg)
          | None =>
          r ← test_dss_id (dl_dss_id a) s "dl_dss_id" "downlink DSS ID";
          match r with
          | Some msg => Ok (Some msg)
          | None => test_band (dl_band a) s "dl_band" "downlink band"
          end end end
      end
    else Ok (Some (discarding s +:+ " - invalid CHDO format code of "
                     +:+ fmt_d (Info.code s)))
  else Ok (Some (discarding s +:+ " - invalid CHDO data description of "
                   +:+ dquote +:+ Info.ddid s +:+ dquote)).

(** No filter was asked for on the command line. *)
Definition permissive (a : args) : Prop :=
  format_code a = None /\ ul_dss_id a = None /\ ul_band a = None /\
  dl_dss_id a = None /\ dl_band a = None.

(** The record has one of the five data description ids and one of the
    eighteen format codes. *)
Definition known (s : SFDU.t) : bool :=
  bool_decide (is_Some (util.data_descriptions !! Info.ddid s))
  && bool_decide (is_Some (util.format_codes !! Info.code s)).

Definition kept (sfdus : list SFDU.t) : list SFDU.t :=
  List.filter known sfdus.

(** One turn of the loop over the SFDUs. *)
Definition purify_step (a : args) (s : SFDU.t) : M unit :=
  r ← lift (discard_reason a s);
  match r with
  | Some msg => print_log msg (verbose a)
  | None => write (Output a) (SFDU.binarydata s)
  end.

Section Main.
Context `{SFDU.Components}.

Definition main (a : args) : M unit :=
  _ ← print_log ("Reading " +:+ Input a) (verbose a);
  f ← Reader.new (Input a);
  f ← Reader.decode f true true true true false;
  _ ← (if prompt a then raise (NameError "raw_input") else mret tt);
  _ ← open_wb (Output a);
  _ ← print_log ("Beginning writing of binary data to " +:+ Output a)
        (verbose a);
  _ ← for_each (Reader.sfdu_list f) (purify_step a);
  print_log "Finished binary file write" (verbose a).

End Main.

End trk234_purify.

(** ** src/trk234/scripts/trk234_info.py *)

Module trk234_info.

(** [sorted(pairs, key=lambda pair: pair[0])]: Python's sort is stable, so
    the result is the one of inserting each pair, from the last to the
    first, before the pairs whose key is not smaller. *)
Fixpoint insert_pair {B} (p : datetime * B) (l : list (datetime * B))
  : list (datetime * B) :=
  match l with
  | [] => [p]
  | q :: l' => if p.1 <=? q.1 then p :: l else q :: insert_pair p l'
  end.

Definition sorted_by_first {B} (pairs : list (datetime * B))
  : list (datetime * B) :=
  fold_right insert_pair [] pairs.

(** [two_list_sort(list1, list2)].  Unzipping the sorted pairs gives their
    two columns, and nothing at all when there is no pair, where [sort[0]]
    raises. *)
Definition two_list_sort {B} (list1 : list datetime) (list2 : list B)
  : result (list datetime * list B) :=
  match sorted_by_first (zip list1 list2) with
  | [] => Err IndexError
  | pairs => Ok (pairs.*1, pairs.*2)
  end.

End trk234_info.

(** ** The accessors of a record, as the specification words them *)

Module Accessors.

(** Leap years of the Gregorian calendar, and the days of a year. *)
Definition is_leap (year : Z) : bool :=
  (year mod 4 =? 0) && (negb (year mod 100 =? 0) || (year mod 400 =? 0)).

Definition days_in_year (year : Z) : Z :=
  if is_leap year then 366 else 365.

(** The days of the years 1..n together. *)
Fixpoint days_in_years (n : nat) : Z :=
  match n with
  | O => 0
  | S n' => days_in_years n' + days_in_year (Z.of_nat n)
  end.

(** The day number of January 1 of [year], 0001-01-01 being day 1. *)
Definition january_1 (year : Z) : Z :=
  1 + days_in_years (Z.to_nat (year - 1)).

(** (year, January 1) + (day-of-year - 1) days + seconds-of-day, the
    seconds given in microseconds; the result counts microseconds from the
    start of day 0. *)
Definition absolute_time (year doy sec : Z) : datetime :=
  (january_1 year + (doy - 1)) * us_per_day + sec.

(** The times a [datetime] can hold: 0001-01-01 to 9999-12-31. *)
Definition representable (time : datetime) : Prop :=
  0 < time / us_per_day <= MAXORDINAL.

(** [us] microseconds are the seconds [m * 2^e] to the microsecond: those
    seconds exactly when they are whole, and less than a microsecond away
    from them otherwise. *)
Definition seconds_to_the_microsecond (m e us : Z) : Prop :=
  if 0 <=? e then us = m * 2 ^ e * 1000000
  else Z.abs (us * 2 ^ (- e) - m * 1000000) < 2 ^ (- e).

(** The label of a tracking mode code 0..4. *)
Definition mode_label (mode ul_prdx_stn : Z) : string :=
  if mode =? 0 then "None"
  else if mode =? 1 then "1W"
  else if mode =? 2 then "2W"
  else if mode =? 3 then "3W/" +:+ pretty ul_prdx_stn
  else "Invalid".

End Accessors.

(** ** trk234.components, and records to run the code on *)

Module components.

(** [struct.unpack] of one unsigned big-endian field of [n] bytes. *)
Definition unpack_be (n : nat) (bs : bytes) : result Z :=
  if decide (length bs = n) then Ok (be_value bs) else Err struct_error.

(** The field at [a..z] of a record. *)
Definition field (b : bytes) (a z : Z) : result Z :=
  unpack_be (Z.to_nat (z - a)) (slice b a z).

Definition read_fields (b : bytes) (fs : list (string * (Z * Z)))
    : result (gmap string Z) :=
  vs ← rmap (fun f => v ← field b (fst (snd f)) (snd (snd f));
                      Ok (fst f, v)) fs;
  Ok (list_to_map vs).

(** Fields every secondary header has. *)
Definition common_fields : list (string * (Z * Z)) :=
  [ ("chdo_type", (32, 34)); ("chdo_length", (34, 36));
    ("scft_id", (39, 40)); ("year", (44, 46)); ("doy", (46, 48));
    ("sec", (48, 56)); ("mod_day", (56, 58)); ("mod_msec", (58, 62)) ]%string.

Definition uplink_fields : list (string * (Z * Z)) :=
  [ ("ul_dss_id", (66, 67)); ("ul_band", (67, 68)) ]%string.

Definition downlink_fields : list (string * (Z * Z)) :=
  [ ("dl_dss_id", (66, 67)); ("dl_band", (67, 68));
    ("dl_chan_num", (68, 69)); ("prdx_mode", (69, 70));
    ("ul_prdx_stn", (70, 71)); ("ul_band_dl", (71, 72)) ]%string.

Definition derived_fields : list (string * (Z * Z)) :=
  downlink_fields ++ [ ("cnt_time", (72, 80)) ]%string.

Definition inferometric_fields : list (string * (Z * Z)) :=
  [ ("dl_dss_id", (66, 67)); ("dl_dss_id_2", (67, 68));
    ("dl_band", (68, 69)); ("prdx_mode", (69, 70));
    ("ul_prdx_stn", (70, 71)); ("ul_dss_id", (70, 71));
    ("ul_band", (71, 72)) ]%string.

Definition class_fields (c : string) : list (string * (Z * Z)) :=
  if decide (c = "UplinkCHDO") then common_fields ++ uplink_fields
  else if decide (c = "DownlinkCHDO") then common_fields ++ downlink_fields
  else if decide (c = "DerivedCHDO") then common_fields ++ derived_fields
  else if decide (c = "InferometricCHDO")
       then common_fields ++ inferometric_fields
  else if decide (c = "FilteredCHDO") then common_fields ++ downlink_fields
  else [ ("chdo_type", (0, 2)); ("chdo_length", (2, 4)) ]%string.

(** Modelled from the spec: the decoders of [trk234.components], a module
    of the package whose source is not among the files at hand.  The
    specification gives them fixed byte offsets within the record; the
    offsets the sources do show are kept (data description id at 8..12,
    format code at byte 31, station id, band and tracking mode at 66, 67
    and 69 of uplink and downlink headers), the others are this model's.
    The seconds of day are the double at 48..56.  The
    definition only serves to run the code on concrete records: every
    general statement below holds for any decoders. *)
Definition fixed_offsets : SFDU.Components := {|
  SFDU.SFDULabel_new := {| SFDU.data_description_id := "" |};
  SFDU.SFDULabel_decode b :=
    d ← unpack_4s_ascii (slice b 8 12);
    _ ← field b 12 20;
    Ok {| SFDU.data_description_id := d |};
  SFDU.SFDUAggCHDO_new := Object "SFDUAggCHDO" ∅;
  SFDU.SFDUAggCHDO_decode b :=
    a ← read_fields b [ ("chdo_type", (20, 22));
                        ("chdo_length", (22, 24)) ]%string;
    Ok (Object "SFDUAggCHDO" a);
  SFDU.PrimaryCHDO_new := {| SFDU.format_code := 0 |};
  SFDU.PrimaryCHDO_decode b :=
    c ← unpack_B (slice b 31 32);
    Ok {| SFDU.format_code := c |};
  SFDU.chdo_decode c b := read_fields b (class_fields c)
|}.

Definition byte_of (v : Z) : byte :=
  default x00 (Byte.of_N (Z.to_N (v mod 256))).

(** The [n]-byte big-endian encoding of [v]. *)
Fixpoint be_bytes (n : nat) (v : Z) : bytes :=
  match n with
  | O => []
  | S n' => be_bytes n' (v / 256) ++ [byte_of v]
  end.

Definition ascii_bytes (s : string) : bytes :=
  map byte_of_ascii (list_ascii_of_string s).

(** What the records built below differ in. *)
Record fields : Type := mk_fields {
  f_ddid : string;
  f_code : Z;
  f_year : Z;
  f_doy : Z;
  f_sec : Z;
  f_dss : Z;
  f_band : Z;
  f_mode : Z
}.

(** An 80-byte record, its label declaring the 60 bytes after it. *)
Definition record (f : fields) : bytes :=
  ascii_bytes "NJPL2I00" ++ ascii_bytes (f_ddid f) ++ be_bytes 8 60
    ++ be_bytes 2 1 ++ be_bytes 2 56
    ++ be_bytes 2 2 ++ be_bytes 2 4 ++ be_bytes 3 0 ++ be_bytes 1 (f_code f)
    ++ be_bytes 2 0 ++ be_bytes 2 0 ++ be_bytes 3 0 ++ be_bytes 1 7
    ++ be_bytes 4 0
    ++ be_bytes 2 (f_year f) ++ be_bytes 2 (f_doy f) ++ be_bytes 8 (f_sec f)
    ++ be_bytes 2 20000 ++ be_bytes 4 0 ++ be_bytes 4 0
    ++ be_bytes 1 (f_dss f) ++ be_bytes 1 (f_band f) ++ be_bytes 1 0
    ++ be_bytes 1 (f_mode f) ++ be_bytes 1 (f_dss f) ++ be_bytes 1 (f_band f)
    ++ be_bytes 8 0.

(** A label alone: 20 bytes declaring [L] more. *)
Definition label_only (L : Z) : bytes :=
  ascii_bytes "NJPL2I00" ++ ascii_bytes "C124" ++ be_bytes 8 L.

(** A whole record of declared length [L]: the label and [L] zero bytes. *)
Definition padded (L : Z) : bytes :=
  label_only L ++ replicate (Z.to_nat L) x00.

(** A decoded record holding the secondary header [sec] of a downlink
    record. *)
Definition sfdu_with (ddid : string) (sec : option object) : SFDU.t :=
  SFDU.mk [] 0 {| SFDU.data_description_id := ddid |}
    (Object "SFDUAggCHDO" ∅) {| SFDU.format_code := 1 |} sec None true.

Definition downlink_header (year doy sec mode stn : Z) : object :=
  Object "DownlinkCHDO"
    (list_to_map [ ("year", year); ("doy", doy); ("sec", sec);
                   ("prdx_mode", mode); ("ul_prdx_stn", stn) ]%string).

(** The bits of the doubles 4.0, 5.0, 5.5 and 6.0. *)
Definition seconds_4 : Z := 0x4010000000000000.
Definition seconds_5 : Z := 0x4014000000000000.
Definition seconds_5_5 : Z := 0x4016000000000000.
Definition seconds_6 : Z := 0x4018000000000000.

(** Records of a downlink pass: carrier phase at 5 s and 6 s of day 100 of
    2020, a ramp record of the uplink at 4 s, a record whose data description
    id is none of the five, one whose format code is 18, and a carrier
    observable (code 16) under an unknown data description id. *)
Definition carrier_5s : bytes :=
  record (mk_fields "C124" 1 2020 100 seconds_5 43 2 2).
Definition carrier_6s : bytes :=
  record (mk_fields "C124" 1 2020 100 seconds_6 43 2 2).
Definition ramp_4s : bytes :=
  record (mk_fields "C123" 9 2020 100 seconds_4 43 2 0).
Definition unknown_ddid : bytes :=
  record (mk_fields "C999" 1 2020 100 seconds_5_5 43 2 2).
Definition unknown_code : bytes :=
  record (mk_fields "C124" 18 2020 100 seconds_5_5 43 2 2).
Definition observable_unknown_ddid : bytes :=
  record (mk_fields "C999" 16 2020 100 seconds_5_5 43 2 2).

(** A reader as [Reader(path)] leaves it for a file holding [data]. *)
Definition reader_of (data : bytes) (ind : list Z) : Reader.t :=
  Reader.mk "in.tnf" [] false data ind.

(** Command lines of the two scripts: input [in.tnf], output [out.tnf],
    nothing else asked for but, for regroup, the validation. *)
Definition regroup_args (validate : bool) : trk234_regroup.args :=
  trk234_regroup.mk_args "in.tnf" "out.tnf" false false validate.

Definition purify_args : trk234_purify.args :=
  trk234_purify.mk_args "in.tnf" "out.tnf" false false None None None None
    None.

Definition input_file (data : bytes) : world :=
  World [] {[ "in.tnf"%string := data ]}.

Definition no_files : world := World [] ∅.

(** The summary and the reader a run of [Info] ended with. *)
Definition summary_of (r : result (Info.t * Reader.t) * world) : Info.t :=
  match fst r with
  | Ok (i, _) => i
  | Err _ => Info.initial
  end.

Definition reader_after (r : result (Info.t * Reader.t) * world)
    : Reader.t :=
  match fst r with
  | Ok (_, f) => f
  | Err _ => reader_of [] []
  end.

(** Two carrier records, the later one first, and the two summaries of that
    stream. *)
Definition later_first : Reader.t :=
  reader_of (carrier_6s ++ carrier_5s) [0; 80; 160].

Definition later_first_full : result (Info.t * Reader.t) * world :=
  Info.new (H := fixed_offsets) later_first false no_files.

Definition later_first_fast : result (Info.t * Reader.t) * world :=
  Info.new (H := fixed_offsets) later_first true no_files.

(** The stream of codes 1, 9, 1 and its two summaries. *)
Definition pass_191 : Reader.t :=
  reader_of (carrier_5s ++ ramp_4s ++ carrier_6s) [0; 80; 160; 240].

Definition pass_191_full : result (Info.t * Reader.t) * world :=
  Info.new (H := fixed_offsets) pass_191 false no_files.

Definition pass_191_fast : result (Info.t * Reader.t) * world :=
  Info.new (H := fixed_offsets) pass_191 true no_files.


End components.

(** ** What the results of the code are compared with *)

Module Expected.

(** The boundaries of records laid one after the other from [b] on. *)
Fixpoint boundaries (b : Z) (rs : list bytes) : list Z :=
  match rs with
  | [] => [b]
  | r :: rs' => b :: boundaries (b + len r) rs'
  end.

(** A record that has the length its label declares. *)
Definition whole (r : bytes) : Prop :=
  exists L, Reader.record_of_length r L.

(** The value of byte [i] of a record, 0 when the record is shorter. *)
Definition byte_at (fr : bytes) (i : nat) : Z :=
  from_option byte_val 0 (fr !! i).

(** ['/' in s] *)
Fixpoint has_slash (s : string) : bool :=
  match s with
  | EmptyString => false
  | String c rest => Ascii.eqb c "/"%char || has_slash rest
  end.

(** Attribute [a] of a secondary header, [dflt] when the header is absent
    or has no such attribute. *)
Definition attr_or (o : option object) (a : string) (dflt : Z) : Z :=
  match o with
  | Some o' => default dflt (attrs o' !! a)
  | None => dflt
  end.

(** [sum(l)] *)
Definition total (l : list Z) : Z := fold_right Z.add 0 l.

(** The station ids and the tracking mode a decoded record contributes to
    the full summary. *)
Definition uplink_station (x : SFDU.t) (v : Z) : Prop :=
  (Info.ddid x = "C123" \/ Info.ddid x = "C126") /\
  getattr_opt (SFDU.sec_chdo x) "ul_dss_id" = Ok v.

Definition downlink_station (x : SFDU.t) (v : Z) : Prop :=
  (Info.ddid x ∈ ["C124"; "C125"; "C126"; "C127"]%string /\
   getattr_opt (SFDU.sec_chdo x) "dl_dss_id" = Ok v) \/
  (Info.ddid x = "C126" /\
   getattr_opt (SFDU.sec_chdo x) "dl_dss_id_2" = Ok v).

Definition mode_of (x : SFDU.t) (m : option string) : Prop :=
  Info.ddid x ∈ ["C124"; "C125"; "C126"; "C127"]%string /\
  SFDU.tracking_mode x = Ok m.


(** The record passes every test of the loop of the purify script. *)
Definition selected (a : trk234_purify.args) (s : SFDU.t) : bool :=
  match trk234_purify.discard_reason a s with
  | Ok None => true
  | _ => false
  end.




(** Pairs compared by their first component. *)
Definition by_first {B} : relation (datetime * B) := fun p q => p.1 <= q.1.

(** A computation that prints nothing. *)
Definition keeps_stdout {A} (m : M A) : Prop :=
  forall w, stdout (snd (m w)) = stdout w.

End Expected.

(** * Properties *)

(** ** Slices, indices and the two monads *)

(** Case analysis on the integer comparisons of the goal. *)
Ltac case_cmp :=
  repeat match goal with
    | |- context [?a <? ?b] => destruct (Z.ltb_spec a b); try lia
    | |- context [?a <=? ?b] => destruct (Z.leb_spec a b); try lia
    | |- context [?a =? ?b] => destruct (Z.eqb_spec a b); try lia
    end.

Section PyFacts.
Context {A : Type}.
Implicit Types l : list A.

Lemma len_nonneg l : 0 <= len l.
Proof. unfold len. lia. Qed.

Lemma len_app l1 l2 : len (l1 ++ l2) = len l1 + len l2.
Proof. unfold len. rewrite length_app. lia. Qed.

Lemma slice_nonneg l a b :
  0 <= a -> 0 <= b ->
  slice l a b = take (Z.to_nat (b - a)) (drop (Z.to_nat a) l).
Proof.
  intros Ha Hb. unfold slice, clip.
  rewrite (proj2 (Z.ltb_ge a 0)), (proj2 (Z.ltb_ge b 0)) by lia.
  unfold len. destruct (decide (Z.of_nat (length l) <= a)) as [Hge|Hlt].
  - rewrite !(drop_ge l) by lia. by rewrite !take_nil.
  - rewrite (Z.min_l a) by lia.
    destruct (decide (b <= Z.of_nat (length l))) as [Hb'|Hb'].
    + by rewrite (Z.min_l b) by lia.
    + rewrite (Z.min_r b) by lia.
      rewrite !take_ge; [done|rewrite length_drop; lia..].
Qed.

Lemma slice_all_from l a b :
  0 <= a -> len l <= b -> slice l a b = drop (Z.to_nat a) l.
Proof.
  intros Ha Hb. pose proof (len_nonneg l).
  rewrite slice_nonneg by lia. unfold len in *.
  apply take_ge. rewrite length_drop. lia.
Qed.

Lemma slice_app_l l1 l2 a b :
  0 <= a -> 0 <= b <= len l1 -> slice (l1 ++ l2) a b = slice l1 a b.
Proof.
  intros Ha Hb. rewrite !slice_nonneg by lia. unfold len in *.
  destruct (decide (a <= b)) as [Hab|Hab].
  - rewrite drop_app_le by lia.
    rewrite take_app_le; [done|]. rewrite length_drop. lia.
  - replace (Z.to_nat (b - a)) with 0%nat by lia. by rewrite !take_0.
Qed.

Lemma slice_app_r l1 l2 a b :
  0 <= a -> 0 <= b ->
  slice (l1 ++ l2) (len l1 + a) (len l1 + b) = slice l2 a b.
Proof.
  intros Ha Hb. pose proof (len_nonneg l1).
  rewrite !slice_nonneg by lia. unfold len.
  replace (Z.to_nat (Z.of_nat (length l1) + a))
    with (length l1 + Z.to_nat a)%nat by lia.
  rewrite drop_app_add.
  by replace (Z.of_nat (length l1) + b - (Z.of_nat (length l1) + a))
    with (b - a) by lia.
Qed.

Lemma slice_split l a b :
  0 <= a <= b ->
  slice l a b ++ drop (Z.to_nat b) l = drop (Z.to_nat a) l.
Proof.
  intros Hab. rewrite slice_nonneg by lia.
  replace (Z.to_nat b) with (Z.to_nat a + Z.to_nat (b - a))%nat by lia.
  rewrite <- drop_drop. apply take_drop.
Qed.

Lemma getitem_nonneg l i :
  0 <= i ->
  getitem l i = match l !! Z.to_nat i with
                | Some x => Ok x
                | None => Err IndexError
                end.
Proof.
  intros Hi. unfold getitem.
  rewrite (proj2 (Z.ltb_ge i 0)) by lia.
  by rewrite (proj2 (Z.ltb_ge i 0)) by lia.
Qed.

Lemma getitem_neg l i :
  i < 0 -> 0 <= len l + i -> getitem l i = getitem l (len l + i).
Proof.
  intros Hi Hl. rewrite (getitem_nonneg _ (len l + i)) by done.
  unfold getitem.
  rewrite (proj2 (Z.ltb_lt i 0)) by lia.
  by rewrite (proj2 (Z.ltb_ge (len l + i) 0)) by lia.
Qed.

Lemma getitem_last l x : getitem (l ++ [x]) (-1) = Ok x.
Proof.
  rewrite getitem_neg by (rewrite ?len_app; pose proof (len_nonneg l);
                          unfold len; simpl; lia).
  rewrite getitem_nonneg by (rewrite len_app; pose proof (len_nonneg l);
                             unfold len; simpl; lia).
  rewrite len_app. unfold len.
  by rewrite (list_lookup_middle l [] x) by (simpl; lia).
Qed.

Lemma getitem_nat l (i : nat) x :
  l !! i = Some x -> getitem l (Z.of_nat i) = Ok x.
Proof.
  intros Hi. rewrite getitem_nonneg by lia. by rewrite Nat2Z.id, Hi.
Qed.

End PyFacts.

Lemma byte_val_range b : 0 <= byte_val b < 256.
Proof. unfold byte_val. pose proof (Byte.to_N_bounded b). lia. Qed.

Lemma be_value_nonneg bs : 0 <= be_value bs.
Proof.
  unfold be_value.
  assert (G : forall acc, 0 <= acc ->
            0 <= fold_left (fun acc b => acc * 256 + byte_val b) bs acc).
  { induction bs as [|b bs IH]; intros acc Hacc; simpl; [done|].
    apply IH. pose proof (byte_val_range b). lia. }
  by apply G.
Qed.

Lemma unpack_Q_nonneg bs L : unpack_Q bs = Ok L -> 0 <= L.
Proof.
  unfold unpack_Q. case_decide; [|done].
  intros [= <-]. apply be_value_nonneg.
Qed.

(** ** Framing *)

Section FramingFacts.
Import Reader.
Implicit Types data : bytes.

Lemma chain_from_head data b ch :
  chain_from data b ch -> exists rest, ch = b :: rest.
Proof. destruct 1; eauto. Qed.

Lemma chain_from_functional data b ch1 ch2 :
  chain_from data b ch1 -> chain_from data b ch2 -> ch1 = ch2.
Proof.
  intros H1. revert ch2.
  induction H1 as [b Hb|b L rest Hb HL _ IH]; intros ch2 H2.
  - inversion H2; subst; [done|lia].
  - inversion H2 as [|? L' rest' ? HL' Hrest']; subst; [lia|].
    rewrite HL in HL'. injection HL' as <-. f_equal. by apply IH.
Qed.

Lemma sfdu_index_loop_sound fuel data pre b ind :
  sfdu_index_loop fuel data (len data) (pre ++ [b]) b b = Ok ind ->
  exists ch, chain_from data b ch /\ ind = pre ++ ch.
Proof.
  revert pre b. induction fuel as [|fuel IH]; intros pre b; simpl.
  - destruct (Z.ltb_spec b (len data)); [done|].
    intros [= <-]. exists [b]. split; [by constructor|done].
  - destruct (Z.ltb_spec b (len data)).
    + destruct (unpack_Q _) as [L|] eqn:HL; simpl; [|done].
      rewrite getitem_last. simpl. intros Hloop.
      apply (IH (pre ++ [b])) in Hloop as (ch & Hch & ->).
      exists (b :: ch). split.
      * econstructor; [done|exact HL|].
        by replace (b + L + 20) with (L + 20 + b) by lia.
      * by rewrite <- app_assoc.
    + intros [= <-]. exists [b]. split; [by constructor|done].
Qed.

Lemma sfdu_index_loop_complete data b ch :
  chain_from data b ch ->
  forall fuel pre,
    len data - b <= Z.of_nat fuel ->
    sfdu_index_loop fuel data (len data) (pre ++ [b]) b b = Ok (pre ++ ch).
Proof.
  induction 1 as [b Hb|b L rest Hb HL _ IH]; intros fuel pre Hfuel.
  - destruct fuel; simpl; destruct (Z.ltb_spec b (len data)); done || lia.
  - destruct fuel as [|fuel]; [lia|]. simpl.
    destruct (Z.ltb_spec b (len data)); [|lia].
    rewrite HL. simpl. rewrite getitem_last. simpl.
    pose proof (unpack_Q_nonneg _ _ HL).
    replace (L + 20 + b) with (b + L + 20) by lia.
    rewrite (IH fuel (pre ++ [b])) by lia.
    by rewrite <- app_assoc.
Qed.

Lemma sfdu_index_loop_fuel fuel data pre b :
  len data - b <= Z.of_nat fuel ->
  sfdu_index_loop fuel data (len data) (pre ++ [b]) b b <> Err out_of_fuel.
Proof.
  revert pre b. induction fuel as [|fuel IH]; intros pre b Hfuel; simpl.
  - destruct (Z.ltb_spec b (len data)); [lia|done].
  - destruct (Z.ltb_spec b (len data)); [|done].
    destruct (unpack_Q _) as [L|e] eqn:HL; simpl.
    + rewrite getitem_last. simpl.
      pose proof (unpack_Q_nonneg _ _ HL).
      apply (IH (pre ++ [b])). lia.
    + revert HL. unfold unpack_Q. case_decide; [done|]. by intros [= <-].
Qed.

Lemma sfdu_index_chain data ind :
  sfdu_index data = Ok ind <-> declared_length_chain data ind.
Proof.
  unfold sfdu_index, declared_length_chain. split.
  - intros Hloop. apply (sfdu_index_loop_sound _ _ []) in Hloop.
    by destruct Hloop as (ch & Hch & ->).
  - intros Hch.
    apply (sfdu_index_loop_complete _ _ _ Hch (length data) []).
    unfold len. lia.
Qed.

Lemma sfdu_index_terminates data : sfdu_index data <> Err out_of_fuel.
Proof.
  unfold sfdu_index. apply (sfdu_index_loop_fuel _ _ []). unfold len. lia.
Qed.

End FramingFacts.

Section FramesFacts.
Import Reader.
Implicit Types data : bytes.

Lemma length_slice {A} (l : list A) a b :
  0 <= a -> 0 <= b ->
  len (slice l a b) = Z.max 0 (Z.min (b - a) (len l - a)).
Proof.
  intros Ha Hb. rewrite slice_nonneg by lia. unfold len.
  rewrite length_take, length_drop. lia.
Qed.

Lemma unpack_Q_slice_ok data b :
  0 <= b ->
  b + 20 <= len data <->
  exists L, unpack_Q (slice data (b + 12) (b + 20)) = Ok L.
Proof.
  intros Hb.
  pose proof (length_slice data (b + 12) (b + 20) ltac:(lia) ltac:(lia))
    as Hl.
  unfold unpack_Q, len in *. split.
  - intros Hlen. case_decide; [eauto|]. lia.
  - intros [L HL]. case_decide; [|done]. lia.
Qed.

Lemma unpack_Q_err bs e : unpack_Q bs = Err e -> e = struct_error.
Proof. unfold unpack_Q. case_decide; [done|]. by intros [= <-]. Qed.

Lemma chain_from_shape data b ch :
  chain_from data b ch -> 0 <= b ->
  exists body e,
    ch = body ++ [e] /\
    Forall (fun x => 0 <= x < len data) body /\ len data <= e.
Proof.
  induction 1 as [b Hb|b L rest Hb HL _ IH]; intros H0.
  - exists [], b. by repeat split.
  - pose proof (unpack_Q_nonneg _ _ HL).
    destruct IH as (body & e & -> & Hbody & He); [lia|].
    exists (b :: body), e. repeat split; [|done].
    constructor; [lia|done].
Qed.

Lemma chain_from_frames data b ch :
  chain_from data b ch -> 0 <= b ->
  concat (frames data ch) = drop (Z.to_nat b) data.
Proof.
  induction 1 as [b Hb|b L rest Hb HL Hrest IH]; intros H0.
  - simpl. symmetry. apply drop_ge. unfold len in *. lia.
  - pose proof (unpack_Q_nonneg _ _ HL).
    destruct (chain_from_head _ _ _ Hrest) as [rest' ->].
    change (frames data (b :: b + L + 20 :: rest'))
      with (slice data b (b + L + 20)
              :: frames data (b + L + 20 :: rest')).
    rewrite concat_cons, IH by lia. apply slice_split. lia.
Qed.

Lemma sfdu_index_loop_err fuel data pre b e :
  0 <= b ->
  sfdu_index_loop fuel data (len data) (pre ++ [b]) b b = Err e ->
  e = out_of_fuel \/
  (e = struct_error /\
   exists b', reaches_from data b b' /\ b' < len data < b' + 20).
Proof.
  revert pre b. induction fuel as [|fuel IH]; intros pre b Hb; simpl.
  - case_cmp; [|done]. intros [= <-]. by left.
  - case_cmp; [|done].
    destruct (unpack_Q _) as [L|e'] eqn:HL; simpl.
    + rewrite getitem_last. simpl. intros Hloop.
      pose proof (unpack_Q_nonneg _ _ HL).
      apply (IH (pre ++ [b])) in Hloop as [->|(-> & b' & Hr & Hb')];
        [by left|..|lia].
      right. split; [done|]. exists b'. split; [|done].
      econstructor; [done|exact HL|].
      by replace (b + L + 20) with (L + 20 + b) by lia.
    + intros [= <-]. right. split; [by eapply unpack_Q_err|].
      exists b. split; [constructor|]. split; [done|].
      destruct (decide (b + 20 <= len data)) as [Hle|]; [|lia].
      apply unpack_Q_slice_ok in Hle as [L' HL']; [|done]. congruence.
Qed.

Lemma chain_from_reaches data b0 b ch :
  reaches_from data b0 b -> chain_from data b0 ch -> 0 <= b0 ->
  b < len data -> b + 20 <= len data.
Proof.
  intros Hr. revert ch.
  induction Hr as [b|b0 L b H0 HL _ IH]; intros ch Hch Hb0 Hb.
  - inversion Hch as [|? L ? ? HL]; subst; [lia|].
    apply unpack_Q_slice_ok; eauto.
  - inversion Hch as [|? L' rest ? HL' Hrest]; subst; [lia|].
    pose proof (unpack_Q_nonneg _ _ HL).
    assert (L' = L) as -> by congruence.
    apply (IH rest); [done|lia|done].
Qed.

Lemma sfdu_index_frames data ind :
  sfdu_index data = Ok ind -> concat (frames data ind) = data.
Proof.
  intros Hch%sfdu_index_chain.
  by rewrite (chain_from_frames _ _ _ Hch).
Qed.

Lemma sfdu_index_err_inv data e :
  sfdu_index data = Err e ->
  e = struct_error /\
  exists b, reaches_from data 0 b /\ b < len data < b + 20.
Proof.
  intros He. pose proof (sfdu_index_terminates data) as Hfuel.
  rewrite He in Hfuel. unfold sfdu_index in He.
  apply (sfdu_index_loop_err _ _ []) in He; [|lia].
  destruct He as [->|He]; done.
Qed.

Lemma sfdu_index_err data e :
  sfdu_index data = Err e <->
  e = struct_error /\
  exists b, reaches_from data 0 b /\ b < len data < b + 20.
Proof.
  split; [apply sfdu_index_err_inv|].
  intros (-> & b & Hr & Hb).
  destruct (sfdu_index data) as [ind|e] eqn:Hidx.
  - apply sfdu_index_chain in Hidx.
    pose proof (chain_from_reaches _ _ _ _ Hr Hidx). lia.
  - by apply sfdu_index_err_inv in Hidx as [-> _].
Qed.

Lemma record_of_length_len r L : record_of_length r L -> 20 <= len r.
Proof. intros [HL Hlen]. pose proof (unpack_Q_nonneg _ _ HL). lia. Qed.

Lemma three_record_chain r1 r2 r3 L1 L2 L3 :
  record_of_length r1 L1 -> record_of_length r2 L2 ->
  record_of_length r3 L3 ->
  declared_length_chain (r1 ++ r2 ++ r3)
    [0; L1 + 20; L1 + L2 + 40; L1 + L2 + L3 + 60].
Proof.
  intros H1 H2 H3.
  pose proof (record_of_length_len _ _ H1).
  pose proof (record_of_length_len _ _ H2).
  pose proof (record_of_length_len _ _ H3).
  destruct H1 as [HL1 Hl1], H2 as [HL2 Hl2], H3 as [HL3 Hl3].
  unfold declared_length_chain.
  assert (Hlen : len (r1 ++ r2 ++ r3) = L1 + L2 + L3 + 60)
    by (rewrite !len_app; lia).
  apply (chain_step _ 0 L1); [lia| |].
  { change (0 + 12) with 12. change (0 + 20) with 20.
    rewrite slice_app_l by lia. exact HL1. }
  replace (0 + L1 + 20) with (L1 + 20) by lia.
  apply (chain_step _ _ L2); [lia| |].
  { replace (L1 + 20 + 12) with (len r1 + 12) by lia.
    replace (L1 + 20 + 20) with (len r1 + 20) by lia.
    rewrite slice_app_r by lia. rewrite slice_app_l by lia. exact HL2. }
  replace (L1 + 20 + L2 + 20) with (L1 + L2 + 40) by lia.
  apply (chain_step _ _ L3); [lia| |].
  { rewrite app_assoc.
    replace (L1 + L2 + 40 + 12) with (len (r1 ++ r2) + 12)
      by (rewrite len_app; lia).
    replace (L1 + L2 + 40 + 20) with (len (r1 ++ r2) + 20)
      by (rewrite len_app; lia).
    rewrite slice_app_r by lia. exact HL3. }
  replace (L1 + L2 + 40 + L3 + 20) with (L1 + L2 + L3 + 60) by lia.
  apply chain_stop. lia.
Qed.

End FramesFacts.

(** ** The framing indexer follows the declared-length chain *)

Section FramingTheorems.
Import Reader components.

(** C1.  For every byte buffer, [sfdu_index] returns a boundary list
    exactly when that list is the declared-length chain of the buffer:
    first boundary 0, each next boundary the current one plus the 8-byte
    big-endian length at offsets 12..20 of the record plus 20, until a
    boundary reaches or passes the buffer length.  The loop always ends
    within its fuel.  In particular a stream of three whole records of
    declared lengths L1, L2, L3 is indexed as
    [0, L1+20, L1+L2+40, L1+L2+L3+60]. *)
Theorem sfdu_index_declared_length_chain :
  (forall data ind,
      sfdu_index data = Ok ind <-> declared_length_chain data ind) /\
  (forall data, sfdu_index data <> Err out_of_fuel) /\
  (forall r1 r2 r3 L1 L2 L3,
      record_of_length r1 L1 ->
      record_of_length r2 L2 ->
      record_of_length r3 L3 ->
      sfdu_index (r1 ++ r2 ++ r3)
      = Ok [0; L1 + 20; L1 + L2 + 40; L1 + L2 + L3 + 60]).
Proof.
  split; [|split].
  - apply sfdu_index_chain.
  - apply sfdu_index_terminates.
  - intros r1 r2 r3 L1 L2 L3 H1 H2 H3.
    apply sfdu_index_chain. by apply three_record_chain.
Qed.

Lemma sfdu_index_declared_length_chain_witness :
  record_of_length (padded 5) 5 /\
  record_of_length (padded 0) 0 /\
  record_of_length (padded 12) 12 /\
  sfdu_index (padded 5 ++ padded 0 ++ padded 12) = Ok [0; 25; 45; 77].
Proof.
  assert (H1 : record_of_length (padded 5) 5) by (split; reflexivity).
  assert (H2 : record_of_length (padded 0) 0) by (split; reflexivity).
  assert (H3 : record_of_length (padded 12) 12) by (split; reflexivity).
  split; [exact H1|]. split; [exact H2|]. split; [exact H3|].
  exact (proj2 (proj2 sfdu_index_declared_length_chain)
           (padded 5) (padded 0) (padded 12) 5 0 12 H1 H2 H3).
Defined.

(** A label that declares 5 bytes where none follow is indexed without an
    error, its end boundary 25 lying past the 20 bytes of the buffer: it
    is not so that a successful index always ends at the buffer length,
    nor that an overrunning chain is refused. *)
Lemma sfdu_index_overrun_accepted :
  sfdu_index (label_only 5) = Ok [0; 25] /\
  len (label_only 5) = 20 /\
  ~ (forall data ind,
        sfdu_index data = Ok ind ->
        exists body, ind = body ++ [len data]) /\
  ~ (forall data ind,
        declared_length_chain data ind ->
        Exists (fun b => len data < b) ind ->
        exists e, sfdu_index data = Err e).
Proof.
  assert (Hidx : sfdu_index (label_only 5) = Ok [0; 25]) by reflexivity.
  repeat split; try reflexivity.
  - intros Hall. destruct (Hall _ _ Hidx) as [body Hbody].
    assert (Hlast : last [0; 25] = last (body ++ [len (label_only 5)]))
      by (by rewrite Hbody).
    rewrite last_snoc in Hlast. simpl in Hlast. by injection Hlast.
  - intros Hall.
    destruct (Hall (label_only 5) [0; 25]) as [e He].
    + by apply sfdu_index_chain.
    + apply Exists_cons_tl, Exists_cons_hd. reflexivity.
    + by rewrite Hidx in He.
Qed.

(** C3, as the code behaves.  [sfdu_index] fails, with [struct.error],
    exactly when the chain reaches a boundary below the buffer length with
    fewer than 20 bytes after it.  In every other case it succeeds: the
    boundaries but the last lie inside the buffer, the last is at or past
    the buffer length, and the frames cut at the boundaries, the last one
    clipped to the end of the buffer, concatenate to the buffer. *)
Theorem sfdu_index_outcome data :
  match sfdu_index data with
  | Ok ind =>
      (exists body e,
          ind = body ++ [e] /\
          Forall (fun b => 0 <= b < len data) body /\ len data <= e) /\
      concat (frames data ind) = data /\
      ~ (exists b, reaches_from data 0 b /\ b < len data < b + 20)
  | Err e =>
      e = struct_error /\
      exists b, reaches_from data 0 b /\ b < len data < b + 20
  end.
Proof.
  destruct (sfdu_index data) as [ind|e] eqn:Hidx.
  - split; [|split].
    + apply sfdu_index_chain in Hidx.
      by apply (chain_from_shape _ _ _ Hidx).
    + by apply sfdu_index_frames.
    + intros Hb.
      assert (He : sfdu_index data = Err struct_error)
        by (by apply sfdu_index_err).
      congruence.
  - by apply sfdu_index_err.
Qed.

End FramingTheorems.

(** ** Record accessors *)

Section AccessorFacts.
Import Accessors.

Lemma days_in_year_step n :
  0 <= n ->
  days_before_year (n + 2) = days_before_year (n + 1) + days_in_year (n + 1).
Proof.
  intros Hn. unfold days_before_year, days_in_year, is_leap.
  replace (n + 2 - 1) with (n + 1) by lia.
  replace (n + 1 - 1) with n by lia.
  destruct (Z.eqb_spec ((n + 1) mod 4) 0);
    destruct (Z.eqb_spec ((n + 1) mod 100) 0);
    destruct (Z.eqb_spec ((n + 1) mod 400) 0); simpl;
    Z.to_euclidean_division_equations; lia.
Qed.

Lemma days_before_year_sum (n : nat) :
  days_before_year (Z.of_nat n + 1) = days_in_years n.
Proof.
  induction n as [|n IH]; [reflexivity|].
  simpl days_in_years. rewrite <- IH.
  replace (Z.of_nat (S n) + 1) with (Z.of_nat n + 2) by lia.
  replace (Z.of_nat (S n)) with (Z.of_nat n + 1) by lia.
  apply days_in_year_step. lia.
Qed.

Lemma datetime_jan1_spec year :
  MINYEAR <= year <= MAXYEAR ->
  datetime_jan1 year = Ok (january_1 year * us_per_day).
Proof.
  unfold MINYEAR, MAXYEAR. intros Hy. unfold datetime_jan1, january_1.
  rewrite (proj2 (Z.leb_le _ _)), (proj2 (Z.leb_le _ _))
    by (unfold MINYEAR, MAXYEAR; lia).
  simpl. rewrite <- days_before_year_sum, Z2Nat.id by lia.
  replace (year - 1 + 1) with year by lia. f_equal. lia.
Qed.

Lemma datetime_jan1_err year :
  ~ MINYEAR <= year <= MAXYEAR ->
  datetime_jan1 year
  = Err (ValueError ("year " +:+ pretty year +:+ " is out of range")).
Proof.
  intros Hy. unfold datetime_jan1.
  destruct (Z.leb_spec MINYEAR year), (Z.leb_spec year MAXYEAR);
    simpl; done || lia.
Qed.

Lemma january_1_range year :
  MINYEAR <= year <= MAXYEAR -> 1 <= january_1 year <= 3651695.
Proof.
  unfold MINYEAR, MAXYEAR. intros Hy. unfold january_1.
  rewrite <- days_before_year_sum, Z2Nat.id by lia.
  replace (year - 1 + 1) with year by lia.
  unfold days_before_year. Z.to_euclidean_division_equations. lia.
Qed.

End AccessorFacts.

Section AccessorTheorems.
Import Accessors components.

(** C9.  For a record whose data description id is not C123 and whose
    secondary header holds a mode code in 0..4, [tracking_mode] returns
    "None", "1W", "2W", "3W/" followed by the uplink station number, or
    "Invalid"; for a C123 record it returns "N/A". *)
Theorem tracking_mode_label (x : SFDU.t) :
  (SFDU.data_description_id (SFDU.label x) = "C123" ->
   SFDU.tracking_mode x = Ok (Some "N/A")) /\
  (forall o mode stn,
      SFDU.data_description_id (SFDU.label x) <> "C123" ->
      SFDU.sec_chdo x = Some o ->
      attrs o !! "prdx_mode" = Some mode ->
      0 <= mode <= 4 ->
      (mode = 3 -> attrs o !! "ul_prdx_stn" = Some stn) ->
      SFDU.tracking_mode x = Ok (Some (mode_label mode stn))) /\
  (forall stn,
      mode_label 0 stn = "None" /\ mode_label 1 stn = "1W" /\
      mode_label 2 stn = "2W" /\
      mode_label 3 stn = "3W/" +:+ fmt_d stn /\
      mode_label 4 stn = "Invalid").
Proof.
  split; [|split].
  - intros Hid. unfold SFDU.tracking_mode. by case_decide.
  - intros o mode stn Hid Ho Hm Hrange Hstn.
    unfold SFDU.tracking_mode. case_decide; [|done].
    rewrite Ho. simpl. unfold getattr. rewrite Hm. simpl.
    unfold mode_label.
    destruct (Z.eqb_spec mode 4) as [->|]; [done|].
    destruct (Z.eqb_spec mode 3) as [->|].
    + rewrite (Hstn eq_refl). done.
    + destruct (Z.eqb_spec mode 2) as [->|]; [done|].
      destruct (Z.eqb_spec mode 1) as [->|]; [done|].
      destruct (Z.eqb_spec mode 0) as [->|]; [done|lia].
  - done.
Qed.

Lemma tracking_mode_label_witness :
  SFDU.tracking_mode
    (sfdu_with "C124" (Some (downlink_header 2020 100 0 3 43)))
  = Ok (Some "3W/43") /\
  SFDU.tracking_mode (sfdu_with "C123" None) = Ok (Some "N/A").
Proof.
  split.
  - refine (proj1 (proj2 (tracking_mode_label
              (sfdu_with "C124" (Some (downlink_header 2020 100 0 3 43)))))
              _ 3 43 _ eq_refl eq_refl _ _).
    + discriminate.
    + lia.
    + reflexivity.
  - exact (proj1 (tracking_mode_label (sfdu_with "C123" None)) eq_refl).
Defined.

End AccessorTheorems.

(** ** Computations that print, read files and raise *)

Section MonadFacts.
Lemma bind_run {A B} (m : M A) (f : A -> M B) w :
  (m ≫= f) w = match m w with
               | (Ok a, w') => f a w'
               | (Err e, w') => (Err e, w')
               end.
Proof. reflexivity. Qed.

Lemma bind_ok_inv {A B} (m : M A) (f : A -> M B) w b w' :
  (m ≫= f) w = (Ok b, w') ->
  exists a w1, m w = (Ok a, w1) /\ f a w1 = (Ok b, w').
Proof.
  rewrite bind_run. destruct (m w) as [[a|e] w1]; [eauto|done].
Qed.

Lemma bind_ok {A B} (m : M A) (f : A -> M B) w a w1 :
  m w = (Ok a, w1) -> (m ≫= f) w = f a w1.
Proof. intros Hm. by rewrite bind_run, Hm. Qed.

Lemma rbind_ok_inv {A B} (r : result A) (f : A -> result B) b :
  r ≫= f = Ok b -> exists a, r = Ok a /\ f a = Ok b.
Proof. destruct r as [a|e]; [eauto|done]. Qed.

Lemma lift_bind_ok_inv {A B} (r : result A) (f : A -> M B) w b w' :
  (lift r ≫= f) w = (Ok b, w') -> exists a, r = Ok a /\ f a w = (Ok b, w').
Proof.
  intros (a & w1 & Hr & Hf)%bind_ok_inv. unfold lift in Hr.
  injection Hr as -> <-. eauto.
Qed.

Lemma rmap_ok_inv {A B} (f : A -> result B) l ys :
  rmap f l = Ok ys -> Forall2 (fun x y => f x = Ok y) l ys.
Proof.
  revert ys. induction l as [|x l IH]; intros ys; simpl.
  - intros [= <-]. constructor.
  - intros (y & Hy & (ys' & Hys & [= <-])%rbind_ok_inv)%rbind_ok_inv.
    constructor; [done|]. by apply IH.
Qed.

Lemma rmap_ok {A B} (f : A -> result B) l ys :
  Forall2 (fun x y => f x = Ok y) l ys -> rmap f l = Ok ys.
Proof.
  induction 1 as [|x y l ys Hxy _ IH]; simpl; [done|].
  by rewrite Hxy, IH.
Qed.

Lemma rmap_err_inv {A B} (f : A -> result B) l e :
  rmap f l = Err e -> exists x, x ∈ l /\ f x = Err e.
Proof.
  induction l as [|x l IH]; simpl; [done|].
  destruct (f x) as [y|e'] eqn:Hx; simpl.
  - destruct (rmap f l) as [ys|e'] eqn:Hl; simpl; [done|].
    intros [= <-]. destruct IH as (x' & Hin & Hx'); [done|].
    exists x'. split; [by right|done].
  - intros [= <-]. exists x. split; [by left|done].
Qed.

Lemma rmap_err {A B} (f : A -> result B) l x e :
  x ∈ l -> f x = Err e -> exists e', rmap f l = Err e'.
Proof.
  intros Hin Hx. induction Hin as [x l|x x' l _ IH]; simpl.
  - rewrite Hx. eauto.
  - destruct (f x') as [y|e']; simpl; [|eauto].
    destruct (IH Hx) as [e' ->]. simpl. eauto.
Qed.

Lemma mmap_ok_inv {A B} (f : A -> M B) l w ys w' :
  mmap f l w = (Ok ys, w') ->
  Forall2 (fun x y => exists w1 w2, f x w1 = (Ok y, w2)) l ys.
Proof.
  revert w ys w'. induction l as [|x l IH]; intros w ys w'; simpl.
  - intros [= <- _]. constructor.
  - intros (y & w1 & Hy & (ys' & w2 & Hys & [= <- _])%bind_ok_inv)%bind_ok_inv.
    constructor; [eauto|]. by eapply IH.
Qed.

End MonadFacts.


Section KeepsFiles.

Lemma keeps_files_ret {A} (a : A) : keeps_files (mret a).
Proof. by intros w. Qed.

Lemma keeps_files_lift {A} (r : result A) : keeps_files (lift r).
Proof. by intros w. Qed.

Lemma keeps_files_print s : keeps_files (print s).
Proof. by intros w. Qed.

Lemma keeps_files_bind {A B} (m : M A) (f : A -> M B) :
  keeps_files m -> (forall a, keeps_files (f a)) -> keeps_files (m ≫= f).
Proof.
  intros Hm Hf w. rewrite bind_run. specialize (Hm w).
  destruct (m w) as [[a|e] w1]; simpl in *; [|done].
  by rewrite Hf.
Qed.

Lemma keeps_files_mmap {A B} (f : A -> M B) l :
  (forall x, keeps_files (f x)) -> keeps_files (mmap f l).
Proof.
  intros Hf. induction l as [|x l IH]; simpl; [apply keeps_files_ret|].
  apply keeps_files_bind; [done|]. intros y.
  apply keeps_files_bind; [done|]. intros ys. apply keeps_files_ret.
Qed.

Lemma keeps_files_for_each {A} (f : A -> M unit) l :
  (forall x, keeps_files (f x)) -> keeps_files (for_each l f).
Proof.
  intros Hf. induction l as [|x l IH]; simpl; [apply keeps_files_ret|].
  by apply keeps_files_bind.
Qed.

Lemma keeps_files_run {A} (m : M A) w r w' :
  keeps_files m -> m w = (r, w') -> files w' = files w.
Proof. intros Hm Hw. specialize (Hm w). by rewrite Hw in Hm. Qed.

Lemma mmap_ext {A A' B} (f : A -> M B) (g : A' -> M B) l l' :
  Forall2 (fun x y => forall w, f x w = g y w) l l' ->
  forall w, mmap f l w = mmap g l' w.
Proof.
  induction 1 as [|x y l l' Hxy _ IH]; intros w; simpl; [done|].
  rewrite !bind_run, Hxy. destruct (g y w) as [[b|e] w1]; [|done].
  rewrite !bind_run, IH. done.
Qed.

Lemma rmap_ext {A A' B} (f : A -> result B) (g : A' -> result B) l l' :
  Forall2 (fun x y => f x = g y) l l' -> rmap f l = rmap g l'.
Proof.
  induction 1 as [|x y l l' Hxy _ IH]; simpl; [done|].
  by rewrite Hxy, IH.
Qed.

Lemma mmap_length {A B} (f : A -> M B) l w ys w' :
  mmap f l w = (Ok ys, w') -> length ys = length l.
Proof. intros Hm%mmap_ok_inv. symmetry. by eapply Forall2_length. Qed.

End KeepsFiles.

(** ** Frames and the loops over the index *)

Section IndexLoops.
Import Reader.
Implicit Types data : bytes.

Lemma frames_lookup data ind (i : nat) fr :
  frames data ind !! i = Some fr <->
  exists a b, ind !! i = Some a /\ ind !! S i = Some b /\ fr = slice data a b.
Proof.
  revert i. induction ind as [|a ind IH]; intros i.
  - split; [done|]. by intros (? & ? & ? & _).
  - destruct ind as [|b ind].
    + split; [done|]. intros (? & ? & _ & ? & _). by destruct i.
    + change (frames data (a :: b :: ind))
        with (slice data a b :: frames data (b :: ind)).
      destruct i as [|i]; simpl.
      * split.
        -- intros [= <-]. eauto.
        -- by intros (? & ? & [= <-] & [= <-] & ->).
      * apply IH.
Qed.

Lemma length_frames data ind : length (frames data ind) = (length ind - 1)%nat.
Proof.
  induction ind as [|a ind IH]; [done|].
  destruct ind as [|b ind]; [done|].
  change (frames data (a :: b :: ind))
    with (slice data a b :: frames data (b :: ind)).
  simpl in *. rewrite IH. lia.
Qed.

Lemma range_frames data ind :
  Forall2 (fun i p =>
             exists a b, getitem ind i = Ok a /\ getitem ind (i + 1) = Ok b /\
                         p = (i, slice data a b))
    (range (len ind - 1)) (enumerate (frames data ind)).
Proof.
  apply Forall2_same_length_lookup_2.
  - unfold range, enumerate, len.
    rewrite length_map, length_seq, length_imap, length_frames. lia.
  - intros i x [j fr]. unfold range, enumerate.
    rewrite list_lookup_fmap, list_lookup_imap.
    intros Hx Hfr.
    destruct (seq 0 (Z.to_nat (len ind - 1)) !! i) as [k|] eqn:Hk; [|done].
    apply lookup_seq in Hk as [-> Hi]. simpl in Hx. injection Hx as <-.
    destruct (frames data ind !! i) as [fr'|] eqn:Hfr'; [|done].
    simpl in Hfr. injection Hfr as <- <-.
    apply frames_lookup in Hfr' as (a & b & Ha & Hb & ->).
    exists a, b. split; [by apply getitem_nat|]. split; [|done].
    replace (Z.of_nat i + 1) with (Z.of_nat (S i)) by lia.
    by apply getitem_nat.
Qed.

End IndexLoops.

(** ** Decoding one record *)

Section DecodeFacts.
Context `{SFDU.Components}.
Import SFDU.

Lemma secondary_class_known ddid :
  is_Some (secondary_class ddid) <->
  ddid ∈ ["C123"; "C124"; "C125"; "C126"; "C127"]%string.
Proof.
  rewrite !elem_of_cons, elem_of_nil. split.
  - unfold secondary_class. repeat case_decide; try tauto.
    by intros [? ?].
  - intros [->|[->|[->|[->|[->|[]]]]]]; by eexists.
Qed.

Lemma tracking_class_known code :
  is_Some (tracking_class code) <-> 0 <= code <= 17.
Proof.
  unfold tracking_class. split.
  - case_cmp. by intros [? ?].
  - intros Hc. case_cmp; eauto.
Qed.

Lemma decode_tracking_keeps_files self trk :
  keeps_files (decode_tracking self trk).
Proof.
  unfold decode_tracking. destruct trk; [|apply keeps_files_ret].
  destruct (tracking_class _).
  - apply keeps_files_bind; [apply keeps_files_lift|].
    intros a. apply keeps_files_ret.
  - apply keeps_files_bind; [apply keeps_files_print|].
    intros _. apply keeps_files_ret.
Qed.

Lemma decode_secondary_keeps_files self sec trk :
  keeps_files (decode_secondary self sec trk).
Proof.
  unfold decode_secondary.
  destruct sec; [|apply decode_tracking_keeps_files].
  destruct (secondary_class _).
  - apply keeps_files_bind; [apply keeps_files_lift|].
    intros a. apply decode_tracking_keeps_files.
  - apply keeps_files_bind; [apply keeps_files_print|].
    intros _. apply keeps_files_ret.
Qed.

Lemma decode_keeps_files self fr lbl agg pri sec trk :
  keeps_files (decode self fr lbl agg pri sec trk).
Proof.
  unfold decode.
  repeat (apply keeps_files_bind;
          [match goal with
           | |- keeps_files (if ?b then _ else _) =>
               destruct b;
               [apply keeps_files_bind; [apply keeps_files_lift|];
                intros ?; apply keeps_files_ret
               |apply keeps_files_ret]
           end|intros ?]).
  apply decode_secondary_keeps_files.
Qed.

Lemma decode_tracking_inv self trk w s w' :
  decode_tracking self trk w = (Ok s, w') ->
  binarydata s = binarydata self /\ number s = number self /\
  label s = label self /\ agg_chdo s = agg_chdo self /\
  pri_chdo s = pri_chdo self /\ sec_chdo s = sec_chdo self /\
  is_decoded s
  = (if trk
     then bool_decide (is_Some (tracking_class (format_code (pri_chdo self))))
     else true).
Proof.
  unfold decode_tracking. destruct trk.
  - destruct (tracking_class _) as [c|].
    + intros (a & Ha & [= <- _])%lift_bind_ok_inv. by repeat split.
    + intros (_ & _ & _ & [= <- _])%bind_ok_inv. by repeat split.
  - intros [= <- _]. by repeat split.
Qed.

Lemma decode_secondary_inv self sec trk w s w' :
  decode_secondary self sec trk w = (Ok s, w') ->
  binarydata s = binarydata self /\ number s = number self /\
  label s = label self /\ agg_chdo s = agg_chdo self /\
  pri_chdo s = pri_chdo self /\
  sec_chdo s = sec_after (sec_chdo self) (binarydata self)
                 (data_description_id (label self)) sec /\
  is_decoded s = decoded_after (data_description_id (label self))
                   (format_code (pri_chdo self)) sec trk.
Proof.
  unfold decode_secondary, sec_after, secondary_of, decoded_after.
  destruct sec.
  - destruct (secondary_class _) as [c|].
    + intros (a & Ha & Htrk)%lift_bind_ok_inv. rewrite Ha.
      apply decode_tracking_inv in Htrk
        as (? & ? & ? & ? & ? & ? & ->).
      by repeat split.
    + intros (_ & _ & _ & [= <- _])%bind_ok_inv. by repeat split.
  - intros Htrk.
    apply decode_tracking_inv in Htrk as (? & ? & ? & ? & ? & ? & ->).
    by repeat split.
Qed.

Lemma decode_inv self fr sec trk w s w' :
  decode self fr true true true sec trk w = (Ok s, w') ->
  binarydata s = fr /\ number s = number self /\
  SFDULabel_decode fr = Ok (label s) /\
  SFDUAggCHDO_decode fr = Ok (agg_chdo s) /\
  PrimaryCHDO_decode fr = Ok (pri_chdo s) /\
  sec_chdo s = sec_after (sec_chdo self) fr
                 (data_description_id (label s)) sec /\
  is_decoded s = decoded_after (data_description_id (label s))
                   (format_code (pri_chdo s)) sec trk /\
  files w' = files w.
Proof.
  intros Hd.
  pose proof (keeps_files_run _ _ _ _
                (decode_keeps_files self fr true true true sec trk) Hd).
  unfold decode in Hd.
  apply bind_ok_inv in Hd
    as (s1 & w1 & (l & Hl & [= <- <-])%lift_bind_ok_inv & Hd).
  apply bind_ok_inv in Hd
    as (s2 & w2 & (a & Ha & [= <- <-])%lift_bind_ok_inv & Hd).
  apply bind_ok_inv in Hd
    as (s3 & w3 & (p & Hp & [= <- <-])%lift_bind_ok_inv & Hd).
  apply decode_secondary_inv in Hd as (-> & -> & -> & -> & -> & -> & ->).
  by repeat split.
Qed.

End DecodeFacts.

(** ** Floats and the microseconds of a timedelta *)

Section FloatFacts.

Lemma round_half_even_close p e :
  e < 0 -> 2 * Z.abs (round_half_even p e * 2 ^ (- e) - p) <= 2 ^ (- e).
Proof.
  intros He. unfold round_half_even.
  rewrite (proj2 (Z.leb_gt _ _)) by lia.
  assert (HD : 0 < 2 ^ (- e)) by (apply Z.pow_pos_nonneg; lia).
  set (D := 2 ^ (- e)) in *.
  pose proof (Z.div_mod p D ltac:(lia)) as Hdm.
  pose proof (Z.mod_pos_bound p D HD) as Hr.
  destruct (Z.ltb_spec (2 * (p mod D)) D).
  - replace (p / D * D - p) with (- (p mod D)) by lia. lia.
  - destruct (Z.ltb_spec D (2 * (p mod D))).
    + replace ((p / D + 1) * D - p) with (D - p mod D) by lia. lia.
    + destruct (Z.even (p / D)).
      * replace (p / D * D - p) with (- (p mod D)) by lia. lia.
      * replace ((p / D + 1) * D - p) with (D - p mod D) by lia. lia.
Qed.

Lemma round_to_double_close n e p e' :
  round_to_double n e = (p, e') ->
  e <= e' /\
  2 * Z.abs (p * 2 ^ (e' - e) - n) <= 2 ^ (e' - e) /\
  (e < e' -> 2 ^ (e' - e + 52) <= Z.abs n).
Proof.
  unfold round_to_double.
  set (k := Z.log2 (Z.abs n) + 1 - 53).
  destruct (Z.leb_spec k 0) as [Hk|Hk].
  - intros [= <- <-]. rewrite Z.sub_diag. simpl.
    replace (n * 1 - n) with 0 by lia. simpl. lia.
  - intros [= <- <-]. replace (e + k - e) with k by lia.
    assert (H2k : 0 < 2 ^ k) by (apply Z.pow_pos_nonneg; lia).
    assert (Hn : 0 < Z.abs n).
    { destruct (Z.eq_dec (Z.abs n) 0) as [H0|H0]; [|lia].
      unfold k in Hk. rewrite H0 in Hk. simpl in Hk. lia. }
    pose proof (Z.div_mod (Z.abs n) (2 ^ k) ltac:(lia)) as Hdm.
    pose proof (Z.mod_pos_bound (Z.abs n) (2 ^ k) H2k) as Hr.
    split; [lia|]. split.
    + set (q := Z.abs n / 2 ^ k) in *. set (r := Z.abs n mod 2 ^ k) in *.
      assert (Hs : forall q', Z.sgn n * q' * 2 ^ k - n
                              = Z.sgn n * (q' * 2 ^ k - Z.abs n)).
      { intros q'. pose proof (Z.sgn_abs n) as Hsa.
        destruct n; simpl in *; lia. }
      assert (Ha : forall x, Z.abs (Z.sgn n * x) = Z.abs x).
      { intros x. clear -Hn.
        destruct n; simpl Z.sgn; [simpl in Hn|..]; lia. }
      rewrite Hs, Ha.
      destruct ((2 ^ k <? 2 * r) || ((2 * r =? 2 ^ k) && Z.odd q)) eqn:Hc.
      * assert (2 ^ k <= 2 * r).
        { apply orb_prop in Hc as [Hc|Hc].
          - apply Z.ltb_lt in Hc. lia.
          - apply andb_prop in Hc as [Hc _]. apply Z.eqb_eq in Hc. lia. }
        replace ((q + 1) * 2 ^ k - Z.abs n) with (2 ^ k - r) by lia. lia.
      * assert (2 * r <= 2 ^ k).
        { apply orb_false_elim in Hc as [Hc _]. apply Z.ltb_ge in Hc. lia. }
        replace (q * 2 ^ k - Z.abs n) with (- r) by lia. lia.
    + intros _. replace (k + 52) with (Z.log2 (Z.abs n)) by (unfold k; lia).
      apply Z.log2_spec. lia.
Qed.

Lemma microseconds_of_whole_seconds m e :
  0 <= e -> microseconds_of_seconds m e = m * 2 ^ e * 1000000.
Proof.
  intros He. unfold microseconds_of_seconds, modf.
  rewrite (proj2 (Z.leb_le _ _)) by lia. simpl.
  unfold round_half_even. rewrite (proj2 (Z.leb_le _ _)) by lia. lia.
Qed.

Lemma microseconds_of_seconds_close m e :
  e < 0 ->
  Z.abs (microseconds_of_seconds m e * 2 ^ (- e) - m * 1000000) < 2 ^ (- e).
Proof.
  intros He. unfold microseconds_of_seconds, modf.
  rewrite (proj2 (Z.leb_gt _ _)) by lia.
  assert (HD : 0 < 2 ^ (- e)) by (apply Z.pow_pos_nonneg; lia).
  set (D := 2 ^ (- e)) in *.
  pose proof (Z.quot_rem' m D) as Hqr.
  pose proof (Z.rem_bound_abs m D ltac:(lia)) as Hrb.
  rewrite (Z.abs_eq D) in Hrb by lia.
  set (whole := Z.quot m D) in *. set (r := Z.rem m D) in *.
  destruct (round_to_double (r * 1000000) e) as [p e'] eqn:Hrd.
  apply round_to_double_close in Hrd as (Hee & Hclose & Hbig).
  set (k := e' - e) in *.
  assert (H2k : 0 < 2 ^ k) by (apply Z.pow_pos_nonneg; lia).
  assert (He' : e' < 0).
  { destruct (Z.eq_dec e e') as [<-|Hne]; [done|].
    specialize (Hbig ltac:(lia)).
    assert (Hn : Z.abs (r * 1000000) < 2 ^ 20 * D).
    { rewrite Z.abs_mul. change (Z.abs 1000000) with 1000000.
      change (2 ^ 20) with 1048576. lia. }
    assert (Hlt : 2 ^ (k + 52) < 2 ^ (20 + - e)).
    { rewrite (Z.pow_add_r 2 20) by lia. fold D. lia. }
    apply Z.pow_lt_mono_r_iff in Hlt; lia. }
  pose proof (round_half_even_close p e' He') as Hrhe.
  assert (HDk : D = 2 ^ (- e') * 2 ^ k).
  { unfold D, k. rewrite <- Z.pow_add_r by lia. f_equal. lia. }
  assert (H2kD : 2 ^ k < D).
  { unfold D, k. apply Z.pow_lt_mono_r; lia. }
  assert (HD' : 0 < 2 ^ (- e')) by (apply Z.pow_pos_nonneg; lia).
  set (u := round_half_even p e') in *. set (D' := 2 ^ (- e')) in *.
  replace ((whole * 1000000 + u) * D - m * 1000000)
    with ((u * D' - p) * 2 ^ k + (p * 2 ^ k - r * 1000000)).
  2:{ rewrite Hqr, HDk. ring. }
  assert (H1 : 2 * Z.abs ((u * D' - p) * 2 ^ k) <= D).
  { rewrite Z.abs_mul, (Z.abs_eq (2 ^ k)) by lia. rewrite HDk. nia. }
  lia.
Qed.

Lemma microseconds_to_the_microsecond m e :
  Accessors.seconds_to_the_microsecond m e (microseconds_of_seconds m e).
Proof.
  unfold Accessors.seconds_to_the_microsecond.
  destruct (Z.leb_spec 0 e).
  - by apply microseconds_of_whole_seconds.
  - by apply microseconds_of_seconds_close.
Qed.

End FloatFacts.

(** ** The timestamp of a record *)

Section TimestampFacts.
Import Accessors.

Lemma add_days_value j doy us :
  1 <= j <= 3651695 ->
  representable ((j + (doy - 1)) * us_per_day + us) ->
  (td ← timedelta_of (doy - 1) us; datetime_add (j * us_per_day) td)
  = Ok ((j + (doy - 1)) * us_per_day + us).
Proof.
  intros Hj Hrep.
  unfold representable, MAXORDINAL in *.
  assert (Hdiv : (j * us_per_day + ((doy - 1) * us_per_day + us))
                 / us_per_day
                 = j + ((doy - 1) * us_per_day + us) / us_per_day).
  { rewrite Z.add_comm, Z.div_add by done. lia. }
  replace ((j + (doy - 1)) * us_per_day + us)
    with (j * us_per_day + ((doy - 1) * us_per_day + us)) in * by lia.
  rewrite Hdiv in Hrep.
  unfold timedelta_of.
  rewrite (proj2 (Z.leb_le _ _)), (proj2 (Z.leb_le _ _)) by lia.
  simpl. unfold datetime_add, MAXORDINAL. rewrite Hdiv.
  by rewrite (proj2 (Z.ltb_lt _ _)), (proj2 (Z.leb_le _ _)) by lia.
Qed.

Lemma add_days_overflow j doy us :
  ~ representable ((j + (doy - 1)) * us_per_day + us) ->
  (td ← timedelta_of (doy - 1) us; datetime_add (j * us_per_day) td)
  = Err OverflowError.
Proof.
  intros Hrep. unfold timedelta_of.
  match goal with
  | |- context [if ?c then _ else _] => destruct c; simpl; [|done]
  end.
  unfold datetime_add.
  match goal with
  | |- context [if ?c then _ else _] => destruct c eqn:Hadd; [|done]
  end.
  exfalso. apply Hrep. unfold representable.
  apply andb_prop in Hadd as [H1 H2].
  apply Z.ltb_lt in H1. apply Z.leb_le in H2.
  replace ((j + (doy - 1)) * us_per_day + us)
    with (j * us_per_day + ((doy - 1) * us_per_day + us)) by lia.
  exact (conj H1 H2).
Qed.

(** With a year that a datetime can hold, [timestamp] is the sum of
    January 1 and the timedelta. *)
Lemma timestamp_run (x : SFDU.t) o year doy sec :
  SFDU.sec_chdo x = Some o ->
  attrs o !! "year" = Some year ->
  attrs o !! "doy" = Some doy ->
  attrs o !! "sec" = Some sec ->
  MINYEAR <= year <= MAXYEAR ->
  SFDU.timestamp x
  = (td ← timedelta_of_seconds (doy - 1) (float_of_bits sec);
     datetime_add (january_1 year * us_per_day) td).
Proof.
  intros Ho Hy Hd Hs Hyear.
  unfold SFDU.timestamp, getattr_float. rewrite Ho. simpl. unfold getattr.
  rewrite Hy, Hd, Hs. simpl.
  by rewrite (datetime_jan1_spec _ Hyear).
Qed.

Lemma timestamp_none (x : SFDU.t) :
  SFDU.sec_chdo x = None ->
  SFDU.timestamp x = Err (AttributeError "NoneType" "year").
Proof. intros Ho. unfold SFDU.timestamp. by rewrite Ho. Qed.

Lemma timestamp_outcome (x : SFDU.t) o year doy sec :
  SFDU.sec_chdo x = Some o ->
  attrs o !! "year" = Some year ->
  attrs o !! "doy" = Some doy ->
  attrs o !! "sec" = Some sec ->
  (~ MINYEAR <= year <= MAXYEAR ->
   SFDU.timestamp x
   = Err (ValueError ("year " +:+ pretty year +:+ " is out of range"))) /\
  (MINYEAR <= year <= MAXYEAR ->
   match float_of_bits sec with
   | Fnan =>
       SFDU.timestamp x
       = Err (ValueError "cannot convert float NaN to integer")
   | Finf _ => SFDU.timestamp x = Err OverflowError
   | Ffinite m e =>
       exists us,
         seconds_to_the_microsecond m e us /\
         (representable (absolute_time year doy us) ->
          SFDU.timestamp x = Ok (absolute_time year doy us)) /\
         (~ representable (absolute_time year doy us) ->
          SFDU.timestamp x = Err OverflowError)
   end).
Proof.
  intros Ho Hy Hd Hs. split.
  - intros Hyear. unfold SFDU.timestamp. rewrite Ho. simpl.
    unfold getattr. rewrite Hy. simpl.
    by rewrite (datetime_jan1_err _ Hyear).
  - intros Hyear. rewrite (timestamp_run _ _ _ _ _ Ho Hy Hd Hs Hyear).
    destruct (float_of_bits sec) as [|neg|m e]; [reflexivity..|].
    exists (microseconds_of_seconds m e).
    split; [apply microseconds_to_the_microsecond|].
    unfold timedelta_of_seconds, absolute_time. split.
    + apply add_days_value. by apply january_1_range.
    + apply add_days_overflow.
Qed.

End TimestampFacts.

Section TimestampDecode.
Context `{SFDU.Components}.
Import SFDU.

(** Whatever stages are asked for, [decode] leaves in [sec_chdo] the
    header the secondary stage decoded, or else the one the record had. *)
Lemma decode_secondary_header self fr lbl agg pri sec trk w s w' :
  decode self fr lbl agg pri sec trk w = (Ok s, w') ->
  sec_chdo s
  = sec_after (sec_chdo self) fr (data_description_id (label s)) sec.
Proof.
  unfold decode. intros Hd.
  apply bind_ok_inv in Hd as (s1 & w1 & H1 & Hd).
  apply bind_ok_inv in Hd as (s2 & w2 & H2 & Hd).
  apply bind_ok_inv in Hd as (s3 & w3 & H3 & Hd).
  apply decode_secondary_inv in Hd as (_ & _ & -> & _ & _ & -> & _).
  assert (E1 : sec_chdo s1 = sec_chdo self /\ binarydata s1 = fr).
  { destruct lbl.
    - apply lift_bind_ok_inv in H1 as (l & _ & [= <- _]). done.
    - injection H1 as <- _. done. }
  assert (E2 : sec_chdo s2 = sec_chdo s1 /\ binarydata s2 = binarydata s1).
  { destruct agg.
    - apply lift_bind_ok_inv in H2 as (l & _ & [= <- _]). done.
    - injection H2 as <- _. done. }
  assert (E3 : sec_chdo s3 = sec_chdo s2 /\ binarydata s3 = binarydata s2).
  { destruct pri.
    - apply lift_bind_ok_inv in H3 as (l & _ & [= <- _]). done.
    - injection H3 as <- _. done. }
  destruct E3 as [-> ->], E2 as [-> ->], E1 as [-> ->]. done.
Qed.

Lemma decode_keeps_secondary self fr lbl agg pri sec trk w s w' :
  decode self fr lbl agg pri sec trk w = (Ok s, w') ->
  sec = false \/ ~ known_ddid (data_description_id (label s)) ->
  sec_chdo s = sec_chdo self.
Proof.
  intros Hd Hskip. rewrite (decode_secondary_header _ _ _ _ _ _ _ _ _ _ Hd).
  unfold sec_after, secondary_of. destruct sec; [|done].
  destruct Hskip as [|Hk]; [done|].
  destruct (secondary_class _) eqn:Hc; [|done].
  destruct Hk. apply secondary_class_known. by rewrite Hc.
Qed.

End TimestampDecode.

Section TimestampTheorems.
Import Accessors components.

(** A secondary header that carries year 0: [timestamp] raises instead of
    returning a time, so it does not return the absolute time for every
    record whose secondary header is present. *)
Lemma timestamp_year_zero :
  SFDU.timestamp (sfdu_with "C124" (Some (downlink_header 0 1 0 2 43)))
  = Err (ValueError "year 0 is out of range") /\
  float_of_bits 0 = Ffinite 0 (-1074) /\
  ~ (forall (x : SFDU.t) o year doy sec m e,
        SFDU.sec_chdo x = Some o ->
        attrs o !! "year" = Some year ->
        attrs o !! "doy" = Some doy ->
        attrs o !! "sec" = Some sec ->
        float_of_bits sec = Ffinite m e ->
        exists us,
          seconds_to_the_microsecond m e us /\
          SFDU.timestamp x = Ok (absolute_time year doy us)).
Proof.
  split; [reflexivity|]. split; [reflexivity|].
  intros Hall.
  destruct (Hall (sfdu_with "C124" (Some (downlink_header 0 1 0 2 43)))
              _ 0 1 0 0 (-1074) eq_refl eq_refl eq_refl eq_refl eq_refl)
    as (us & _ & Hus).
  discriminate Hus.
Qed.

(** A record object that is decoded a second time, on a record whose data
    description id is unknown: the secondary stage fails, the record is
    marked not decoded, and [timestamp] still returns the time of the
    record decoded first. *)
Lemma timestamp_of_kept_header :
  match SFDU.decode (H := fixed_offsets) (SFDU.new (H := fixed_offsets))
          carrier_5s true true true true true no_files with
  | (Ok s1, w1) =>
      match SFDU.decode (H := fixed_offsets) s1 unknown_ddid
              true true true true true w1 with
      | (Ok s2, _) =>
          SFDU.binarydata s2 = unknown_ddid /\
          SFDU.is_decoded s2 = false /\
          SFDU.timestamp s1 = Ok (absolute_time 2020 100 5000000) /\
          SFDU.timestamp s2 = Ok (absolute_time 2020 100 5000000)
      | (Err _, _) => False
      end
  | (Err _, _) => False
  end.
Proof. vm_compute. repeat split. Qed.

(** C8, as the code behaves.  With a secondary header present, [timestamp]
    raises ValueError for a year outside 1..9999, and otherwise goes by the
    seconds of day, a float: ValueError for a NaN, OverflowError for an
    infinity, and for a number the time (year, January 1) + (day-of-year -
    1) days + seconds-of-day to the microsecond (the seconds exactly when
    they are whole, less than a microsecond off otherwise) when that is a
    time a datetime can hold, OverflowError when it is not.  With no
    secondary header it raises the AttributeError of reading [year] from
    [None].  [decode] does not reset the secondary header: when the
    secondary stage is skipped, or fails on an unknown data description
    id, the record keeps the header it had, and [timestamp] answers as
    before the call; it raises that AttributeError for a record decoded
    for the first time, as every record of [Reader.decode] is. *)
Theorem timestamp_accessor `{SFDU.Components} :
  (forall x : SFDU.t,
      match SFDU.sec_chdo x with
      | Some o =>
          forall year doy sec,
            attrs o !! "year" = Some year ->
            attrs o !! "doy" = Some doy ->
            attrs o !! "sec" = Some sec ->
            (~ MINYEAR <= year <= MAXYEAR ->
             SFDU.timestamp x
             = Err (ValueError
                      ("year " +:+ pretty year +:+ " is out of range"))) /\
            (MINYEAR <= year <= MAXYEAR ->
             match float_of_bits sec with
             | Fnan =>
                 SFDU.timestamp x
                 = Err (ValueError "cannot convert float NaN to integer")
             | Finf _ => SFDU.timestamp x = Err OverflowError
             | Ffinite m e =>
                 exists us,
                   seconds_to_the_microsecond m e us /\
                   (representable (absolute_time year doy us) ->
                    SFDU.timestamp x = Ok (absolute_time year doy us)) /\
                   (~ representable (absolute_time year doy us) ->
                    SFDU.timestamp x = Err OverflowError)
             end)
      | None => SFDU.timestamp x = Err (AttributeError "NoneType" "year")
      end) /\
  (forall self fr lbl agg pri sec trk w s w',
      SFDU.decode self fr lbl agg pri sec trk w = (Ok s, w') ->
      sec = false
      \/ ~ SFDU.known_ddid (SFDU.data_description_id (SFDU.label s)) ->
      SFDU.sec_chdo s = SFDU.sec_chdo self /\
      SFDU.timestamp s = SFDU.timestamp self) /\
  (forall i fr lbl agg pri sec trk w s w',
      SFDU.decode (SFDU.set_number i SFDU.new) fr lbl agg pri sec trk w
      = (Ok s, w') ->
      sec = false
      \/ ~ SFDU.known_ddid (SFDU.data_description_id (SFDU.label s)) ->
      SFDU.timestamp s = Err (AttributeError "NoneType" "year")).
Proof.
  split; [|split].
  - intros x. destruct (SFDU.sec_chdo x) as [o|] eqn:Ho;
      [|by apply timestamp_none].
    intros year doy sec Hy Hd Hs. by eapply timestamp_outcome.
  - intros self fr lbl agg pri sec trk w s w' Hd Hskip.
    pose proof (decode_keeps_secondary _ _ _ _ _ _ _ _ _ _ Hd Hskip) as Hs.
    split; [exact Hs|]. unfold SFDU.timestamp, getattr_float.
    by rewrite Hs.
  - intros i fr lbl agg pri sec trk w s w' Hd Hskip.
    apply timestamp_none.
    by rewrite (decode_keeps_secondary _ _ _ _ _ _ _ _ _ _ Hd Hskip).
Qed.

Lemma timestamp_accessor_witness :
  MINYEAR <= 2020 <= MAXYEAR /\
  float_of_bits seconds_5 = Ffinite 5629499534213120 (-50) /\
  exists us,
    seconds_to_the_microsecond 5629499534213120 (-50) us /\
    (representable (absolute_time 2020 100 us) ->
     SFDU.timestamp
       (sfdu_with "C124" (Some (downlink_header 2020 100 seconds_5 2 43)))
     = Ok (absolute_time 2020 100 us)).
Proof.
  assert (Hyear : MINYEAR <= 2020 <= MAXYEAR)
    by (unfold MINYEAR, MAXYEAR; lia).
  split; [exact Hyear|]. split; [reflexivity|].
  destruct (proj2 (proj1 (timestamp_accessor (H := fixed_offsets))
                     (sfdu_with "C124"
                        (Some (downlink_header 2020 100 seconds_5 2 43)))
                     2020 100 seconds_5 eq_refl eq_refl eq_refl) Hyear)
    as (us & Hus & Hok & _).
  exists us. exact (conj Hus Hok).
Defined.

End TimestampTheorems.

(** ** Decoding a stream *)

Section ReaderFacts.
Context `{SFDU.Components}.
Import Reader.

Lemma enumerate_snd {A} (l : list A) : snd <$> enumerate l = l.
Proof.
  apply list_eq. intros i. unfold enumerate.
  rewrite list_lookup_fmap, list_lookup_imap. by destruct (l !! i).
Qed.

Lemma enumerate_app {A} (l1 l2 : list A) :
  enumerate (l1 ++ l2)
  = enumerate l1 ++ imap (fun i x => (len l1 + Z.of_nat i, x)) l2.
Proof.
  unfold enumerate. rewrite imap_app. f_equal.
  apply imap_ext. intros i x _. simpl. unfold len. f_equal. lia.
Qed.

Lemma decode_run f lbl agg pri sec trk w :
  decode f lbl agg pri sec trk w
  = (mmap (fun p => SFDU.decode (SFDU.set_number (fst p) SFDU.new) (snd p)
                      lbl agg pri sec trk)
       (enumerate (frames (binarydata f) (index f)))
     ≫= fun sfdus =>
          mret (mk (filename f) sfdus true (binarydata f) (index f))) w.
Proof.
  unfold decode. rewrite !bind_run.
  rewrite (mmap_ext _
             (fun p => SFDU.decode (SFDU.set_number (fst p) SFDU.new) (snd p)
                         lbl agg pri sec trk)
             _ (enumerate (frames (binarydata f) (index f)))); [done|].
  eapply Forall2_impl; [apply range_frames|].
  intros i p (a & b & Ha & Hb & ->) w0. simpl.
  rewrite (bind_ok _ _ _ a w0) by (by unfold lift; rewrite Ha).
  by rewrite (bind_ok _ _ _ b w0) by (by unfold lift; rewrite Hb).
Qed.

Lemma decode_keeps_files_stream f lbl agg pri sec trk :
  keeps_files (decode f lbl agg pri sec trk).
Proof.
  intros w. rewrite decode_run.
  revert w. apply keeps_files_bind.
  - apply keeps_files_mmap. intros p. apply decode_keeps_files.
  - intros sfdus. apply keeps_files_ret.
Qed.

Lemma decode_stream_inv f sec trk w f' w' :
  decode f true true true sec trk w = (Ok f', w') ->
  filename f' = filename f /\ binarydata f' = binarydata f /\
  index f' = index f /\ is_decoded f' = true /\
  files w' = files w /\
  Forall2 (decoded_from sec trk)
    (enumerate (frames (binarydata f) (index f))) (sfdu_list f').
Proof.
  intros Hd.
  pose proof (keeps_files_run _ _ _ _
                (decode_keeps_files_stream f true true true sec trk) Hd).
  rewrite decode_run in Hd.
  apply bind_ok_inv in Hd as (sfdus & w1 & Hm & [= <- _]). simpl.
  repeat split; [done|].
  apply mmap_ok_inv in Hm.
  eapply Forall2_impl; [exact Hm|].
  intros p s (w2 & w3 & Hs). apply decode_inv in Hs.
  destruct Hs as (? & ? & ? & ? & ? & ? & ? & _).
  by repeat split.
Qed.

Lemma decoded_binarydata sec trk frs sfdus :
  Forall2 (decoded_from sec trk) (enumerate frs) sfdus ->
  SFDU.binarydata <$> sfdus = frs.
Proof.
  intros Hd.
  transitivity (snd <$> enumerate frs); [|apply enumerate_snd].
  apply list_eq_Forall2, Forall2_fmap, Forall2_flip.
  eapply Forall2_impl; [exact Hd|].
  by intros p s (_ & ? & _).
Qed.

End ReaderFacts.

(** ** Records with an unknown code *)

Section UnknownVariant.
Context `{SFDU.Components}.
Import SFDU.

Lemma decode_headers self fr l a p sec trk w :
  headers_decode fr l a p ->
  decode self fr true true true sec trk w
  = decode_secondary
      (mk fr (number self) l a p (sec_chdo self) (trk_chdo self)
         (is_decoded self)) sec trk w.
Proof.
  intros (Hl & Ha & Hp). unfold decode. simpl.
  rewrite !bind_run. unfold lift. simpl. rewrite Hl. simpl.
  rewrite !bind_run. simpl. rewrite Ha. simpl.
  rewrite !bind_run. simpl. rewrite Hp. simpl. done.
Qed.

Lemma decode_unknown_secondary self fr l a p trk w :
  headers_decode fr l a p ->
  secondary_class (data_description_id l) = None ->
  decode self fr true true true true trk w
  = (Ok (mk fr (number self) l a p (sec_chdo self) (trk_chdo self) false),
     World (stdout w
              ++ [secondary_warning (number self) (data_description_id l)])
       (files w)).
Proof.
  intros Hh Hc. rewrite (decode_headers _ _ _ _ _ _ _ _ Hh).
  unfold decode_secondary. simpl. by rewrite Hc.
Qed.

Lemma decode_unknown_tracking self fr l a p c a1 w :
  headers_decode fr l a p ->
  secondary_class (data_description_id l) = Some c ->
  chdo_decode c fr = Ok a1 ->
  tracking_class (format_code p) = None ->
  decode self fr true true true true true w
  = (Ok (mk fr (number self) l a p (Some (Object c a1)) (trk_chdo self)
           false),
     World (stdout w ++ [tracking_warning (number self) (format_code p)])
       (files w)).
Proof.
  intros Hh Hc Ha1 Ht. rewrite (decode_headers _ _ _ _ _ _ _ _ Hh).
  unfold decode_secondary. simpl. rewrite Hc.
  rewrite bind_run. unfold lift. rewrite Ha1.
  unfold decode_tracking. simpl. by rewrite Ht.
Qed.

Lemma decode_known self fr l a p c1 a1 c2 a2 w :
  headers_decode fr l a p ->
  secondary_class (data_description_id l) = Some c1 ->
  chdo_decode c1 fr = Ok a1 ->
  tracking_class (format_code p) = Some c2 ->
  chdo_decode c2 fr = Ok a2 ->
  decode self fr true true true true true w
  = (Ok (mk fr (number self) l a p (Some (Object c1 a1))
           (Some (Object c2 a2)) true), w).
Proof.
  intros Hh Hc Ha1 Ht Ha2. rewrite (decode_headers _ _ _ _ _ _ _ _ Hh).
  unfold decode_secondary. simpl. rewrite Hc.
  rewrite bind_run. unfold lift. rewrite Ha1.
  unfold decode_tracking. simpl. rewrite Ht.
  rewrite bind_run. unfold lift. by rewrite Ha2.
Qed.

Lemma mmap_app {A B} (f : A -> M B) l1 l2 w :
  mmap f (l1 ++ l2) w
  = match mmap f l1 w with
    | (Ok ys1, w1) =>
        match mmap f l2 w1 with
        | (Ok ys2, w2) => (Ok (ys1 ++ ys2), w2)
        | (Err e, w2) => (Err e, w2)
        end
    | (Err e, w1) => (Err e, w1)
    end.
Proof.
  revert w. induction l1 as [|x l1 IH]; intros w; simpl.
  - by destruct (mmap f l2 w) as [[ys|e] w2].
  - rewrite !bind_run. destruct (f x w) as [[y|e] w1]; [|done].
    rewrite !bind_run, IH.
    destruct (mmap f l1 w1) as [[ys1|e] w2]; [|done].
    unfold mret, M_ret.
    by destruct (mmap f l2 w2) as [[ys2|e] w3].
Qed.

Lemma mmap_quiet {A B} (f : A -> M B) (P : B -> Prop) l :
  Forall (fun x => exists y, P y /\ forall w, f x w = (Ok y, w)) l ->
  exists ys,
    Forall P ys /\ length ys = length l /\
    forall w, mmap f l w = (Ok ys, w).
Proof.
  induction 1 as [|x l (y & Hy & Hx) _ (ys & Hys & Hlen & Hl)].
  - exists []. by repeat split.
  - exists (y :: ys). repeat split; [by constructor|simpl; lia|].
    intros w. simpl. by rewrite bind_run, Hx, bind_run, Hl.
Qed.

Lemma fully_decodable_quiet i fr :
  fully_decodable fr ->
  exists s,
    is_decoded s = true /\
    forall w, decode (set_number i new) fr true true true true true w
              = (Ok s, w).
Proof.
  intros (l & a & p & c1 & a1 & c2 & a2 & Hh & Hc1 & Ha1 & Hc2 & Ha2).
  eexists. split; [|intros w; by eapply decode_known]. done.
Qed.

Lemma unknown_variant_skipped i fr line :
  unknown_variant i fr line ->
  exists s,
    is_decoded s = false /\
    forall w, decode (set_number i new) fr true true true true true w
              = (Ok s, World (stdout w ++ [line]) (files w)).
Proof.
  intros (l & a & p & Hh & [[Hk ->]|(c & a1 & Hc & Ha1 & Hk & ->)]).
  - eexists. split; [|intros w; eapply decode_unknown_secondary; [done|]].
    + done.
    + destruct (secondary_class _) eqn:Hc; [|done].
      destruct Hk. apply secondary_class_known. by rewrite Hc.
  - eexists. split; [|intros w; eapply decode_unknown_tracking; try done].
    + done.
    + destruct (tracking_class _) eqn:Ht; [|done].
      destruct Hk. apply tracking_class_known. by rewrite Ht.
Qed.

Lemma filter_all_true {A} (f : A -> bool) l :
  Forall (fun x => f x = true) l -> List.filter f l = l.
Proof.
  induction 1 as [|x l Hx _ IH]; simpl; [done|]. by rewrite Hx, IH.
Qed.

Lemma decode_stream_one_unknown f pre bad post line w :
  Reader.frames (Reader.binarydata f) (Reader.index f) = pre ++ bad :: post ->
  Forall fully_decodable pre ->
  Forall fully_decodable post ->
  unknown_variant (len pre) bad line ->
  exists f',
    Reader.decode f true true true true true w
    = (Ok f', World (stdout w ++ [line]) (files w)) /\
    len (Reader.sfdu_list f') = len pre + 1 + len post /\
    len (List.filter is_decoded (Reader.sfdu_list f')) = len pre + len post.
Proof.
  intros Hfr Hpre Hpost Hbad.
  set (g := fun p : Z * bytes =>
              decode (set_number (fst p) new) (snd p)
                true true true true true).
  destruct (mmap_quiet g (fun s => is_decoded s = true) (enumerate pre))
    as (ys1 & Hys1 & Hlen1 & Hrun1).
  { apply Forall_forall. intros [i fr] Hin. simpl.
    apply elem_of_lookup_imap_1 in Hin as (j & x & [= -> ->] & Hx).
    apply fully_decodable_quiet.
    by eapply Forall_lookup_1 in Hpre. }
  destruct (mmap_quiet g (fun s => is_decoded s = true)
              (imap ((fun i x => (len pre + Z.of_nat i, x)) ∘ S) post))
    as (ys2 & Hys2 & Hlen2 & Hrun2).
  { apply Forall_forall. intros [i fr] Hin. simpl.
    apply elem_of_lookup_imap_1 in Hin as (j & x & [= -> ->] & Hx).
    apply fully_decodable_quiet.
    by eapply Forall_lookup_1 in Hpost. }
  destruct (unknown_variant_skipped _ _ _ Hbad) as (s & Hs & Hrun).
  exists (Reader.mk (Reader.filename f) (ys1 ++ s :: ys2) true
            (Reader.binarydata f) (Reader.index f)).
  unfold enumerate in Hlen1. rewrite length_imap in Hlen1, Hlen2.
  split; [|split].
  - rewrite decode_run, Hfr, enumerate_app, imap_cons, bind_run.
    fold g. rewrite mmap_app, Hrun1. simpl.
    rewrite bind_run. unfold g at 1. simpl.
    change (Z.of_nat 0) with 0. rewrite Z.add_0_r.
    by rewrite Hrun, bind_run, Hrun2.
  - simpl. rewrite !len_app. unfold len in *. simpl. lia.
  - simpl. rewrite List.filter_app. simpl. rewrite Hs.
    rewrite !filter_all_true by done.
    rewrite len_app. unfold len. lia.
Qed.

End UnknownVariant.

Section UnknownVariantStages.
Context `{SFDU.Components}.
Import SFDU.

Lemma decode_unknown_tracking_alone self fr l a p w :
  headers_decode fr l a p ->
  tracking_class (format_code p) = None ->
  decode self fr true true true false true w
  = (Ok (mk fr (number self) l a p (sec_chdo self) (trk_chdo self) false),
     World (stdout w ++ [tracking_warning (number self) (format_code p)])
       (files w)).
Proof.
  intros Hh Ht. rewrite (decode_headers _ _ _ _ _ _ _ _ Hh).
  unfold decode_secondary, decode_tracking. simpl. by rewrite Ht.
Qed.

Lemma decode_header_only self fr l a p w :
  headers_decode fr l a p ->
  decode self fr true true true false false w
  = (Ok (mk fr (number self) l a p (sec_chdo self) (trk_chdo self) true),
     w).
Proof.
  intros Hh. by rewrite (decode_headers _ _ _ _ _ _ _ _ Hh).
Qed.

Lemma decoded_after_false ddid code sec trk :
  decoded_after ddid code sec trk = false <->
  (sec = true /\ ~ known_ddid ddid) \/ (trk = true /\ ~ known_code code).
Proof.
  unfold decoded_after.
  rewrite andb_false_iff.
  assert (Hs : (if sec then bool_decide (is_Some (secondary_class ddid))
                else true) = false
               <-> sec = true /\ ~ known_ddid ddid).
  { destruct sec; [|split; [done|by intros [? _]]].
    rewrite bool_decide_eq_false, secondary_class_known. tauto. }
  assert (Ht : (if trk then bool_decide (is_Some (tracking_class code))
                else true) = false
               <-> trk = true /\ ~ known_code code).
  { destruct trk; [|split; [done|by intros [? _]]].
    rewrite bool_decide_eq_false, tracking_class_known.
    unfold known_code. tauto. }
  by rewrite Hs, Ht.
Qed.

End UnknownVariantStages.

Section UnknownVariantTheorems.
Import SFDU components.

(** A record with an unknown data description id, decoded with the
    secondary and tracking stages switched off, as the regroup script
    decodes: the record comes back marked decoded and nothing is printed.
    So [decode] does not mark every record of unknown code not decoded. *)
Lemma unknown_code_unnoticed_when_skipped :
  decode (H := fixed_offsets) (new (H := fixed_offsets)) unknown_ddid
    true true true false false no_files
  = (Ok (mk unknown_ddid 0 {| data_description_id := "C999" |}
           (Object "SFDUAggCHDO"
              {[ "chdo_type"%string := 1; "chdo_length"%string := 56 ]})
           {| format_code := 1 |} None None true),
     no_files) /\
  ~ known_ddid "C999" /\
  ~ (forall (C : Components) self fr lbl agg pri sec trk w s w',
        decode (H := C) self fr lbl agg pri sec trk w = (Ok s, w') ->
        ~ known_ddid (data_description_id (label s)) ->
        is_decoded s = false).
Proof.
  assert (Hrun :
    decode (H := fixed_offsets) (new (H := fixed_offsets)) unknown_ddid
      true true true false false no_files
    = (Ok (mk unknown_ddid 0 {| data_description_id := "C999" |}
             (Object "SFDUAggCHDO"
                {[ "chdo_type"%string := 1; "chdo_length"%string := 56 ]})
             {| format_code := 1 |} None None true),
       no_files)) by (vm_compute; reflexivity).
  assert (Hk : ~ known_ddid "C999").
  { unfold known_ddid. rewrite !elem_of_cons, elem_of_nil.
    intros [?|[?|[?|[?|[?|[]]]]]]; discriminate. }
  split; [exact Hrun|]. split; [exact Hk|].
  intros Hall.
  specialize (Hall fixed_offsets _ _ _ _ _ _ _ _ _ _ Hrun Hk).
  discriminate Hall.
Qed.

(** C4, as the code behaves.  [decode] looks for an unknown code only in
    the stages it is asked for.  With the secondary stage asked for, a
    record whose data description id is none of C123..C127 comes back
    marked not decoded, the line "SFDU <number>: Warning: Unknown
    secondary CHDO type <id>. Skipping..." printed, the secondary and
    tracking headers left as they were and the label, aggregation and
    primary headers holding what their decoders read.  With the tracking
    stage asked for, the same holds for a format code outside 0..17 (the
    secondary header decoded first when that stage is asked for), the line
    naming the tracking CHDO type.  A stream of N records of which one is
    such a record and the others decode fully yields, with every stage
    asked for, N records from [Reader.decode], N-1 of them decoded, with
    that one warning printed and no exception.  In general the record is
    marked not decoded exactly when a stage that is asked for meets an
    unknown code; decoded with neither stage, every record is marked
    decoded and nothing is printed. *)
Theorem unknown_code_is_skipped `{Components} :
  (forall self fr l a p trk w,
      headers_decode fr l a p ->
      ~ known_ddid (data_description_id l) ->
      decode self fr true true true true trk w
      = (Ok (mk fr (number self) l a p (sec_chdo self) (trk_chdo self) false),
         World (stdout w
                  ++ ["SFDU " +:+ pretty (number self)
                        +:+ ": Warning: Unknown secondary CHDO type "
                        +:+ data_description_id l +:+ ". Skipping..."])
           (files w))) /\
  (forall self fr l a p c a1 w,
      headers_decode fr l a p ->
      secondary_class (data_description_id l) = Some c ->
      chdo_decode c fr = Ok a1 ->
      ~ known_code (format_code p) ->
      decode self fr true true true true true w
      = (Ok (mk fr (number self) l a p (Some (Object c a1)) (trk_chdo self)
               false),
         World (stdout w
                  ++ ["SFDU " +:+ pretty (number self)
                        +:+ ": Warning: Unknown tracking CHDO type "
                        +:+ pretty (format_code p) +:+ ". Skipping..."])
           (files w))) /\
  (forall self fr l a p w,
      headers_decode fr l a p ->
      ~ known_code (format_code p) ->
      decode self fr true true true false true w
      = (Ok (mk fr (number self) l a p (sec_chdo self) (trk_chdo self) false),
         World (stdout w
                  ++ ["SFDU " +:+ pretty (number self)
                        +:+ ": Warning: Unknown tracking CHDO type "
                        +:+ pretty (format_code p) +:+ ". Skipping..."])
           (files w))) /\
  (forall f pre bad post line w,
      Reader.frames (Reader.binarydata f) (Reader.index f)
      = pre ++ bad :: post ->
      Forall fully_decodable pre ->
      Forall fully_decodable post ->
      unknown_variant (len pre) bad line ->
      ((exists id,
           line = "SFDU " +:+ pretty (len pre)
                    +:+ ": Warning: Unknown secondary CHDO type "
                    +:+ id +:+ ". Skipping...") \/
       (exists code : Z,
           line = "SFDU " +:+ pretty (len pre)
                    +:+ ": Warning: Unknown tracking CHDO type "
                    +:+ pretty code +:+ ". Skipping...")) /\
      exists f',
        Reader.decode f true true true true true w
        = (Ok f', World (stdout w ++ [line]) (files w)) /\
        len (Reader.sfdu_list f') = len pre + 1 + len post /\
        len (List.filter is_decoded (Reader.sfdu_list f'))
        = len pre + len post) /\
  (forall self fr sec trk w s w',
      decode self fr true true true sec trk w = (Ok s, w') ->
      (is_decoded s = false <->
       (sec = true /\ ~ known_ddid (data_description_id (label s))) \/
       (trk = true /\ ~ known_code (format_code (pri_chdo s))))) /\
  (forall self fr l a p w,
      headers_decode fr l a p ->
      decode self fr true true true false false w
      = (Ok (mk fr (number self) l a p (sec_chdo self) (trk_chdo self) true),
         w)).
Proof.
  split; [|split; [|split; [|split; [|split]]]].
  - intros self fr l a p trk w Hh Hk.
    apply decode_unknown_secondary; [done|].
    destruct (secondary_class _) eqn:Hc; [|done].
    destruct Hk. apply secondary_class_known. by rewrite Hc.
  - intros self fr l a p c a1 w Hh Hc Ha1 Hk.
    apply decode_unknown_tracking; try done.
    destruct (tracking_class _) eqn:Ht; [|done].
    destruct Hk. apply tracking_class_known. by rewrite Ht.
  - intros self fr l a p w Hh Hk.
    apply decode_unknown_tracking_alone; [done|].
    destruct (tracking_class _) eqn:Ht; [|done].
    destruct Hk. apply tracking_class_known. by rewrite Ht.
  - intros f pre bad post line w Hfr Hpre Hpost Hbad. split.
    + destruct Hbad as (l & a & p & _ & [[_ ->]|(c & a1 & _ & _ & _ & ->)]).
      * left. by eexists.
      * right. by eexists.
    + by eapply decode_stream_one_unknown.
  - intros self fr sec trk w s w' Hd.
    apply decode_inv in Hd as (_ & _ & _ & _ & _ & _ & -> & _).
    apply decoded_after_false.
  - intros self fr l a p w. apply decode_header_only.
Qed.

Lemma carrier_5s_decodable : @fully_decodable fixed_offsets carrier_5s.
Proof.
  unfold fully_decodable, headers_decode.
  do 7 eexists. repeat split; vm_compute; reflexivity.
Qed.

Lemma ramp_4s_decodable : @fully_decodable fixed_offsets ramp_4s.
Proof.
  unfold fully_decodable, headers_decode.
  do 7 eexists. repeat split; vm_compute; reflexivity.
Qed.

Lemma unknown_ddid_variant :
  @unknown_variant fixed_offsets 1 unknown_ddid
    (secondary_warning 1 "C999").
Proof.
  unfold unknown_variant, headers_decode.
  do 3 eexists. split; [repeat split; vm_compute; reflexivity|].
  left. split; [|reflexivity].
  change (~ known_ddid "C999").
  unfold known_ddid. rewrite !elem_of_cons, elem_of_nil.
  intros [?|[?|[?|[?|[?|[]]]]]]; discriminate.
Qed.

Lemma unknown_code_is_skipped_witness :
  exists f',
    @Reader.decode fixed_offsets
      (reader_of (carrier_5s ++ unknown_ddid ++ ramp_4s) [0; 80; 160; 240])
      true true true true true no_files
    = (Ok f',
       World ["SFDU 1: Warning: Unknown secondary CHDO type C999. Skipping..."]
         ∅) /\
    len (Reader.sfdu_list f') = 3 /\
    len (List.filter is_decoded (Reader.sfdu_list f')) = 2.
Proof.
  refine (proj2
            (proj1 (proj2 (proj2 (proj2
                      (@unknown_code_is_skipped fixed_offsets))))
               (reader_of (carrier_5s ++ unknown_ddid ++ ramp_4s)
                  [0; 80; 160; 240])
               [carrier_5s] unknown_ddid [ramp_4s] _ no_files _ _ _ _)).
  - vm_compute. reflexivity.
  - repeat constructor. apply carrier_5s_decodable.
  - repeat constructor. apply ramp_4s_decodable.
  - apply unknown_ddid_variant.
Defined.

End UnknownVariantTheorems.

(** ** The full summary *)

Section FullSummaryFacts.
Import Info.

Lemma getattr_opt_err o a e :
  getattr_opt o a = Err e -> exists c, e = AttributeError c a.
Proof.
  destruct o as [o|]; simpl; [|intros [= <-]; eauto].
  unfold getattr. destruct (attrs o !! a); [done|]. intros [= <-]. eauto.
Qed.

Lemma doppler_count_times_none (l : list SFDU.t) x :
  x ∈ l -> code x = 16 -> SFDU.sec_chdo x = None ->
  exists c, doppler_count_times l = Err (AttributeError c "cnt_time").
Proof.
  intros Hin Hcode Hsec. unfold doppler_count_times.
  destruct (rmap _ _) as [ts|e] eqn:Hts; simpl.
  - apply rmap_ok_inv in Hts.
    assert (Hx : x ∈ List.filter (fun x => code x =? 16) l).
    { apply list_elem_of_In, filter_In. split; [by apply list_elem_of_In|].
      by apply Z.eqb_eq. }
    apply list_elem_of_lookup in Hx as [i Hi].
    destruct (Forall2_lookup_l _ _ _ _ _ Hts Hi) as (t & _ & Ht).
    by rewrite Hsec in Ht.
  - apply rmap_err_inv in Hts as (y & _ & Hy).
    apply getattr_opt_err in Hy as [c ->]. eauto.
Qed.

Lemma get_info_needs_count_time self f x :
  x ∈ Reader.sfdu_list f -> code x = 16 -> SFDU.sec_chdo x = None ->
  exists e, get_info self f = Err e.
Proof.
  intros Hin Hcode Hsec.
  destruct (doppler_count_times_none _ _ Hin Hcode Hsec) as [c Hd].
  unfold get_info.
  repeat match goal with
    | |- exists e, ?r ≫= _ = Err e =>
        destruct r; simpl; [|eauto]
    end.
  discriminate Hd.
Qed.

End FullSummaryFacts.

Section FullSummaryOrder.
Import Info.

(** When every statement of [get_info] before the last succeeds, the
    outcome of [get_info] is that of the last one, which collects the
    Doppler count times. *)
Lemma get_info_reaches_count_times self f dt dtm scft acc dlb ulb :
  rmap SFDU.timestamp (List.filter SFDU.is_decoded (Reader.sfdu_list f))
  = Ok dt ->
  dt <> [] ->
  rmap SFDU.last_modified (List.filter SFDU.is_decoded (Reader.sfdu_list f))
  = Ok dtm ->
  rmap (fun x => getattr_opt (SFDU.sec_chdo x) "scft_id")
    (List.filter SFDU.is_decoded (Reader.sfdu_list f)) = Ok scft ->
  station_loop (mk_lists [] [] [] [] []) (Reader.sfdu_list f) = Ok acc ->
  rmap (dict_get util.bands) (list_set (dl_band acc)) = Ok dlb ->
  rmap (dict_get util.bands) (list_set (ul_band acc)) = Ok ulb ->
  forall e,
    doppler_count_times (Reader.sfdu_list f) = Err e ->
    get_info self f = Err e.
Proof.
  intros Hdt Hne Hdtm Hscft Hacc Hdlb Hulb e He.
  unfold get_info. rewrite Hdt. simpl.
  destruct dt as [|t dt]; [done|]. simpl.
  rewrite Hdtm. simpl.
  assert (Hlen : length dtm = length (t :: dt)).
  { apply rmap_ok_inv, Forall2_length in Hdt, Hdtm. congruence. }
  destruct dtm as [|tm dtm]; [done|]. simpl.
  rewrite Hscft. simpl. rewrite Hacc. simpl. rewrite Hdlb. simpl.
  rewrite Hulb. simpl. by rewrite He.
Qed.

End FullSummaryOrder.

Section FullSummaryTheorems.
Import Info components.

Lemma unknown_ddid_no_secondary `{SFDU.Components} sec trk p (x : SFDU.t) :
  Reader.decoded_from sec trk p x ->
  ~ SFDU.known_ddid (ddid x) ->
  SFDU.sec_chdo x = None.
Proof.
  intros (_ & _ & _ & _ & _ & -> & _) Hk.
  unfold SFDU.sec_after, SFDU.secondary_of. fold (ddid x).
  destruct (SFDU.secondary_class (ddid x)) eqn:Hc.
  - destruct Hk. apply secondary_class_known. by rewrite Hc.
  - by destruct sec.
Qed.

(** The record and the reader [Reader.decode] makes of a file holding one
    carrier observable under an unknown data description id. *)
Lemma lone_observable_decoded :
  @Reader.decode fixed_offsets (reader_of observable_unknown_ddid [0; 80])
    true true true true false no_files
  = (Ok (Reader.mk "in.tnf"
           [SFDU.mk observable_unknown_ddid 0
              {| SFDU.data_description_id := "C999" |}
              (Object "SFDUAggCHDO"
                 {[ "chdo_type"%string := 1; "chdo_length"%string := 56 ]})
              {| SFDU.format_code := 16 |} None None false]
           true observable_unknown_ddid [0; 80]),
     World ["SFDU 0: Warning: Unknown secondary CHDO type C999. Skipping..."]
       ∅).
Proof. vm_compute. reflexivity. Qed.

(** A file holding that record alone: no record is decoded, and [get_info]
    fails on [min] of the empty list of timestamps, with ValueError, before
    it comes to the Doppler count times.  So the error of the full summary
    is not always the one of reading [cnt_time]. *)
Lemma full_summary_fails_before_count_times :
  get_info initial
    (Reader.mk "in.tnf"
       [SFDU.mk observable_unknown_ddid 0
          {| SFDU.data_description_id := "C999" |}
          (Object "SFDUAggCHDO"
             {[ "chdo_type"%string := 1; "chdo_length"%string := 56 ]})
          {| SFDU.format_code := 16 |} None None false]
       true observable_unknown_ddid [0; 80])
  = Err (ValueError "min() arg is an empty sequence") /\
  ~ (forall self f x,
        x ∈ Reader.sfdu_list f -> code x = 16 -> SFDU.sec_chdo x = None ->
        exists c, get_info self f = Err (AttributeError c "cnt_time")).
Proof.
  split; [reflexivity|].
  intros Hall.
  destruct (Hall initial
              (Reader.mk "in.tnf"
                 [SFDU.mk observable_unknown_ddid 0
                    {| SFDU.data_description_id := "C999" |}
                    (Object "SFDUAggCHDO"
                       {[ "chdo_type"%string := 1;
                          "chdo_length"%string := 56 ]})
                    {| SFDU.format_code := 16 |} None None false]
                 true observable_unknown_ddid [0; 80])
              _ (list_elem_of_here _ _) eq_refl eq_refl) as [c Hc].
  discriminate Hc.
Qed.

(** C10, as the code behaves.  When the record list of a reader holds a
    record of format code 16 without a secondary header, [get_info] raises
    and gives no summary.  The statement that collects the Doppler count
    times reads [cnt_time] from every record of code 16, decoded or not,
    and fails with AttributeError; it is the last statement, so that is
    the error of [get_info] when every statement before it succeeds, and
    otherwise the error is that of the first statement that fails.  After
    [Reader.decode] a record whose data description id is unknown is such
    a record, so a stream with a record of code 16 and unknown id has no
    full summary. *)
Theorem full_summary_needs_secondary_of_code_16 `{SFDU.Components} :
  (forall self f x,
      x ∈ Reader.sfdu_list f -> code x = 16 -> SFDU.sec_chdo x = None ->
      (exists e, get_info self f = Err e) /\
      (exists c,
          doppler_count_times (Reader.sfdu_list f)
          = Err (AttributeError c "cnt_time") /\
          forall dt dtm scft acc dlb ulb,
            rmap SFDU.timestamp
              (List.filter SFDU.is_decoded (Reader.sfdu_list f)) = Ok dt ->
            dt <> [] ->
            rmap SFDU.last_modified
              (List.filter SFDU.is_decoded (Reader.sfdu_list f)) = Ok dtm ->
            rmap (fun x => getattr_opt (SFDU.sec_chdo x) "scft_id")
              (List.filter SFDU.is_decoded (Reader.sfdu_list f))
            = Ok scft ->
            station_loop (mk_lists [] [] [] [] []) (Reader.sfdu_list f)
            = Ok acc ->
            rmap (dict_get util.bands) (list_set (dl_band acc)) = Ok dlb ->
            rmap (dict_get util.bands) (list_set (ul_band acc)) = Ok ulb ->
            get_info self f = Err (AttributeError c "cnt_time"))) /\
  (forall self f sec trk w f' w' x,
      Reader.decode f true true true sec trk w = (Ok f', w') ->
      x ∈ Reader.sfdu_list f' -> code x = 16 ->
      ~ SFDU.known_ddid (ddid x) ->
      SFDU.sec_chdo x = None /\
      exists e, get_info self f' = Err e).
Proof.
  split.
  - intros self f x Hin Hcode Hsec. split.
    + by eapply get_info_needs_count_time.
    + destruct (doppler_count_times_none _ _ Hin Hcode Hsec) as [c Hc].
      exists c. split; [exact Hc|].
      intros dt dtm scft acc dlb ulb Hdt Hne Hdtm Hscft Hacc Hdlb Hulb.
      by eapply get_info_reaches_count_times.
  - intros self f sec trk w f' w' x Hd Hin Hcode Hk.
    apply decode_stream_inv in Hd as (_ & _ & _ & _ & _ & Hall).
    apply list_elem_of_lookup in Hin as [i Hi].
    destruct (Forall2_lookup_r _ _ _ _ _ Hall Hi) as (p & _ & Hp).
    assert (Hsec : SFDU.sec_chdo x = None)
      by (by eapply unknown_ddid_no_secondary).
    split; [exact Hsec|].
    eapply get_info_needs_count_time;
      [by eapply list_elem_of_lookup_2|done|done].
Qed.

Lemma C999_unknown : ~ SFDU.known_ddid "C999".
Proof.
  unfold SFDU.known_ddid. rewrite !elem_of_cons, elem_of_nil.
  intros [?|[?|[?|[?|[?|[]]]]]]; discriminate.
Qed.

(** A carrier record followed by a carrier observable under an unknown
    data description id: every statement before the last succeeds on the
    decoded carrier record, and the full summary fails on [cnt_time]. *)
Lemma full_summary_needs_secondary_of_code_16_witness :
  exists f' w',
    @Reader.decode fixed_offsets
      (reader_of (carrier_5s ++ observable_unknown_ddid) [0; 80; 160])
      true true true true false no_files = (Ok f', w') /\
    (exists e, get_info initial f' = Err e) /\
    get_info initial f' = Err (AttributeError "NoneType" "cnt_time").
Proof.
  eexists _, _. split; [vm_compute; reflexivity|].
  split.
  - eapply proj2.
    eapply (proj2 (@full_summary_needs_secondary_of_code_16 fixed_offsets)
              initial
              (reader_of (carrier_5s ++ observable_unknown_ddid)
                 [0; 80; 160])
              true false no_files).
    + vm_compute. reflexivity.
    + apply list_elem_of_lookup_2 with 1%nat. vm_compute. reflexivity.
    + vm_compute. reflexivity.
    + exact C999_unknown.
  - vm_compute. reflexivity.
Defined.

End FullSummaryTheorems.

(** ** Writing records to a file *)

Section WriteFacts.

Lemma writes_write path b : writes path b (write path b).
Proof.
  intros w old Hold. unfold write. simpl. rewrite Hold. simpl. eauto.
Qed.

Lemma writes_keeps {A} path (m : M A) :
  keeps_files m -> (forall w, exists a, fst (m w) = Ok a) ->
  writes path [] m.
Proof.
  intros Hk Hok w old Hold. split; [done|].
  rewrite Hk, app_nil_r. by rewrite insert_id.
Qed.

Lemma writes_ret {A} path (a : A) : writes path [] (mret a).
Proof. apply writes_keeps; [apply keeps_files_ret|]. intros w. by exists a. Qed.

Lemma writes_print path s : writes path [] (print s).
Proof.
  apply writes_keeps; [apply keeps_files_print|]. intros w. by exists tt.
Qed.

Lemma writes_bind {A B} path o1 o2 (m : M A) (f : A -> M B) :
  writes path o1 m -> (forall a, writes path o2 (f a)) ->
  writes path (o1 ++ o2) (m ≫= f).
Proof.
  intros Hm Hf w old Hold. rewrite bind_run.
  destruct (Hm w old Hold) as [[a Ha] Hfiles].
  destruct (m w) as [r w1]. simpl in *. subst r.
  destruct (Hf a w1 (old ++ o1)) as [Hok Hfiles'].
  { rewrite Hfiles. apply lookup_insert_eq. }
  split; [done|].
  by rewrite Hfiles', Hfiles, insert_insert_eq, app_assoc.
Qed.

Lemma writes_for_each {A} path (g : A -> bytes) (f : A -> M unit) l :
  (forall x, writes path (g x) (f x)) ->
  writes path (concat (map g l)) (for_each l f).
Proof.
  intros Hf. induction l as [|x l IH]; simpl; [apply writes_ret|].
  by apply writes_bind.
Qed.

End WriteFacts.

(** ** Regrouping by format code *)

Section RegroupFacts.
Import trk234_regroup.
Implicit Types l : list SFDU.t.

Lemma sort_types_elem i : i ∈ sort_types <-> 0 <= i <= 17.
Proof.
  unfold sort_types, range.
  rewrite list_elem_of_fmap. setoid_rewrite elem_of_seq. split.
  - intros (n & -> & Hn). simpl in Hn. lia.
  - intros Hi. exists (Z.to_nat i). simpl. lia.
Qed.

Lemma sort_types_NoDup : NoDup sort_types.
Proof.
  unfold sort_types, range. apply NoDup_fmap_2; [|apply NoDup_seq].
  intros ? ?. lia.
Qed.

Lemma sort_types_sorted : StronglySorted Z.lt sort_types.
Proof. unfold sort_types, range. simpl. repeat constructor; lia. Qed.

Lemma matching_code l i x : x ∈ matching l i -> Info.code x = i.
Proof.
  unfold matching. intros Hx%list_elem_of_In%filter_In.
  destruct Hx as [_ Hx]. by apply Z.eqb_eq.
Qed.

Lemma filter_matching l i k :
  List.filter (fun x => Info.code x =? i) (matching l k)
  = if decide (k = i) then matching l i else [].
Proof.
  unfold matching. induction l as [|x l IH]; simpl; [by case_decide|].
  destruct (Z.eqb_spec (Info.code x) k) as [Hk|Hk]; simpl.
  - destruct (Z.eqb_spec (Info.code x) i) as [Hi|Hi].
    + rewrite IH. case_decide; [done|lia].
    + rewrite IH. case_decide; [lia|done].
  - rewrite IH. case_decide; [|done].
    subst k. by destruct (Z.eqb_spec (Info.code x) i).
Qed.

Lemma all_equal_sorted (cs : list Z) k :
  Forall (fun c => c = k) cs -> StronglySorted Z.le cs.
Proof.
  induction 1 as [|c cs -> Hcs IH]; constructor; [done|].
  eapply Forall_impl; [exact Hcs|]. intros c ->. lia.
Qed.

Lemma buckets_sorted l ks :
  StronglySorted Z.lt ks ->
  StronglySorted Z.le (map Info.code (concat (map (matching l) ks))).
Proof.
  induction 1 as [|k ks Hks IH Hall]; simpl; [constructor|].
  rewrite map_app. apply StronglySorted_app_2; [| |done].
  - intros c1 c2 (x1 & -> & Hx1)%list_elem_of_fmap
      (x2 & -> & Hx2)%list_elem_of_fmap.
    apply matching_code in Hx1 as ->.
    apply list_elem_of_In, in_concat in Hx2 as (b & Hb & Hx2).
    apply in_map_iff in Hb as (k' & <- & Hk').
    apply list_elem_of_In, matching_code in Hx2 as ->.
    rewrite Forall_forall in Hall.
    apply list_elem_of_In in Hk'. specialize (Hall k' Hk'). lia.
  - apply (all_equal_sorted _ k), Forall_fmap, Forall_forall.
    intros y Hy. simpl. by apply matching_code in Hy.
Qed.

Lemma filter_buckets l ks i :
  NoDup ks ->
  List.filter (fun x => Info.code x =? i) (concat (map (matching l) ks))
  = if decide (i ∈ ks) then matching l i else [].
Proof.
  induction 1 as [|k ks Hk _ IH]; simpl.
  - done.
  - rewrite List.filter_app, filter_matching, IH.
    destruct (decide (k = i)) as [->|Hne].
    + rewrite decide_False by done.
      rewrite decide_True by (by left). apply app_nil_r.
    + destruct (decide (i ∈ ks)) as [Hi|Hi].
      * by rewrite decide_True by (by right).
      * rewrite decide_False; [done|].
        intros [->|?]%elem_of_cons; done.
Qed.

Lemma filter_split {A} (f : A -> bool) (l : list A) :
  l ≡ₚ List.filter f l ++ List.filter (fun x => negb (f x)) l.
Proof.
  induction l as [|x l IH]; simpl; [done|].
  destruct (f x); simpl.
  - by constructor.
  - rewrite <- Permutation_middle. by constructor.
Qed.

Lemma filter_filter_bool {A} (f g : A -> bool) (l : list A) :
  List.filter f (List.filter g l) = List.filter (fun x => g x && f x) l.
Proof.
  induction l as [|x l IH]; simpl; [done|].
  destruct (g x); simpl; [|done]. destruct (f x); by rewrite IH.
Qed.

Lemma buckets_perm l ks :
  NoDup ks ->
  concat (map (matching l) ks)
  ≡ₚ List.filter (fun x => bool_decide (Info.code x ∈ ks)) l.
Proof.
  induction 1 as [|k ks Hk _ IH]; simpl.
  - induction l as [|x l IHl]; simpl; done.
  - rewrite (filter_split (fun x => Info.code x =? k)
               (List.filter (fun x => bool_decide (Info.code x ∈ k :: ks)) l)).
    rewrite !filter_filter_bool. apply Permutation_app.
    + unfold matching. apply Permutation_refl'. apply List.filter_ext.
      intros x. destruct (Z.eqb_spec (Info.code x) k) as [->|];
        [|by rewrite andb_false_r].
      rewrite bool_decide_eq_true_2; [done|by left].
    + rewrite IH. apply Permutation_refl'. apply List.filter_ext.
      intros x. destruct (Z.eqb_spec (Info.code x) k) as [Hx|Hx]; simpl.
      * rewrite andb_false_r. apply bool_decide_eq_false_2. by rewrite Hx.
      * rewrite andb_true_r. apply bool_decide_ext.
        rewrite elem_of_cons. split; [by right|by intros [?|?]].
Qed.

End RegroupFacts.

Section RegroupMain.
Context `{SFDU.Components}.
Import trk234_regroup.

Lemma keeps_files_print_log msg v : keeps_files (print_log msg v).
Proof.
  unfold print_log. destruct v; [apply keeps_files_print|apply keeps_files_ret].
Qed.

Lemma writes_print_log path msg v : writes path [] (print_log msg v).
Proof.
  unfold print_log. destruct v; [apply writes_print|apply writes_ret].
Qed.

Lemma keeps_files_new path : keeps_files (Reader.new path).
Proof.
  intros w. unfold Reader.new. rewrite bind_run.
  unfold Reader.read, read_file.
  destruct (files w !! path) as [data|]; [|done].
  rewrite bind_run. unfold lift. by destruct (Reader.sfdu_index data).
Qed.

Lemma new_inv path w f w' :
  Reader.new path w = (Ok f, w') ->
  w' = w /\
  exists data ind,
    files w !! path = Some data /\ Reader.sfdu_index data = Ok ind /\
    f = Reader.mk (last_component "" path) [] false data ind.
Proof.
  unfold Reader.new. rewrite bind_run. unfold Reader.read, read_file.
  destruct (files w !! path) as [data|]; [|done].
  rewrite bind_run. unfold lift.
  destruct (Reader.sfdu_index data) as [ind|] eqn:Hind; [|done].
  intros [= <- <-]. split; [done|]. by exists data, ind.
Qed.

Lemma bytes_of_buckets sfdus ks :
  bytes_of (concat (map (matching sfdus) ks))
  = concat (map (fun i => bytes_of (matching sfdus i) ++ []) ks).
Proof.
  unfold bytes_of. induction ks as [|k ks IH]; simpl; [done|].
  by rewrite map_app, concat_app, IH, app_nil_r.
Qed.

Lemma group_and_write_writes a sfdus :
  writes (Output a) (bytes_of (written sfdus)) (group_and_write a sfdus).
Proof.
  unfold written. rewrite bytes_of_buckets. unfold group_and_write.
  apply writes_for_each. intros i.
  apply writes_bind; [|intros _; apply writes_print_log].
  unfold bytes_of. apply writes_for_each. intros s. apply writes_write.
Qed.

Lemma keeps_files_validation a sfdus : keeps_files (validation a sfdus).
Proof.
  unfold validation.
  apply keeps_files_bind; [apply keeps_files_new|]. intros f2.
  apply keeps_files_bind; [apply decode_keeps_files_stream|]. intros f2'.
  apply keeps_files_bind;
    [case_decide; [apply keeps_files_print|apply keeps_files_ret]|].
  intros _.
  apply keeps_files_bind;
    [case_decide; [apply keeps_files_print|apply keeps_files_ret]|].
  intros _.
  do 3 (apply keeps_files_bind; [apply keeps_files_print|]; intros _).
  apply keeps_files_for_each. intros i.
  do 2 (apply keeps_files_bind; [apply keeps_files_lift|]; intros ?).
  apply keeps_files_print.
Qed.

Lemma main_inv a w w' :
  main a w = (Ok tt, w') ->
  exists data ind sfdus,
    files w !! Input a = Some data /\
    Reader.sfdu_index data = Ok ind /\
    Forall2 (Reader.decoded_from false false)
      (enumerate (Reader.frames data ind)) sfdus /\
    files w' = <[Output a := bytes_of (written sfdus)]> (files w).
Proof.
  unfold main. intros Hm.
  apply bind_ok_inv in Hm as ([] & w1 & H1 & Hm).
  apply (keeps_files_run _ _ _ _ (keeps_files_print_log _ _)) in H1.
  apply bind_ok_inv in Hm as (f & w2 & H2 & Hm).
  apply new_inv in H2 as (-> & data & ind & Hdata & Hind & ->).
  apply bind_ok_inv in Hm as (f' & w3 & H3 & Hm).
  apply decode_stream_inv in H3 as (_ & _ & _ & _ & H3 & Hall).
  simpl in Hall.
  apply bind_ok_inv in Hm as ([] & w4 & H4 & Hm).
  apply (keeps_files_run _ _ _ _ (keeps_files_print_log _ _)) in H4.
  apply bind_ok_inv in Hm as ([] & w5 & H5 & Hm).
  assert (w5 = w4) as ->.
  { destruct (prompt a); [done|]. by injection H5. }
  clear H5.
  apply bind_ok_inv in Hm as ([] & w6 & H6 & Hm).
  unfold open_wb in H6. injection H6 as <-.
  apply bind_ok_inv in Hm as ([] & w7 & H7 & Hm).
  apply (keeps_files_run _ _ _ _ (keeps_files_print_log _ _)) in H7.
  simpl in H7.
  apply bind_ok_inv in Hm as ([] & w8 & H8 & Hm).
  destruct (group_and_write_writes a (Reader.sfdu_list f') w7 [])
    as [_ Hw8].
  { rewrite H7. apply lookup_insert_eq. }
  rewrite H8 in Hw8. simpl in Hw8.
  apply bind_ok_inv in Hm as ([] & w9 & H9 & Hm).
  apply (keeps_files_run _ _ _ _ (keeps_files_print_log _ _)) in H9.
  assert (Hw' : files w' = files w9).
  { destruct (validate a).
    - by apply (keeps_files_run _ _ _ _ (keeps_files_validation _ _)) in Hm.
    - by injection Hm as <-. }
  exists data, ind, (Reader.sfdu_list f'). repeat split; try done.
  - by rewrite <- H1.
  - rewrite Hw', H9, Hw8, H7, insert_insert_eq, H4, H3, H1. done.
Qed.

End RegroupMain.

Section RegroupTheorems.
Import trk234_regroup components.

Lemma len_bytes_of sfdus : len (bytes_of sfdus) = byte_count sfdus.
Proof.
  unfold bytes_of. induction sfdus as [|s sfdus IH]; simpl; [done|].
  by rewrite len_app, IH.
Qed.

Lemma byte_count_perm l1 l2 : l1 ≡ₚ l2 -> byte_count l1 = byte_count l2.
Proof. induction 1; simpl; lia. Qed.

Lemma types_written sfdus :
  util.types Info.code (written sfdus) = util.types Info.code sfdus.
Proof.
  unfold util.types. apply map_ext_in. intros i Hi%list_elem_of_In.
  unfold util.count_code, written.
  rewrite filter_buckets by apply sort_types_NoDup.
  by rewrite decide_True by done.
Qed.

(** C5.  When [main] of the regroup script returns, the output file holds,
    one after the other and unmodified, the byte ranges of the records of
    the input in the order [written]: the format codes of that sequence do
    not decrease, the records of each code 0..17 appear in their input
    order, the sequence is a rearrangement of the input records whose code
    is in 0..17, the count of each code 0..17 is that of the input, and the
    length of the output is the sum of the lengths of those records, which
    is the input length when every record has a code in 0..17. *)
Theorem regroup_stable_partition `{SFDU.Components} a w w' :
  main a w = (Ok tt, w') ->
  exists data ind sfdus,
    files w !! Input a = Some data /\
    Reader.sfdu_index data = Ok ind /\
    Forall2 (Reader.decoded_from false false)
      (enumerate (Reader.frames data ind)) sfdus /\
    SFDU.binarydata <$> sfdus = Reader.frames data ind /\
    files w' !! Output a = Some (bytes_of (written sfdus)) /\
    StronglySorted Z.le (map Info.code (written sfdus)) /\
    (forall i,
        List.filter (fun x => Info.code x =? i) (written sfdus)
        = if decide (0 <= i <= 17)
          then List.filter (fun x => Info.code x =? i) sfdus
          else []) /\
    written sfdus ≡ₚ surviving sfdus /\
    util.types Info.code (written sfdus) = util.types Info.code sfdus /\
    len (bytes_of (written sfdus)) = byte_count (surviving sfdus) /\
    (Forall (fun x => SFDU.known_code (Info.code x)) sfdus ->
     len (bytes_of (written sfdus)) = len data).
Proof.
  intros (data & ind & sfdus & Hdata & Hind & Hall & Hfiles)%main_inv.
  pose proof (buckets_perm sfdus _ sort_types_NoDup) as Hperm.
  fold (written sfdus) in Hperm. fold (surviving sfdus) in Hperm.
  pose proof (decoded_binarydata _ _ _ _ Hall) as Hbin.
  exists data, ind, sfdus. repeat split; try done.
  - rewrite Hfiles. apply lookup_insert_eq.
  - apply buckets_sorted, sort_types_sorted.
  - intros i. unfold written.
    rewrite filter_buckets by apply sort_types_NoDup.
    destruct (decide (0 <= i <= 17)) as [Hi|Hi].
    + by rewrite decide_True by (by apply sort_types_elem).
    + by rewrite decide_False by (by rewrite sort_types_elem).
  - apply types_written.
  - rewrite len_bytes_of. by apply byte_count_perm.
  - intros Hknown. rewrite len_bytes_of, (byte_count_perm _ _ Hperm).
    unfold surviving. rewrite filter_all_true.
    + rewrite <- len_bytes_of. unfold bytes_of.
      change (map SFDU.binarydata sfdus) with (SFDU.binarydata <$> sfdus).
      rewrite Hbin. by rewrite (sfdu_index_frames _ _ Hind).
    + eapply Forall_impl; [exact Hknown|]. intros x Hx. simpl.
      apply bool_decide_eq_true_2. by apply sort_types_elem.
Qed.

End RegroupTheorems.

(** ** Purifying *)

Section PurifyFacts.
Context `{SFDU.Components}.
Import trk234_purify.

Lemma keeps_files_purify_log msg v : keeps_files (print_log msg v).
Proof.
  unfold print_log. destruct v; [apply keeps_files_print|apply keeps_files_ret].
Qed.

Lemma writes_purify_log path msg v : writes path [] (print_log msg v).
Proof.
  unfold print_log. destruct v; [apply writes_print|apply writes_ret].
Qed.

Lemma discard_reason_permissive a s :
  permissive a ->
  exists r, discard_reason a s = Ok r /\ (r = None <-> known s = true).
Proof.
  intros (Hf & Hud & Hub & Hdd & Hdb).
  unfold discard_reason, known. rewrite Hf, Hud, Hub, Hdd, Hdb.
  destruct (bool_decide (is_Some (util.data_descriptions !! Info.ddid s)));
    destruct (bool_decide (is_Some (util.format_codes !! Info.code s)));
    simpl; eexists; (split; [done|]); split; done.
Qed.

Lemma purify_step_writes a s :
  permissive a ->
  writes (Output a)
    (if known s then SFDU.binarydata s else []) (purify_step a s).
Proof.
  intros Ha. destruct (discard_reason_permissive a s Ha) as (r & Hr & Hk).
  unfold purify_step.
  intros w old Hold. rewrite bind_run. unfold lift. rewrite Hr.
  destruct r as [msg|].
  - destruct (known s); [discriminate (proj2 Hk eq_refl)|].
    by apply (writes_purify_log (Output a) msg (verbose a)).
  - rewrite (proj1 Hk eq_refl). by apply writes_write.
Qed.

Lemma bytes_of_kept sfdus :
  concat (map (fun s => if known s then SFDU.binarydata s else []) sfdus)
  = trk234_regroup.bytes_of (kept sfdus).
Proof.
  unfold trk234_regroup.bytes_of, kept.
  induction sfdus as [|s sfdus IH]; simpl; [done|].
  destruct (known s); simpl; by rewrite IH.
Qed.

Lemma purify_main_inv a w w' :
  permissive a ->
  main a w = (Ok tt, w') ->
  exists data ind sfdus,
    files w !! Input a = Some data /\
    Reader.sfdu_index data = Ok ind /\
    Forall2 (Reader.decoded_from true false)
      (enumerate (Reader.frames data ind)) sfdus /\
    files w' = <[Output a := trk234_regroup.bytes_of (kept sfdus)]> (files w).
Proof.
  intros Ha. unfold main. intros Hm.
  apply bind_ok_inv in Hm as ([] & w1 & H1 & Hm).
  apply (keeps_files_run _ _ _ _ (keeps_files_purify_log _ _)) in H1.
  apply bind_ok_inv in Hm as (f & w2 & H2 & Hm).
  apply new_inv in H2 as (-> & data & ind & Hdata & Hind & ->).
  apply bind_ok_inv in Hm as (f' & w3 & H3 & Hm).
  apply decode_stream_inv in H3 as (_ & _ & _ & _ & H3 & Hall).
  simpl in Hall.
  apply bind_ok_inv in Hm as ([] & w5 & H5 & Hm).
  assert (w5 = w3) as ->.
  { destruct (prompt a); [done|]. by injection H5. }
  clear H5.
  apply bind_ok_inv in Hm as ([] & w6 & H6 & Hm).
  unfold open_wb in H6. injection H6 as <-.
  apply bind_ok_inv in Hm as ([] & w7 & H7 & Hm).
  apply (keeps_files_run _ _ _ _ (keeps_files_purify_log _ _)) in H7.
  simpl in H7.
  apply bind_ok_inv in Hm as ([] & w8 & H8 & Hm).
  destruct (writes_for_each (Output a)
              (fun s => if known s then SFDU.binarydata s else [])
              (purify_step a) (Reader.sfdu_list f')
              (fun s => purify_step_writes a s Ha) w7 [])
    as [_ Hw8].
  { rewrite H7. apply lookup_insert_eq. }
  rewrite H8 in Hw8. simpl in Hw8. rewrite bytes_of_kept in Hw8.
  apply (keeps_files_run _ _ _ _ (keeps_files_purify_log _ _)) in Hm.
  exists data, ind, (Reader.sfdu_list f'). repeat split; try done.
  - by rewrite <- H1.
  - rewrite Hm, Hw8, H7, insert_insert_eq, H3, H1. done.
Qed.

End PurifyFacts.

Section KnownCodes.
Import trk234_purify.

Lemma data_descriptions_keys d :
  is_Some (util.data_descriptions !! d) <-> SFDU.known_ddid d.
Proof.
  unfold SFDU.known_ddid. rewrite !elem_of_cons, elem_of_nil. split.
  - intros [x Hx]. apply elem_of_list_to_map_2 in Hx.
    rewrite !elem_of_cons, elem_of_nil in Hx.
    destruct Hx as [Hx|[Hx|[Hx|[Hx|[Hx|[]]]]]]; injection Hx as -> _; tauto.
  - intros [->|[->|[->|[->|[->|[]]]]]]; by eexists.
Qed.

Lemma format_codes_keys c :
  is_Some (util.format_codes !! c) <-> SFDU.known_code c.
Proof.
  unfold SFDU.known_code. split.
  - intros [x Hx]. apply elem_of_list_to_map_2 in Hx.
    rewrite !elem_of_cons, elem_of_nil in Hx.
    repeat (destruct Hx as [Hx|Hx]; [injection Hx as -> _; lia|]).
    done.
  - intros Hc.
    assert (Hcases : c ∈ range 18) by (by apply sort_types_elem).
    unfold range in Hcases. simpl in Hcases.
    rewrite !elem_of_cons, elem_of_nil in Hcases.
    repeat (destruct Hcases as [->|Hcases]; [by eexists|]).
    done.
Qed.

Lemma known_spec s :
  known s = true <->
  SFDU.known_ddid (Info.ddid s) /\ SFDU.known_code (Info.code s).
Proof.
  unfold known. rewrite andb_true_iff, !bool_decide_eq_true.
  by rewrite data_descriptions_keys, format_codes_keys.
Qed.

End KnownCodes.

Section TransformTheorems.
Import components.

Lemma regroup_stable_partition_witness :
  trk234_regroup.main (H := fixed_offsets) (regroup_args false)
    (input_file (carrier_5s ++ ramp_4s ++ carrier_6s))
  = (Ok tt,
     World []
       (<["out.tnf"%string := carrier_5s ++ carrier_6s ++ ramp_4s]>
          {[ "in.tnf"%string := carrier_5s ++ ramp_4s ++ carrier_6s ]})) /\
  exists sfdus,
    SFDU.binarydata <$> sfdus
    = Reader.frames (carrier_5s ++ ramp_4s ++ carrier_6s) [0; 80; 160; 240] /\
    trk234_regroup.bytes_of (trk234_regroup.written sfdus)
    = carrier_5s ++ carrier_6s ++ ramp_4s /\
    StronglySorted Z.le (map Info.code (trk234_regroup.written sfdus)) /\
    trk234_regroup.written sfdus ≡ₚ trk234_regroup.surviving sfdus /\
    util.types Info.code (trk234_regroup.written sfdus)
    = util.types Info.code sfdus.
Proof.
  assert (Hrun :
    trk234_regroup.main (H := fixed_offsets) (regroup_args false)
      (input_file (carrier_5s ++ ramp_4s ++ carrier_6s))
    = (Ok tt,
       World []
         (<["out.tnf"%string := carrier_5s ++ carrier_6s ++ ramp_4s]>
            {[ "in.tnf"%string := carrier_5s ++ ramp_4s ++ carrier_6s ]})))
    by (vm_compute; reflexivity).
  split; [exact Hrun|].
  destruct (regroup_stable_partition (H := fixed_offsets) _ _ _ Hrun)
    as (data & ind & sfdus & Hdata & Hind & _ & Hbin & Hout & Hsorted & _
        & Hperm & Htypes & _).
  exists sfdus.
  assert (Hd : data = carrier_5s ++ ramp_4s ++ carrier_6s).
  { vm_compute in Hdata. by injection Hdata. }
  subst data.
  assert (Hi : ind = [0; 80; 160; 240]).
  { vm_compute in Hind. by injection Hind. }
  subst ind.
  split; [exact Hbin|]. split; [|by repeat split].
  assert (Hfile : files
            (World []
               (<["out.tnf"%string := carrier_5s ++ carrier_6s ++ ramp_4s]>
                  {[ "in.tnf"%string
                     := carrier_5s ++ ramp_4s ++ carrier_6s ]}))
            !! trk234_regroup.Output (regroup_args false)
          = Some (carrier_5s ++ carrier_6s ++ ramp_4s))
    by apply lookup_insert_eq.
  rewrite Hfile in Hout. by injection Hout.
Defined.

(** A stream with a record of unknown data description id, filtered with no
    constraint at all: the output lacks that record, so it is not the
    concatenation of every record of the input. *)
Lemma purify_drops_unknown_records :
  trk234_purify.main (H := fixed_offsets) purify_args
    (input_file (carrier_5s ++ unknown_ddid ++ ramp_4s))
  = (Ok tt,
     World ["SFDU 1: Warning: Unknown secondary CHDO type C999. Skipping..."]
       (<["out.tnf"%string := carrier_5s ++ ramp_4s]>
          {[ "in.tnf"%string := carrier_5s ++ unknown_ddid ++ ramp_4s ]})) /\
  carrier_5s ++ ramp_4s <> carrier_5s ++ unknown_ddid ++ ramp_4s /\
  ~ (forall (C : SFDU.Components) a w w' data,
        trk234_purify.permissive a ->
        trk234_purify.main (H := C) a w = (Ok tt, w') ->
        files w !! trk234_purify.Input a = Some data ->
        files w' !! trk234_purify.Output a = Some data).
Proof.
  assert (Hrun :
    trk234_purify.main (H := fixed_offsets) purify_args
      (input_file (carrier_5s ++ unknown_ddid ++ ramp_4s))
    = (Ok tt,
       World ["SFDU 1: Warning: Unknown secondary CHDO type C999. Skipping..."]
         (<["out.tnf"%string := carrier_5s ++ ramp_4s]>
            {[ "in.tnf"%string := carrier_5s ++ unknown_ddid ++ ramp_4s ]})))
    by (vm_compute; reflexivity).
  assert (Hne : carrier_5s ++ ramp_4s
                <> carrier_5s ++ unknown_ddid ++ ramp_4s).
  { intros Heq. apply (f_equal length) in Heq. vm_compute in Heq.
    discriminate Heq. }
  split; [exact Hrun|]. split; [exact Hne|].
  intros Hall.
  specialize (Hall fixed_offsets purify_args _ _
                (carrier_5s ++ unknown_ddid ++ ramp_4s)
                (conj eq_refl (conj eq_refl (conj eq_refl
                   (conj eq_refl eq_refl)))) Hrun
                (lookup_singleton_eq _ _)).
  apply Hne.
  assert (Hout : files
            (World
               ["SFDU 1: Warning: Unknown secondary CHDO type C999. Skipping..."]
               (<["out.tnf"%string := carrier_5s ++ ramp_4s]>
                  {[ "in.tnf"%string
                     := carrier_5s ++ unknown_ddid ++ ramp_4s ]}))
            !! trk234_purify.Output purify_args
          = Some (carrier_5s ++ ramp_4s)) by apply lookup_insert_eq.
  rewrite Hout in Hall. by injection Hall.
Qed.

(** C6, as the code behaves.  When [main] of the purify script returns for
    a command line with no filter, the records are those decoded from the
    frames of the input, each with the label and primary header read from
    its frame, and the output file holds, one after the other, in input
    order and unmodified, the byte ranges of the records whose data
    description id is one of the five and whose format code is one of the
    eighteen; when every record of the input is such a record, the output
    is the input, byte for byte. *)
Theorem purify_permissive_keeps_known `{SFDU.Components} a w w' :
  trk234_purify.permissive a ->
  trk234_purify.main a w = (Ok tt, w') ->
  exists data ind sfdus,
    files w !! trk234_purify.Input a = Some data /\
    Reader.sfdu_index data = Ok ind /\
    Forall2 (Reader.decoded_from true false)
      (enumerate (Reader.frames data ind)) sfdus /\
    SFDU.binarydata <$> sfdus = Reader.frames data ind /\
    files w' !! trk234_purify.Output a
    = Some (trk234_regroup.bytes_of (trk234_purify.kept sfdus)) /\
    (forall s, s ∈ trk234_purify.kept sfdus <->
               s ∈ sfdus /\ SFDU.known_ddid (Info.ddid s) /\
               SFDU.known_code (Info.code s)) /\
    (Forall (fun s => SFDU.known_ddid (Info.ddid s) /\
                      SFDU.known_code (Info.code s)) sfdus ->
     files w' !! trk234_purify.Output a = Some data).
Proof.
  intros Ha Hm.
  apply purify_main_inv in Hm
    as (data & ind & sfdus & Hdata & Hind & Hall & Hfiles); [|done].
  pose proof (decoded_binarydata _ _ _ _ Hall) as Hbin.
  exists data, ind, sfdus.
  do 4 (split; [done|]). split; [|split].
  - rewrite Hfiles. apply lookup_insert_eq.
  - intros s. unfold trk234_purify.kept.
    rewrite list_elem_of_In, filter_In, <- list_elem_of_In.
    by rewrite known_spec.
  - intros Hknown. rewrite Hfiles, lookup_insert_eq. f_equal.
    unfold trk234_purify.kept. rewrite filter_all_true.
    + unfold trk234_regroup.bytes_of.
      change (map SFDU.binarydata sfdus) with (SFDU.binarydata <$> sfdus).
      rewrite Hbin. by apply sfdu_index_frames.
    + eapply Forall_impl; [exact Hknown|]. intros s Hs. by apply known_spec.
Qed.

Lemma purify_permissive_keeps_known_witness :
  exists data ind sfdus,
    files (input_file (carrier_5s ++ ramp_4s ++ carrier_6s))
      !! trk234_purify.Input purify_args = Some data /\
    Reader.sfdu_index data = Ok ind /\
    Forall2 (Reader.decoded_from (H := fixed_offsets) true false)
      (enumerate (Reader.frames data ind)) sfdus /\
    SFDU.binarydata <$> sfdus = Reader.frames data ind /\
    files (snd (trk234_purify.main (H := fixed_offsets) purify_args
                  (input_file (carrier_5s ++ ramp_4s ++ carrier_6s))))
      !! trk234_purify.Output purify_args
    = Some (trk234_regroup.bytes_of (trk234_purify.kept sfdus)).
Proof.
  assert (Ha : trk234_purify.permissive purify_args)
    by (repeat split; reflexivity).
  assert (Hrun :
    trk234_purify.main (H := fixed_offsets) purify_args
      (input_file (carrier_5s ++ ramp_4s ++ carrier_6s))
    = (Ok tt,
       snd (trk234_purify.main (H := fixed_offsets) purify_args
              (input_file (carrier_5s ++ ramp_4s ++ carrier_6s)))))
    by (vm_compute; reflexivity).
  destruct (purify_permissive_keeps_known (H := fixed_offsets) _ _ _ Ha Hrun)
    as (data & ind & sfdus & Hdata & Hind & Hall & Hbin & Hout & _).
  exists data, ind, sfdus.
  exact (conj Hdata (conj Hind (conj Hall (conj Hbin Hout)))).
Defined.

(** C7: the check the regroup script runs under [--validate].  The input
    holds a carrier record and a record of format code 18; the output, from
    which the grouping loop leaves the second out, holds one record.  The
    validation opens the input a second time, compares the input with
    itself and reports 2 records on both sides with no warning. *)
Lemma regroup_validation_rereads_input :
  trk234_regroup.main (H := fixed_offsets) (regroup_args true)
    (input_file (carrier_5s ++ unknown_code))
  = (Ok tt,
     World
       [ "Output Validation Results:"; " SFDU Type     Input    Output";
         "     Total         2         2"; "         0         0         0";
         "         1         1         1"; "         2         0         0";
         "         3         0         0"; "         4         0         0";
         "         5         0         0"; "         6         0         0";
         "         7         0         0"; "         8         0         0";
         "         9         0         0"; "        10         0         0";
         "        11         0         0"; "        12         0         0";
         "        13         0         0"; "        14         0         0";
         "        15         0         0"; "        16         0         0";
         "        17         0         0" ]
       (<["out.tnf"%string := carrier_5s]>
          {[ "in.tnf"%string := carrier_5s ++ unknown_code ]})) /\
  Reader.sfdu_index (carrier_5s ++ unknown_code) = Ok [0; 80; 160] /\
  Reader.sfdu_index carrier_5s = Ok [0; 80].
Proof. repeat split; vm_compute; reflexivity. Qed.

End TransformTheorems.

(** ** The two summaries *)

Section SummaryFacts.
Context `{SFDU.Components}.
Import Info.

Lemma get_info_inv self f r :
  get_info self f = Ok r ->
  numRecords r = len (Reader.sfdu_list f) /\
  numberDataTypes r = util.types code (Reader.sfdu_list f) /\
  dataTypes r = nonzero_indices (util.types code (Reader.sfdu_list f)) /\
  exists dt first_time last_time,
    rmap SFDU.timestamp (List.filter SFDU.is_decoded (Reader.sfdu_list f))
    = Ok dt /\
    py_min dt = Ok first_time /\ py_max dt = Ok last_time /\
    startTime r = Some first_time /\ endTime r = Some last_time.
Proof.
  unfold get_info. cbv zeta.
  destruct (rmap SFDU.timestamp _) as [dt|] eqn:Hdt; simpl; [|done].
  destruct (py_min dt) as [t0|] eqn:Hmin; simpl; [|done].
  destruct (py_max dt) as [t1|] eqn:Hmax; simpl; [|done].
  repeat match goal with
    | |- (?x ≫= _) = Ok _ -> _ => destruct x; simpl; [|done]
    end.
  intros [= <-]. simpl. repeat split. by exists dt, t0, t1.
Qed.

Lemma quicklook_inv self f w r w' :
  quicklook self f w = (Ok r, w') ->
  numRecords r = len (Reader.index f) - 1 /\
  (exists fcs,
      Reader.get_data_types f = Ok fcs /\
      numberDataTypes r = util.types (fun s : Z => s) fcs /\
      dataTypes r = nonzero_indices (util.types (fun s : Z => s) fcs)) /\
  (exists a0 a1 start wa wb first_time,
      getitem (Reader.index f) 0 = Ok a0 /\
      getitem (Reader.index f) 1 = Ok a1 /\
      SFDU.decode SFDU.new (slice (Reader.binarydata f) a0 a1)
        true true true true true wa = (Ok start, wb) /\
      SFDU.timestamp start = Ok first_time /\
      startTime r = Some first_time) /\
  (exists b0 b1 end_ wa wb last_time,
      getitem (Reader.index f) (-2) = Ok b0 /\
      getitem (Reader.index f) (-1) = Ok b1 /\
      SFDU.decode SFDU.new (slice (Reader.binarydata f) b0 b1)
        true true true true true wa = (Ok end_, wb) /\
      SFDU.timestamp end_ = Ok last_time /\
      endTime r = Some last_time).
Proof.
  unfold quicklook. cbv zeta. intros Hq.
  apply bind_ok_inv in Hq as ([] & w1 & _ & Hq).
  apply lift_bind_ok_inv in Hq as (fcs & Hfcs & Hq).
  apply bind_ok_inv in Hq as ([] & w2 & _ & Hq).
  apply lift_bind_ok_inv in Hq as (acc & _ & Hq).
  apply lift_bind_ok_inv in Hq as (dlb & _ & Hq).
  apply lift_bind_ok_inv in Hq as (ulb & _ & Hq).
  apply bind_ok_inv in Hq as ([] & w3 & _ & Hq).
  apply lift_bind_ok_inv in Hq as (a0 & Ha0 & Hq).
  apply lift_bind_ok_inv in Hq as (a1 & Ha1 & Hq).
  apply bind_ok_inv in Hq as (start & w4 & Hstart & Hq).
  apply lift_bind_ok_inv in Hq as (b0 & Hb0 & Hq).
  apply lift_bind_ok_inv in Hq as (b1 & Hb1 & Hq).
  apply bind_ok_inv in Hq as (end_ & w5 & Hend & Hq).
  apply lift_bind_ok_inv in Hq as (t0 & Ht0 & Hq).
  apply lift_bind_ok_inv in Hq as (t1 & Ht1 & Hq).
  apply lift_bind_ok_inv in Hq as (t2 & _ & Hq).
  apply lift_bind_ok_inv in Hq as (scft & _ & Hq).
  injection Hq as <- _. simpl.
  split; [done|]. split; [by exists fcs|]. split.
  - by exists a0, a1, start, w3, w4, t0.
  - by exists b0, b1, end_, w4, w5, t1.
Qed.

Lemma types_map {A} (c : A -> Z) (l : list A) :
  util.types c l = util.types (fun s : Z => s) (map c l).
Proof.
  unfold util.types. apply map_ext. intros i. unfold util.count_code, len.
  f_equal. induction l as [|x l IH]; simpl; [done|].
  destruct (c x =? i); simpl; by rewrite IH.
Qed.

Lemma get_data_types_frames f fcs :
  Reader.sfdu_index (Reader.binarydata f) = Ok (Reader.index f) ->
  Reader.get_data_types f = Ok fcs ->
  Forall2 (fun p c => unpack_B (slice (snd p) 31 32) = Ok c)
    (enumerate (Reader.frames (Reader.binarydata f) (Reader.index f))) fcs.
Proof.
  intros Hind. unfold Reader.get_data_types. rewrite Hind. simpl.
  intros Hr.
  rewrite (rmap_ext _ (fun p => unpack_B (slice (snd p) 31 32)) _
             (enumerate (Reader.frames (Reader.binarydata f)
                           (Reader.index f)))) in Hr.
  - by apply rmap_ok_inv in Hr.
  - eapply Forall2_impl; [apply range_frames|].
    intros i p (a & b & Ha & Hb & ->). simpl. by rewrite Ha, Hb.
Qed.

Lemma codes_agree sec trk ps sfdus fcs :
  (forall b p, SFDU.PrimaryCHDO_decode b = Ok p ->
               unpack_B (slice b 31 32) = Ok (SFDU.format_code p)) ->
  Forall2 (Reader.decoded_from sec trk) ps sfdus ->
  Forall2 (fun p c => unpack_B (slice (snd p) 31 32) = Ok c) ps fcs ->
  map code sfdus = fcs.
Proof.
  intros Hlaw Hd. revert fcs.
  induction Hd as [|p s ps sfdus Hp _ IH]; intros fcs Hf.
  - by inversion Hf.
  - inversion Hf as [|? c ? fcs' Hc Hf']; subst. simpl.
    destruct Hp as (_ & _ & _ & _ & Hpri & _).
    apply Hlaw in Hpri. rewrite Hpri in Hc. injection Hc as <-.
    f_equal. by apply IH.
Qed.

Lemma fold_min_spec (l : list Z) x :
  let m := fold_left Z.min l x in
  m ∈ x :: l /\ forall t, t ∈ x :: l -> m <= t.
Proof.
  revert x. induction l as [|y l IH]; intros x; simpl.
  - split; [by left|]. intros t Ht%list_elem_of_singleton. lia.
  - destruct (IH (Z.min x y)) as [Hin Hle]. split.
    + apply elem_of_cons in Hin as [Hm|Hm]; [|by do 2 right].
      rewrite Hm. destruct (Z.min_spec x y) as [[_ ->]|[_ ->]];
        [by left|by right; left].
    + intros t Ht.
      assert (fold_left Z.min l (Z.min x y) <= Z.min x y)
        by (apply Hle; by left).
      apply elem_of_cons in Ht as [->|Ht]; [lia|].
      apply elem_of_cons in Ht as [->|Ht]; [lia|].
      apply Hle. by right.
Qed.

Lemma fold_max_spec (l : list Z) x :
  let m := fold_left Z.max l x in
  m ∈ x :: l /\ forall t, t ∈ x :: l -> t <= m.
Proof.
  revert x. induction l as [|y l IH]; intros x; simpl.
  - split; [by left|]. intros t Ht%list_elem_of_singleton. lia.
  - destruct (IH (Z.max x y)) as [Hin Hle]. split.
    + apply elem_of_cons in Hin as [Hm|Hm]; [|by do 2 right].
      rewrite Hm. destruct (Z.max_spec x y) as [[_ ->]|[_ ->]];
        [by right; left|by left].
    + intros t Ht.
      assert (Z.max x y <= fold_left Z.max l (Z.max x y))
        by (apply Hle; by left).
      apply elem_of_cons in Ht as [->|Ht]; [lia|].
      apply elem_of_cons in Ht as [->|Ht]; [lia|].
      apply Hle. by right.
Qed.

Lemma py_min_spec dt m :
  py_min dt = Ok m -> m ∈ dt /\ forall t, t ∈ dt -> m <= t.
Proof.
  destruct dt as [|x l]; [done|]. intros [= <-]. apply fold_min_spec.
Qed.

Lemma py_max_spec dt m :
  py_max dt = Ok m -> m ∈ dt /\ forall t, t ∈ dt -> t <= m.
Proof.
  destruct dt as [|x l]; [done|]. intros [= <-]. apply fold_max_spec.
Qed.

Lemma getitem_inv {A} (l : list A) i x :
  getitem l i = Ok x ->
  let j := if i <? 0 then len l + i else i in
  0 <= j /\ l !! Z.to_nat j = Some x.
Proof.
  unfold getitem. cbv zeta.
  destruct (Z.ltb_spec (if i <? 0 then len l + i else i) 0); [done|].
  destruct (l !! _) eqn:Hl; [|done]. intros [= <-]. by split.
Qed.

Lemma frame_at data ind i j a b :
  getitem ind i = Ok a -> getitem ind j = Ok b ->
  (if j <? 0 then len ind + j else j)
  = (if i <? 0 then len ind + i else i) + 1 ->
  Reader.frames data ind
    !! Z.to_nat (if i <? 0 then len ind + i else i)
  = Some (slice data a b).
Proof.
  intros [Hi Ha]%getitem_inv [Hj Hb]%getitem_inv Hij.
  apply frames_lookup. exists a, b. split; [done|]. split; [|done].
  rewrite Hij in Hb.
  by replace (S (Z.to_nat (if i <? 0 then len ind + i else i)))
    with (Z.to_nat ((if i <? 0 then len ind + i else i) + 1)) by lia.
Qed.

Lemma timestamp_ext (s s' : SFDU.t) :
  SFDU.sec_chdo s = SFDU.sec_chdo s' -> SFDU.timestamp s = SFDU.timestamp s'.
Proof. intros Hs. unfold SFDU.timestamp. by rewrite Hs. Qed.

(** The record the fast path decodes from a frame has the timestamp of the
    record the full path made of that frame, and that record counts as
    decoded. *)
Lemma quick_record_in_full i fr (x start : SFDU.t) wa wb t :
  Reader.decoded_from true false (i, fr) x ->
  SFDU.decode SFDU.new fr true true true true true wa = (Ok start, wb) ->
  SFDU.timestamp start = Ok t ->
  SFDU.timestamp x = Ok t /\ SFDU.is_decoded x = true.
Proof.
  intros (_ & _ & Hl & _ & _ & Hsec & Hdec) Hstart Ht. simpl in *.
  apply decode_inv in Hstart as (_ & _ & Hl' & _ & _ & Hsec' & _).
  rewrite Hl in Hl'. injection Hl' as Hl'.
  assert (Heq : SFDU.sec_chdo x = SFDU.sec_chdo start)
    by (by rewrite Hsec, Hsec', Hl').
  split; [by rewrite (timestamp_ext _ _ Heq)|].
  rewrite Hdec. unfold SFDU.decoded_after. rewrite andb_true_r.
  apply bool_decide_eq_true_2.
  destruct (SFDU.secondary_class _) eqn:Hc; [done|].
  unfold SFDU.timestamp in Ht. rewrite <- Heq, Hsec in Ht.
  unfold SFDU.sec_after, SFDU.secondary_of in Ht. by rewrite Hc in Ht.
Qed.

End SummaryFacts.

Section SummaryTheorems.
Import Info components.

Lemma timestamp_in_decoded (sfdus : list SFDU.t) dt (i : nat) x t :
  rmap SFDU.timestamp (List.filter SFDU.is_decoded sfdus) = Ok dt ->
  sfdus !! i = Some x -> SFDU.is_decoded x = true ->
  SFDU.timestamp x = Ok t -> t ∈ dt.
Proof.
  intros Hdt%rmap_ok_inv Hx Hdec Ht.
  assert (Hin : x ∈ List.filter SFDU.is_decoded sfdus).
  { apply list_elem_of_In, filter_In. split; [|done].
    apply list_elem_of_In. by eapply list_elem_of_lookup_2. }
  apply list_elem_of_lookup in Hin as [j Hj].
  destruct (Forall2_lookup_l _ _ _ _ _ Hdt Hj) as (t' & Ht' & Hxt).
  assert (t' = t) as -> by congruence.
  by eapply list_elem_of_lookup_2.
Qed.

(** C2, as the code behaves.  For a reader as [Reader(path)] leaves it, and
    a primary header decoder that takes the format code from byte 31 of the
    record, whenever both [Info(f)] and [Info(f, quicklook=True)] return,
    they give the same number of records, the same count for each format
    code 0..17 and the same list of codes present.  The fast path reports
    the timestamps of the first and of the last record, the full path the
    earliest and the latest timestamp of the decoded records: the full
    start is at or before the fast start, the fast end at or before the full
    end, and they are equal exactly when the first record is the earliest
    and the last record the latest. *)
Theorem summaries_agree `{SFDU.Components}
    path w0 w0' f w1 w1' w2 w2' full fast f1 f2 :
  (forall b p, SFDU.PrimaryCHDO_decode b = Ok p ->
               unpack_B (slice b 31 32) = Ok (SFDU.format_code p)) ->
  Reader.new path w0 = (Ok f, w0') ->
  Info.new f false w1 = (Ok (full, f1), w1') ->
  Info.new f true w2 = (Ok (fast, f2), w2') ->
  numRecords full = numRecords fast /\
  numberDataTypes full = numberDataTypes fast /\
  dataTypes full = dataTypes fast /\
  exists x_first x_last dt s_full e_full s_fast e_fast,
    head (Reader.sfdu_list f1) = Some x_first /\
    last (Reader.sfdu_list f1) = Some x_last /\
    rmap SFDU.timestamp (List.filter SFDU.is_decoded (Reader.sfdu_list f1))
    = Ok dt /\
    startTime full = Some s_full /\ endTime full = Some e_full /\
    startTime fast = Some s_fast /\ endTime fast = Some e_fast /\
    SFDU.timestamp x_first = Ok s_fast /\
    SFDU.timestamp x_last = Ok e_fast /\
    py_min dt = Ok s_full /\ py_max dt = Ok e_full /\
    s_full <= s_fast /\ e_fast <= e_full.
Proof.
  intros Hlaw Hnew Hfull Hfast.
  apply new_inv in Hnew as (_ & data & ind & _ & Hind & ->).
  unfold Info.new in Hfull, Hfast. simpl in Hfull, Hfast.
  apply bind_ok_inv in Hfull as (f' & wa & Hdec & Hfull).
  apply bind_ok_inv in Hfull as (self & wb & Hgi & Hfull).
  injection Hfull as <- <- _.
  unfold lift in Hgi. injection Hgi as Hgi _.
  apply bind_ok_inv in Hfast as (f0 & wc & Hf0 & Hfast).
  injection Hf0 as <- <-.
  apply bind_ok_inv in Hfast as (qself & wd & Hq & Hfast).
  injection Hfast as <- _ _.
  apply bind_ok_inv in Hq as ([] & we & _ & Hq).
  apply decode_stream_inv in Hdec as (_ & _ & _ & _ & _ & Hall).
  simpl in Hall.
  apply get_info_inv in Hgi
    as (Hn & Htypes & Hdts & dt & s_full & e_full & Hdt & Hmin & Hmax
        & Hstart & Hend).
  apply quicklook_inv in Hq
    as (Hqn & (fcs & Hfcs & Hqtypes & Hqdts)
        & (a0 & a1 & start & wf & wg & s_fast & Ha0 & Ha1 & Hsd & Hst & Hqs)
        & (b0 & b1 & end_ & wh & wi & e_fast & Hb0 & Hb1 & Hed & Het & Hqe)).
  simpl in *.
  pose proof (Forall2_length _ _ _ Hall) as Hlen.
  unfold enumerate in Hlen. rewrite length_imap, length_frames in Hlen.
  assert (Hcodes : map code (Reader.sfdu_list f') = fcs).
  { eapply codes_agree; [done|done|].
    by apply (get_data_types_frames
                (Reader.mk (last_component "" path) [] false data ind)). }
  (* the first record *)
  pose proof (frame_at data ind 0 1 a0 a1 Ha0 Ha1 eq_refl) as Hfr0.
  change (Z.to_nat (if 0 <? 0 then len ind + 0 else 0)) with 0%nat in Hfr0.
  assert (Hp0 : enumerate (Reader.frames data ind) !! 0%nat
                = Some (0, slice data a0 a1)).
  { unfold enumerate. by rewrite list_lookup_imap, Hfr0. }
  destruct (Forall2_lookup_l _ _ _ _ _ Hall Hp0) as (x0 & Hx0 & Hd0).
  destruct (quick_record_in_full _ _ _ _ _ _ _ Hd0 Hsd Hst) as [Ht0 Hdec0].
  (* the last record *)
  apply getitem_inv in Ha1 as [_ Hlk1]. simpl in Hlk1.
  apply lookup_lt_Some in Hlk1.
  assert (Hb01 : (if -1 <? 0 then len ind + -1 else -1)
                 = (if -2 <? 0 then len ind + -2 else -2) + 1)
    by (simpl; lia).
  pose proof (frame_at data ind (-2) (-1) b0 b1 Hb0 Hb1 Hb01) as Hfr1.
  change (Z.to_nat (if -2 <? 0 then len ind + -2 else -2))
    with (Z.to_nat (len ind + -2)) in Hfr1.
  assert (Hp1 : enumerate (Reader.frames data ind)
                  !! Z.to_nat (len ind + -2)
                = Some (Z.of_nat (Z.to_nat (len ind + -2)),
                        slice data b0 b1)).
  { unfold enumerate. by rewrite list_lookup_imap, Hfr1. }
  destruct (Forall2_lookup_l _ _ _ _ _ Hall Hp1) as (x1 & Hx1 & Hd1).
  destruct (quick_record_in_full _ _ _ _ _ _ _ Hd1 Hed Het) as [Ht1 Hdec1].
  destruct (py_min_spec _ _ Hmin) as [_ Hle].
  destruct (py_max_spec _ _ Hmax) as [_ Hge].
  pose proof (timestamp_in_decoded _ _ _ _ _ Hdt Hx0 Hdec0 Ht0) as Hin0.
  pose proof (timestamp_in_decoded _ _ _ _ _ Hdt Hx1 Hdec1 Ht1) as Hin1.
  split; [|split; [|split]].
  - rewrite Hn, Hqn. unfold len in *. lia.
  - by rewrite Htypes, Hqtypes, <- Hcodes, <- types_map.
  - by rewrite Hdts, Hqdts, <- Hcodes, <- types_map.
  - exists x0, x1, dt, s_full, e_full, s_fast, e_fast.
    split; [by rewrite head_lookup|].
    split.
    { rewrite last_lookup, <- Hx1. f_equal. unfold len in *. lia. }
    repeat split; try done.
    + by apply Hle.
    + by apply Hge.
Qed.

Lemma fixed_offsets_format_code b p :
  SFDU.PrimaryCHDO_decode (Components := fixed_offsets) b = Ok p ->
  unpack_B (slice b 31 32) = Ok (SFDU.format_code p).
Proof.
  simpl. destruct (unpack_B (slice b 31 32)) as [c|]; simpl; [|done].
  by intros [= <-].
Qed.

(** Two carrier records, the later one first.  The full summary starts at
    the 5 s record and ends at the 6 s one; the fast summary reports the
    first record as start and the last as end, the other way round. *)
Lemma summaries_differ_out_of_order :
  Reader.new "in.tnf" (input_file (carrier_6s ++ carrier_5s))
  = (Ok later_first, input_file (carrier_6s ++ carrier_5s)) /\
  Info.new (H := fixed_offsets) later_first false no_files
  = (Ok (summary_of later_first_full, reader_after later_first_full),
     snd later_first_full) /\
  Info.new (H := fixed_offsets) later_first true no_files
  = (Ok (summary_of later_first_fast, reader_after later_first_fast),
     snd later_first_fast) /\
  startTime (summary_of later_first_full) = Some 63722073605000000 /\
  endTime (summary_of later_first_full) = Some 63722073606000000 /\
  startTime (summary_of later_first_fast) = Some 63722073606000000 /\
  endTime (summary_of later_first_fast) = Some 63722073605000000 /\
  ~ (forall (C : SFDU.Components) path w0 w0' f w1 w1' w2 w2' full fast f1 f2,
        (forall b p, SFDU.PrimaryCHDO_decode b = Ok p ->
                     unpack_B (slice b 31 32) = Ok (SFDU.format_code p)) ->
        Reader.new path w0 = (Ok f, w0') ->
        Info.new f false w1 = (Ok (full, f1), w1') ->
        Info.new f true w2 = (Ok (fast, f2), w2') ->
        startTime full = startTime fast /\ endTime full = endTime fast).
Proof.
  assert (Hnew :
    Reader.new "in.tnf" (input_file (carrier_6s ++ carrier_5s))
    = (Ok later_first, input_file (carrier_6s ++ carrier_5s)))
    by (vm_compute; reflexivity).
  assert (Hfull :
    Info.new (H := fixed_offsets) later_first false no_files
    = (Ok (summary_of later_first_full, reader_after later_first_full),
       snd later_first_full)) by (vm_compute; reflexivity).
  assert (Hfast :
    Info.new (H := fixed_offsets) later_first true no_files
    = (Ok (summary_of later_first_fast, reader_after later_first_fast),
       snd later_first_fast)) by (vm_compute; reflexivity).
  assert (Hs1 : startTime (summary_of later_first_full)
                = Some 63722073605000000) by (vm_compute; reflexivity).
  assert (Hs2 : startTime (summary_of later_first_fast)
                = Some 63722073606000000) by (vm_compute; reflexivity).
  split; [exact Hnew|]. split; [exact Hfull|]. split; [exact Hfast|].
  split; [exact Hs1|]. split; [vm_compute; reflexivity|].
  split; [exact Hs2|]. split; [vm_compute; reflexivity|].
  intros Hall.
  destruct (Hall fixed_offsets _ _ _ _ _ _ _ _ _ _ _ _
              fixed_offsets_format_code Hnew Hfull Hfast) as [Hs _].
  rewrite Hs1, Hs2 in Hs. discriminate Hs.
Qed.

Lemma summaries_agree_witness :
  numRecords (summary_of pass_191_full)
  = numRecords (summary_of pass_191_fast) /\
  numberDataTypes (summary_of pass_191_full)
  = numberDataTypes (summary_of pass_191_fast) /\
  dataTypes (summary_of pass_191_full) = dataTypes (summary_of pass_191_fast).
Proof.
  assert (Hnew :
    Reader.new "in.tnf" (input_file (carrier_5s ++ ramp_4s ++ carrier_6s))
    = (Ok pass_191, input_file (carrier_5s ++ ramp_4s ++ carrier_6s)))
    by (vm_compute; reflexivity).
  assert (Hfull :
    Info.new (H := fixed_offsets) pass_191 false no_files
    = (Ok (summary_of pass_191_full, reader_after pass_191_full),
       snd pass_191_full)) by (vm_compute; reflexivity).
  assert (Hfast :
    Info.new (H := fixed_offsets) pass_191 true no_files
    = (Ok (summary_of pass_191_fast, reader_after pass_191_fast),
       snd pass_191_fast)) by (vm_compute; reflexivity).
  destruct (summaries_agree (H := fixed_offsets) _ _ _ _ _ _ _ _ _ _ _ _
              fixed_offsets_format_code Hnew Hfull Hfast)
    as (Hn & Ht & Hd & _).
  exact (conj Hn (conj Ht Hd)).
Defined.

End SummaryTheorems.

Section FramedFacts.
Import Reader Expected.
Implicit Types data : bytes.

Lemma slice_slice {A} (l : list A) a b c d :
  0 <= a -> 0 <= c <= d -> d <= b - a ->
  slice (slice l a b) c d = slice l (a + c) (a + d).
Proof.
  intros Ha Hcd Hd.
  rewrite (slice_nonneg l a b), (slice_nonneg l (a + c) (a + d)) by lia.
  rewrite slice_nonneg by lia.
  rewrite skipn_firstn_comm, take_take, drop_drop.
  replace (Z.to_nat a + Z.to_nat c)%nat with (Z.to_nat (a + c)) by lia.
  f_equal. lia.
Qed.

Lemma slice_whole {A} (l : list A) : slice l 0 (len l) = l.
Proof.
  pose proof (len_nonneg l). rewrite slice_nonneg by lia.
  simpl. apply take_ge. unfold len. lia.
Qed.

Lemma boundaries_head b rs : exists rest, boundaries b rs = b :: rest.
Proof. destruct rs; simpl; eauto. Qed.

Lemma len_concat_cons (r : bytes) rs :
  len (concat (r :: rs)) = len r + len (concat rs).
Proof. rewrite concat_cons. apply len_app. Qed.

Lemma boundaries_chain pre rs :
  Forall whole rs ->
  chain_from (pre ++ concat rs) (len pre) (boundaries (len pre) rs).
Proof.
  intros Hrs. revert pre.
  induction Hrs as [|r rs [L [HL Hlen]] _ IH]; intros pre.
  - simpl. apply chain_stop. rewrite app_nil_r. lia.
  - pose proof (unpack_Q_nonneg _ _ HL) as HL0.
    pose proof (len_nonneg pre) as Hpre.
    simpl boundaries. rewrite concat_cons.
    apply (chain_step _ _ L).
    + rewrite !len_app. pose proof (len_nonneg (concat rs)). lia.
    + rewrite slice_app_r by lia. by rewrite slice_app_l by lia.
    + replace (len pre + L + 20) with (len (pre ++ r))
        by (rewrite len_app; lia).
      replace (len pre + len r) with (len (pre ++ r)) by apply len_app.
      rewrite (app_assoc pre r). apply IH.
Qed.

Lemma boundaries_frames pre rs :
  frames (pre ++ concat rs) (boundaries (len pre) rs) = rs.
Proof.
  revert pre. induction rs as [|r rs IH]; intros pre; [done|].
  simpl boundaries.
  destruct (boundaries_head (len pre + len r) rs) as [rest Hrest].
  rewrite Hrest.
  change (frames (pre ++ concat (r :: rs)) (len pre :: len pre + len r :: rest))
    with (slice (pre ++ concat (r :: rs)) (len pre) (len pre + len r)
            :: frames (pre ++ concat (r :: rs)) (len pre + len r :: rest)).
  rewrite <- Hrest. f_equal.
  - pose proof (len_nonneg r).
    rewrite <- (Z.add_0_r (len pre)) at 1.
    rewrite slice_app_r, concat_cons by lia.
    rewrite slice_app_l by lia. apply slice_whole.
  - rewrite concat_cons, (app_assoc pre r).
    replace (len pre + len r) with (len (pre ++ r))
      by apply len_app.
    apply IH.
Qed.

Lemma boundaries_last b rs :
  last (boundaries b rs) = Some (b + len (concat rs)).
Proof.
  revert b. induction rs as [|r rs IH]; intros b.
  - simpl. f_equal. unfold len. simpl. lia.
  - simpl boundaries. destruct (boundaries_head (b + len r) rs) as [rest Hrest].
    rewrite Hrest, last_cons_cons, <- Hrest, IH, len_concat_cons.
    f_equal. lia.
Qed.

Lemma chain_from_ge data b ch :
  chain_from data b ch -> Forall (fun x => b <= x) ch.
Proof.
  induction 1 as [b Hb|b L rest Hb HL _ IH].
  - by constructor.
  - pose proof (unpack_Q_nonneg _ _ HL). constructor; [lia|].
    eapply Forall_impl; [exact IH|]. simpl. intros. lia.
Qed.

Lemma chain_from_spaced data b ch :
  chain_from data b ch -> StronglySorted (fun x y => x + 20 <= y) ch.
Proof.
  induction 1 as [b Hb|b L rest Hb HL Hrest IH].
  - repeat constructor.
  - pose proof (unpack_Q_nonneg _ _ HL). constructor; [done|].
    eapply Forall_impl; [exact (chain_from_ge _ _ _ Hrest)|].
    simpl. intros. lia.
Qed.

Lemma chain_from_labels data b ch :
  chain_from data b ch -> 0 <= b ->
  Forall (fun fr => exists L, unpack_Q (slice fr 12 20) = Ok L /\
                              20 <= len fr <= L + 20)
    (frames data ch).
Proof.
  induction 1 as [b Hb|b L rest Hb HL Hrest IH]; intros H0.
  - constructor.
  - pose proof (unpack_Q_nonneg _ _ HL) as HL0.
    destruct (chain_from_head _ _ _ Hrest) as [rest' ->].
    change (frames data (b :: b + L + 20 :: rest'))
      with (slice data b (b + L + 20)
              :: frames data (b + L + 20 :: rest')).
    constructor; [|apply IH; lia].
    exists L.
    assert (Hlen : b + 20 <= len data).
    { apply unpack_Q_slice_ok; [done|]. by exists L. }
    split.
    + rewrite slice_slice by lia. exact HL.
    + rewrite length_slice by lia. lia.
Qed.

Lemma chain_from_whole data b ch :
  chain_from data b ch -> 0 <= b -> last ch = Some (len data) ->
  Forall whole (frames data ch).
Proof.
  induction 1 as [b Hb|b L rest Hb HL Hrest IH]; intros H0 Hlast.
  - constructor.
  - pose proof (unpack_Q_nonneg _ _ HL) as HL0.
    destruct (chain_from_head _ _ _ Hrest) as [rest' ->].
    rewrite last_cons_cons in Hlast.
    change (frames data (b :: b + L + 20 :: rest'))
      with (slice data b (b + L + 20)
              :: frames data (b + L + 20 :: rest')).
    constructor; [|apply IH; [lia|done]].
    exists L.
    assert (Hend : b + L + 20 <= len data).
    { pose proof (chain_from_ge _ _ _ Hrest) as Hge.
      rewrite Forall_forall in Hge. apply Hge.
      by apply last_Some_elem_of. }
    split.
    + rewrite slice_slice by lia. exact HL.
    + rewrite length_slice by lia. lia.
Qed.

Lemma unpack_B_at (fr : bytes) :
  unpack_B (slice fr 31 32)
  = if 32 <=? len fr then Ok (byte_at fr 31) else Err struct_error.
Proof.
  rewrite slice_nonneg by lia. unfold byte_at, len.
  change (Z.to_nat (32 - 31)) with 1%nat. change (Z.to_nat 31) with 31%nat.
  destruct (fr !! 31%nat) as [b|] eqn:Hb.
  - pose proof (lookup_lt_Some _ _ _ Hb).
    rewrite (proj2 (Z.leb_le _ _)) by lia.
    by rewrite (drop_S _ _ _ Hb).
  - apply lookup_ge_None in Hb.
    rewrite (proj2 (Z.leb_gt _ _)) by lia.
    by rewrite drop_ge by lia.
Qed.

Lemma rmap_format_bytes (frs : list bytes) :
  rmap (fun fr => unpack_B (slice fr 31 32)) frs
  = if forallb (fun fr => 32 <=? len fr) frs
    then Ok (map (fun fr => byte_at fr 31) frs)
    else Err struct_error.
Proof.
  induction frs as [|fr frs IH]; [done|].
  cbn [rmap forallb map]. rewrite unpack_B_at, IH.
  destruct (32 <=? len fr); [|done].
  by destruct (forallb _ frs).
Qed.

Lemma get_data_types_run f ind :
  sfdu_index (binarydata f) = Ok ind ->
  get_data_types f
  = rmap (fun fr => unpack_B (slice fr 31 32)) (frames (binarydata f) ind).
Proof.
  intros Hind. unfold get_data_types. rewrite Hind.
  change (rmap (fun i => a ← getitem ind i; b ← getitem ind (i + 1);
                         unpack_B (slice (slice (binarydata f) a b) 31 32))
            (range (len ind - 1))
          = rmap (fun fr => unpack_B (slice fr 31 32))
              (frames (binarydata f) ind)).
  apply rmap_ext.
  rewrite <- (enumerate_snd (frames (binarydata f) ind)).
  apply Forall2_fmap_r.
  eapply Forall2_impl; [apply range_frames|].
  intros i p (a & b & Ha & Hb & ->). by rewrite Ha, Hb.
Qed.

End FramedFacts.

Section FramedTheorems.
Import Reader Expected components.

(** X1: whole records written one after the other are read back as they
    were written.  For any list of records that each have the length their
    label declares, [sfdu_index] of their concatenation returns the running
    sums of their lengths, the byte ranges cut at these boundaries are the
    records themselves, and the last boundary is the length of the buffer. *)
Theorem sfdu_index_of_whole_records rs :
  Forall whole rs ->
  sfdu_index (concat rs) = Ok (boundaries 0 rs) /\
  frames (concat rs) (boundaries 0 rs) = rs /\
  last (boundaries 0 rs) = Some (len (concat rs)).
Proof.
  intros Hrs. split; [|split].
  - apply sfdu_index_chain. exact (boundaries_chain [] rs Hrs).
  - exact (boundaries_frames [] rs).
  - by rewrite boundaries_last.
Qed.

Lemma sfdu_index_of_whole_records_witness :
  Forall whole [padded 5; padded 0; carrier_5s] /\
  sfdu_index (concat [padded 5; padded 0; carrier_5s])
  = Ok (boundaries 0 [padded 5; padded 0; carrier_5s]) /\
  frames (concat [padded 5; padded 0; carrier_5s])
    (boundaries 0 [padded 5; padded 0; carrier_5s])
  = [padded 5; padded 0; carrier_5s] /\
  last (boundaries 0 [padded 5; padded 0; carrier_5s])
  = Some (len (concat [padded 5; padded 0; carrier_5s])).
Proof.
  assert (Hrs : Forall whole [padded 5; padded 0; carrier_5s]).
  { repeat constructor.
    - exists 5. split; vm_compute; reflexivity.
    - exists 0. split; vm_compute; reflexivity.
    - exists 60. split; vm_compute; reflexivity. }
  exact (conj Hrs (sfdu_index_of_whole_records _ Hrs)).
Defined.

(** X2: what [sfdu_index] guarantees of the byte ranges [Reader.decode]
    hands to the records.  When the index is built, consecutive boundaries
    are at least 20 bytes apart, every byte range holds a whole 20-byte
    label whose length field is the length declared for it and is never
    longer than label plus declared length; when the last boundary is the
    length of the buffer, every byte range is a whole record. *)
Theorem frames_carry_their_label data ind :
  sfdu_index data = Ok ind ->
  StronglySorted (fun a b => a + 20 <= b) ind /\
  Forall (fun fr => exists L, unpack_Q (slice fr 12 20) = Ok L /\
                              20 <= len fr <= L + 20)
    (frames data ind) /\
  (last ind = Some (len data) -> Forall whole (frames data ind)).
Proof.
  intros Hind. apply sfdu_index_chain in Hind.
  split; [|split].
  - by eapply chain_from_spaced.
  - by eapply chain_from_labels.
  - intros Hlast. by eapply chain_from_whole.
Qed.

Lemma frames_carry_their_label_witness :
  sfdu_index (carrier_5s ++ label_only 5) = Ok [0; 80; 105] /\
  StronglySorted (fun a b => a + 20 <= b) [0; 80; 105] /\
  Forall (fun fr => exists L, unpack_Q (slice fr 12 20) = Ok L /\
                              20 <= len fr <= L + 20)
    (frames (carrier_5s ++ label_only 5) [0; 80; 105]).
Proof.
  assert (Hind : sfdu_index (carrier_5s ++ label_only 5) = Ok [0; 80; 105])
    by (vm_compute; reflexivity).
  destruct (frames_carry_their_label _ _ Hind) as (Hs & Hf & _).
  exact (conj Hind (conj Hs Hf)).
Defined.

(** X3: [get_data_types] returns, for every byte range of the index, the
    value of its byte 31, and raises [struct.error] as soon as one byte
    range has fewer than 32 bytes (a record that [sfdu_index] accepts, its
    label being whole) or when the index itself cannot be built. *)
Theorem get_data_types_outcome f :
  get_data_types f
  = match sfdu_index (binarydata f) with
    | Ok ind =>
        if forallb (fun fr => 32 <=? len fr) (frames (binarydata f) ind)
        then Ok (map (fun fr => byte_at fr 31) (frames (binarydata f) ind))
        else Err struct_error
    | Err _ => Err struct_error
    end.
Proof.
  destruct (sfdu_index (binarydata f)) as [ind|e] eqn:Hind.
  - rewrite (get_data_types_run _ _ Hind). apply rmap_format_bytes.
  - unfold get_data_types. rewrite Hind.
    apply sfdu_index_err_inv in Hind as [-> _]. reflexivity.
Qed.

End FramedTheorems.

(** ** Opening a file *)

Section PathFacts.
Import Expected.

Lemma string_app_cons c (s t : string) :
  String c s +:+ t = String c (s +:+ t).
Proof. reflexivity. Qed.

Lemma string_app_assoc (s1 s2 s3 : string) :
  (s1 +:+ s2) +:+ s3 = s1 +:+ (s2 +:+ s3).
Proof.
  induction s1 as [|c s1 IH]; [done|].
  by rewrite !string_app_cons, IH.
Qed.

Lemma string_app_nil_r (s : string) : s +:+ "" = s.
Proof.
  induction s as [|c s IH]; [done|]. by rewrite string_app_cons, IH.
Qed.

Lemma last_component_no_slash acc name :
  has_slash name = false -> last_component acc name = acc +:+ name.
Proof.
  revert acc. induction name as [|c rest IH]; intros acc Hn; simpl.
  - by rewrite string_app_nil_r.
  - simpl in Hn. apply orb_false_iff in Hn as [Hc Hrest]. rewrite Hc.
    rewrite IH by done. by rewrite string_app_assoc.
Qed.

Lemma last_component_dir acc dir name :
  has_slash name = false ->
  last_component acc (dir +:+ "/" +:+ name) = name.
Proof.
  intros Hn. revert acc. induction dir as [|c d IH]; intros acc.
  - exact (last_component_no_slash "" name Hn).
  - rewrite string_app_cons. simpl. destruct (Ascii.eqb c "/"); apply IH.
Qed.

End PathFacts.

Section ReaderNew.
Import Reader Expected components.

(** X4: what [Reader(path)] does.  A missing file raises
    [FileNotFoundError] and a file whose chain of declared lengths ends in
    a label cut short raises [struct.error], both with nothing printed or
    written; otherwise the reader holds the bytes of the file, the index,
    no record yet, and as [filename] the part of the path after its last
    slash. *)
Theorem reader_new_outcome :
  (forall path w,
      files w !! path = None ->
      Reader.new path w = (Err (FileNotFoundError path), w)) /\
  (forall path data e w,
      files w !! path = Some data -> sfdu_index data = Err e ->
      Reader.new path w = (Err struct_error, w)) /\
  (forall dir name data ind w,
      has_slash name = false ->
      files w !! (dir +:+ "/" +:+ name) = Some data ->
      sfdu_index data = Ok ind ->
      Reader.new (dir +:+ "/" +:+ name) w
      = (Ok (Reader.mk name [] false data ind), w)) /\
  (forall name data ind w,
      has_slash name = false ->
      files w !! name = Some data ->
      sfdu_index data = Ok ind ->
      Reader.new name w = (Ok (Reader.mk name [] false data ind), w)).
Proof.
  split; [|split; [|split]].
  - intros path w Hf. unfold Reader.new, read, read_file.
    rewrite bind_run. by rewrite Hf.
  - intros path data e w Hf He. unfold Reader.new, read, read_file.
    rewrite bind_run, Hf.
    apply sfdu_index_err_inv in He as He'. destruct He' as [-> _].
    rewrite bind_run. unfold lift. by rewrite He.
  - intros dir name data ind w Hn Hf Hind.
    unfold Reader.new, read, read_file.
    rewrite bind_run, Hf, bind_run. unfold lift. rewrite Hind.
    by rewrite (last_component_dir _ _ _ Hn).
  - intros name data ind w Hn Hf Hind.
    unfold Reader.new, read, read_file.
    rewrite bind_run, Hf, bind_run. unfold lift. rewrite Hind.
    by rewrite (last_component_no_slash _ _ Hn).
Qed.

Lemma reader_new_outcome_witness :
  Reader.new "pass/day100/in.tnf"
    (World [] {[ "pass/day100/in.tnf"%string := carrier_5s ]})
  = (Ok (Reader.mk "in.tnf" [] false carrier_5s [0; 80]),
     World [] {[ "pass/day100/in.tnf"%string := carrier_5s ]}) /\
  Reader.new "in.tnf" no_files = (Err (FileNotFoundError "in.tnf"), no_files).
Proof.
  split.
  - apply (proj1 (proj2 (proj2 reader_new_outcome))
             "pass/day100" "in.tnf" carrier_5s [0; 80]).
    + reflexivity.
    + apply lookup_singleton_eq.
    + vm_compute; reflexivity.
  - apply (proj1 reader_new_outcome). apply lookup_empty.
Defined.

End ReaderNew.

(** ** Decoding a record again *)

Section DecodeAgain.
Context `{SFDU.Components}.
Import SFDU.

Lemma world_eta w : World (stdout w ++ []) (files w) = w.
Proof. destruct w. simpl. by rewrite app_nil_r. Qed.

(** The flag a record comes with is of no consequence to what the last two
    stages make of it. *)
Lemma decode_tracking_flag d self trk w :
  decode_tracking (set_is_decoded d self) trk w = decode_tracking self trk w.
Proof.
  destruct self. unfold decode_tracking. simpl.
  destruct trk; [|done].
  destruct (tracking_class _); [|done].
  rewrite !bind_run. unfold lift. by destruct (chdo_decode _ _).
Qed.

Lemma decode_secondary_flag d self sec trk w :
  decode_secondary (set_is_decoded d self) sec trk w
  = decode_secondary self sec trk w.
Proof.
  unfold decode_secondary. destruct sec.
  - destruct self as [b n l ag p so to dec]. simpl.
    destruct (secondary_class _) as [c|]; [|done].
    rewrite !bind_run. unfold lift.
    destruct (chdo_decode _ _) as [a|e]; [|done].
    apply (decode_tracking_flag d (mk b n l ag p (Some (Object c a)) to dec)).
  - apply decode_tracking_flag.
Qed.

Lemma decode_tracking_again self trk w s w1 :
  decode_tracking self trk w = (Ok s, w1) ->
  exists out,
    w1 = World (stdout w ++ out) (files w) /\
    (forall w2, decode_tracking self trk w2
                = (Ok s, World (stdout w2 ++ out) (files w2))) /\
    (forall w2, decode_tracking s trk w2
                = (Ok s, World (stdout w2 ++ out) (files w2))).
Proof.
  destruct self as [b n l ag p so to dec]. unfold decode_tracking. simpl.
  destruct trk.
  - destruct (tracking_class (format_code p)) as [c|] eqn:Hc.
    + rewrite bind_run. unfold lift.
      destruct (chdo_decode c b) as [a|e] eqn:Ha; [|done].
      intros [= <- <-]. exists []. rewrite world_eta.
      split; [done|]. split; intros w2; rewrite world_eta; simpl.
      * by rewrite bind_run.
      * rewrite Hc, bind_run. unfold lift. by rewrite Ha.
    + intros [= <- <-]. eexists. split; [reflexivity|].
      split; intros w2; simpl; [done|]. by rewrite Hc.
  - intros [= <- <-]. exists []. rewrite world_eta.
    split; [done|]. by split; intros w2; rewrite world_eta.
Qed.

Lemma decode_secondary_again self sec trk w s w1 :
  decode_secondary self sec trk w = (Ok s, w1) ->
  exists out,
    w1 = World (stdout w ++ out) (files w) /\
    (forall w2, decode_secondary self sec trk w2
                = (Ok s, World (stdout w2 ++ out) (files w2))) /\
    (forall w2, decode_secondary s sec trk w2
                = (Ok s, World (stdout w2 ++ out) (files w2))).
Proof.
  unfold decode_secondary. destruct sec.
  - destruct (secondary_class (data_description_id (label self)))
      as [c|] eqn:Hc.
    + rewrite bind_run. unfold lift.
      destruct (chdo_decode c (binarydata self)) as [a|e] eqn:Ha; [|done].
      intros Ht.
      pose proof (decode_tracking_inv _ _ _ _ _ Ht)
        as (Hb & Hn & Hl & Hag & Hp & Hs & _).
      apply decode_tracking_again in Ht as (out & -> & Hself & Hs').
      exists out. split; [done|]. split; intros w2.
      * rewrite bind_run. exact (Hself w2).
      * rewrite Hl. simpl. rewrite Hc, bind_run. unfold lift.
        rewrite Hb. simpl. rewrite Ha.
        replace (set_sec_chdo (Some (Object c a)) s) with s; [apply Hs'|].
        destruct s. simpl in Hs. by rewrite Hs.
    + intros [= <- <-]. eexists. split; [reflexivity|].
      split; intros w2; [done|].
      destruct self. simpl in *. by rewrite Hc.
  - apply decode_tracking_again.
Qed.

(** The three header stages as one step. *)
Lemma decode_header_stages self fr lbl agg pri sec trk w s w1 :
  decode self fr lbl agg pri sec trk w = (Ok s, w1) ->
  exists l a p,
    (if lbl then SFDULabel_decode fr = Ok l else l = label self) /\
    (if agg then SFDUAggCHDO_decode fr = Ok a else a = agg_chdo self) /\
    (if pri then PrimaryCHDO_decode fr = Ok p else p = pri_chdo self) /\
    decode_secondary
      (mk fr (number self) l a p (sec_chdo self) (trk_chdo self)
         (is_decoded self)) sec trk w = (Ok s, w1).
Proof.
  unfold decode. intros Hd.
  apply bind_ok_inv in Hd as (s1 & w1' & H1 & Hd).
  apply bind_ok_inv in Hd as (s2 & w2' & H2 & Hd).
  apply bind_ok_inv in Hd as (s3 & w3' & H3 & Hd).
  exists (label s3), (agg_chdo s3), (pri_chdo s3).
  assert (E1 : s1 = mk fr (number self) (label s1) (agg_chdo self)
                      (pri_chdo self) (sec_chdo self) (trk_chdo self)
                      (is_decoded self) /\ w1' = w /\
               if lbl then SFDULabel_decode fr = Ok (label s1)
               else label s1 = label self).
  { destruct lbl.
    - apply lift_bind_ok_inv in H1 as (l & Hl & [= <- <-]). by destruct self.
    - injection H1 as <- <-. by destruct self. }
  destruct E1 as (E1 & -> & Hl). rewrite E1 in H2. simpl in H2.
  assert (E2 : s2 = mk fr (number self) (label s1) (agg_chdo s2)
                      (pri_chdo self) (sec_chdo self) (trk_chdo self)
                      (is_decoded self) /\ w2' = w /\
               if agg then SFDUAggCHDO_decode fr = Ok (agg_chdo s2)
               else agg_chdo s2 = agg_chdo self).
  { destruct agg.
    - by apply lift_bind_ok_inv in H2 as (a & Ha & [= <- <-]).
    - by injection H2 as <- <-. }
  destruct E2 as (E2 & -> & Ha). rewrite E2 in H3. simpl in H3.
  assert (E3 : s3 = mk fr (number self) (label s1) (agg_chdo s2)
                      (pri_chdo s3) (sec_chdo self) (trk_chdo self)
                      (is_decoded self) /\ w3' = w /\
               if pri then PrimaryCHDO_decode fr = Ok (pri_chdo s3)
               else pri_chdo s3 = pri_chdo self).
  { destruct pri.
    - by apply lift_bind_ok_inv in H3 as (p & Hp & [= <- <-]).
    - by injection H3 as <- <-. }
  destruct E3 as (E3 & -> & Hp).
  rewrite E3 in Hd |- *. simpl.
  split; [by destruct lbl|]. split; [by destruct agg|].
  split; [by destruct pri|]. exact Hd.
Qed.

Lemma decode_header_run self fr (lbl agg pri sec trk : bool) l a p w :
  (if lbl then SFDULabel_decode fr = Ok l else l = label self) ->
  (if agg then SFDUAggCHDO_decode fr = Ok a else a = agg_chdo self) ->
  (if pri then PrimaryCHDO_decode fr = Ok p else p = pri_chdo self) ->
  decode self fr lbl agg pri sec trk w
  = decode_secondary
      (mk fr (number self) l a p (sec_chdo self) (trk_chdo self)
         (is_decoded self)) sec trk w.
Proof.
  intros Hl Ha Hp. unfold decode.
  destruct self as [binarydata number label agg_chdo pri_chdo sec_chdo
                      trk_chdo is_decoded].
  simpl in *. unfold set_binarydata. simpl.
  destruct lbl, agg, pri; subst;
    repeat (rewrite bind_run; unfold lift; rewrite ?Hl, ?Ha, ?Hp; simpl);
    reflexivity.
Qed.

Lemma decode_again self fr lbl agg pri sec trk w s w1 :
  decode self fr lbl agg pri sec trk w = (Ok s, w1) ->
  exists out,
    w1 = World (stdout w ++ out) (files w) /\
    binarydata s = fr /\ number s = number self /\
    (forall w2, decode self fr lbl agg pri sec trk w2
                = (Ok s, World (stdout w2 ++ out) (files w2))) /\
    (forall w2, decode s fr lbl agg pri sec trk w2
                = (Ok s, World (stdout w2 ++ out) (files w2))).
Proof.
  intros Hd.
  apply decode_header_stages in Hd as (l & a & p & Hl & Ha & Hp & Hd).
  pose proof (decode_secondary_inv _ _ _ _ _ _ Hd)
    as (Hb & Hn & Hl' & Ha' & Hp' & _).
  simpl in Hb, Hn, Hl', Ha', Hp'.
  apply decode_secondary_again in Hd as (out & -> & Hself & Hs).
  exists out. split; [done|]. split; [done|]. split; [done|].
  split; intros w2.
  - rewrite (decode_header_run _ _ _ _ _ _ _ l a p) by done. apply Hself.
  - rewrite (decode_header_run _ _ _ _ _ _ _ l a p).
    + replace (mk fr (number s) l a p (sec_chdo s) (trk_chdo s)
                 (is_decoded s)) with s; [apply Hs|].
      destruct s. simpl in *. by subst.
    + destruct lbl; [done|]. by rewrite Hl'.
    + destruct agg; [done|]. by rewrite Ha'.
    + destruct pri; [done|]. by rewrite Hp'.
Qed.

End DecodeAgain.

Section DecodeAgainTheorems.
Import SFDU components.

(** X5: decoding a record a second time changes nothing.  When
    [SFDU.decode] returns, decoding the record it returned again, from the
    same bytes and with the same stages asked for, returns that very
    record and prints the same warnings; the outcome does not depend on
    what was printed before or on the files. *)
Theorem sfdu_decode_idempotent `{Components}
    self fr lbl agg pri sec trk w s w1 :
  decode self fr lbl agg pri sec trk w = (Ok s, w1) ->
  exists out,
    w1 = World (stdout w ++ out) (files w) /\
    forall w2, decode s fr lbl agg pri sec trk w2
               = (Ok s, World (stdout w2 ++ out) (files w2)).
Proof.
  intros Hd.
  apply decode_again in Hd as (out & Hw & _ & _ & _ & Hs).
  by exists out.
Qed.

Lemma sfdu_decode_idempotent_witness :
  exists s out,
    decode (H := fixed_offsets) (set_number 3 (new (H := fixed_offsets))) unknown_code
      true true true true true no_files
    = (Ok s, World ([] ++ out) ∅) /\
    decode (H := fixed_offsets) s unknown_code true true true true true
      no_files
    = (Ok s, World ([] ++ out) ∅).
Proof.
  destruct (decode (H := fixed_offsets) (set_number 3 (new (H := fixed_offsets))) unknown_code
              true true true true true no_files) as [[s|e] w1] eqn:Hrun.
  - destruct (sfdu_decode_idempotent (H := fixed_offsets) _ _ _ _ _ _ _ _ _ _
                Hrun) as (out & -> & Hs).
    exists s, out. split; [reflexivity|]. apply (Hs no_files).
  - exfalso. vm_compute in Hrun. discriminate Hrun.
Defined.

(** X6: the two-step decode of the scripts.  The scripts that extract
    downlink and ramp data first decode the three fixed headers only and
    then, on the records they select, call [decode] on the record's own
    bytes for the remaining stages.  The first step prints nothing and
    marks the record decoded; the second step gives exactly what one call
    with the five stages would have given on the fresh record: the same
    record, the same warnings, or the same exception. *)
Theorem decode_in_two_steps `{Components} self fr sec trk w s1 w1 :
  decode self fr true true true false false w = (Ok s1, w1) ->
  w1 = w /\ is_decoded s1 = true /\
  decode s1 (binarydata s1) false false false sec trk w1
  = decode self fr true true true sec trk w.
Proof.
  intros Hd.
  apply decode_header_stages in Hd as (l & a & p & Hl & Ha & Hp & Hd).
  injection Hd as <- <-.
  split; [done|]. split; [done|]. simpl.
  rewrite (decode_header_run self fr true true true sec trk l a p)
    by done.
  rewrite (decode_header_run _ fr false false false sec trk l a p)
    by done.
  simpl.
  apply (decode_secondary_flag true
           (mk fr (number self) l a p (sec_chdo self) (trk_chdo self)
              (is_decoded self))).
Qed.

Lemma decode_in_two_steps_witness :
  exists s1,
    decode (H := fixed_offsets) (set_number 0 (new (H := fixed_offsets))) carrier_5s
      true true true false false no_files = (Ok s1, no_files) /\
    is_decoded s1 = true /\
    decode (H := fixed_offsets) s1 (binarydata s1) false false false
      true true no_files
    = decode (H := fixed_offsets) (set_number 0 (new (H := fixed_offsets))) carrier_5s
        true true true true true no_files.
Proof.
  destruct (decode (H := fixed_offsets) (set_number 0 (new (H := fixed_offsets))) carrier_5s
              true true true false false no_files) as [[s1|e] w1] eqn:Hrun.
  - destruct (decode_in_two_steps (H := fixed_offsets) _ _ true true _ _ _
                Hrun) as (-> & Hdec & Heq).
    exists s1. exact (conj eq_refl (conj Hdec Heq)).
  - exfalso. vm_compute in Hrun. discriminate Hrun.
Defined.

End DecodeAgainTheorems.

(** ** The records of a decoded reader *)

Section ReaderRecords.
Context `{SFDU.Components}.
Import Reader.

Lemma decoded_records_inv (ps : list (Z * bytes)) lbl agg pri sec trk
    (sfdus : list SFDU.t) :
  Forall2 (fun p s => exists w1 w2,
             SFDU.decode (SFDU.set_number (fst p) SFDU.new) (snd p)
               lbl agg pri sec trk w1 = (Ok s, w2)) ps sfdus ->
  SFDU.binarydata <$> sfdus = snd <$> ps /\
  SFDU.number <$> sfdus = fst <$> ps.
Proof.
  induction 1 as [|p s ps sfdus (w1 & w2 & Hd) _ [IH1 IH2]]; [done|].
  apply decode_again in Hd as (out & _ & Hb & Hn & _).
  rewrite !fmap_cons, IH1, IH2, Hb, Hn. done.
Qed.

Lemma enumerate_fst {A} (l : list A) : fst <$> enumerate l = range (len l).
Proof.
  unfold enumerate, range, len. rewrite Nat2Z.id.
  induction l as [|x l IH] using rev_ind; [done|].
  rewrite imap_app, fmap_app, IH, length_app, Nat.add_1_r, seq_S, map_app.
  simpl. by rewrite Nat.add_0_r.
Qed.

End ReaderRecords.

Section ReaderRecordsTheorems.
Import Reader components.

(** X7: what [Reader.decode] leaves in the reader, whichever stages are
    asked for.  When it returns, the reader is marked decoded, its bytes and
    index are untouched, no file has changed, and there is one record for
    each pair of consecutive boundaries: record [i] carries the number [i]
    and, as its bytes, the byte range between boundaries [i] and [i+1].
    When the index is the one [sfdu_index] builds for the bytes, the bytes
    of the records, one after the other, are the bytes of the file. *)
Theorem reader_decode_records `{SFDU.Components}
    f lbl agg pri sec trk w f' w' :
  Reader.decode f lbl agg pri sec trk w = (Ok f', w') ->
  is_decoded f' = true /\ filename f' = filename f /\
  binarydata f' = binarydata f /\ index f' = index f /\
  files w' = files w /\
  SFDU.binarydata <$> sfdu_list f' = frames (binarydata f) (index f) /\
  SFDU.number <$> sfdu_list f' = range (len (sfdu_list f')) /\
  length (sfdu_list f') = (length (index f) - 1)%nat /\
  (sfdu_index (binarydata f) = Ok (index f) ->
   concat (SFDU.binarydata <$> sfdu_list f') = binarydata f).
Proof.
  intros Hd.
  pose proof (keeps_files_run _ _ _ _
                (decode_keeps_files_stream f lbl agg pri sec trk) Hd)
    as Hfiles.
  rewrite decode_run in Hd.
  apply bind_ok_inv in Hd as (sfdus & w1 & Hm & [= <- <-]). simpl.
  apply mmap_ok_inv in Hm.
  apply decoded_records_inv in Hm as [Hb Hn].
  rewrite enumerate_snd in Hb. rewrite enumerate_fst in Hn.
  assert (Hlen : length sfdus = length (frames (binarydata f) (index f))).
  { by rewrite <- Hb, length_fmap. }
  do 5 (split; [done|]). split; [done|]. split; [|split].
  - rewrite Hn. unfold len. by rewrite Hlen.
  - by rewrite Hlen, length_frames.
  - intros Hind. rewrite Hb. by apply sfdu_index_frames.
Qed.

Lemma reader_decode_records_witness :
  exists f',
    fst (Reader.decode (H := fixed_offsets)
           (reader_of (carrier_5s ++ unknown_ddid) [0; 80; 160])
           false false true true false no_files) = Ok f' /\
    SFDU.binarydata <$> sfdu_list f'
    = frames (carrier_5s ++ unknown_ddid) [0; 80; 160] /\
    SFDU.number <$> sfdu_list f' = range (len (sfdu_list f')) /\
    length (sfdu_list f') = 2%nat.
Proof.
  destruct (Reader.decode (H := fixed_offsets)
              (reader_of (carrier_5s ++ unknown_ddid) [0; 80; 160])
              false false true true false no_files) as [[f'|e] w'] eqn:Hrun.
  - destruct (reader_decode_records (H := fixed_offsets) _ _ _ _ _ _ _ _ _
                Hrun) as (_ & _ & _ & _ & _ & Hb & Hn & Hl & _).
    exists f'. exact (conj eq_refl (conj Hb (conj Hn Hl))).
  - exfalso. vm_compute in Hrun. discriminate Hrun.
Defined.

End ReaderRecordsTheorems.

(** ** The accessors of a record, continued *)

Section MoreAccessors.
Import SFDU Accessors Expected.

Lemma bands_keys k : is_Some (util.bands !! k) <-> 0 <= k <= 5.
Proof.
  split.
  - intros [x Hx]. apply elem_of_list_to_map_2 in Hx.
    rewrite !elem_of_cons, elem_of_nil in Hx.
    repeat (destruct Hx as [Hx|Hx]; [injection Hx as -> _; lia|]).
    done.
  - intros Hk.
    assert (Hcases : k ∈ range 6).
    { unfold range. apply list_elem_of_fmap. exists (Z.to_nat k).
      split; [lia|]. apply list_elem_of_In, in_seq. lia. }
    unfold range in Hcases. simpl in Hcases.
    rewrite !elem_of_cons, elem_of_nil in Hcases.
    repeat (destruct Hcases as [->|Hcases]; [by eexists|]).
    done.
Qed.

Lemma attr_or_get o a :
  (if hasattr o a then getattr_opt o a else Ok 0) = Ok (attr_or o a 0).
Proof.
  destruct o as [o|]; [|done]. simpl. unfold getattr.
  by destruct (attrs o !! a) as [v|] eqn:Hv.
Qed.

Lemma january_1_1958 : january_1 1958 = 714780.
Proof. vm_compute. reflexivity. Qed.

End MoreAccessors.

Section MoreAccessorsTheorems.
Import SFDU Accessors Expected components.

(** X8: [last_modified].  Without a secondary header the read of its
    [mod_day] raises [AttributeError].  With one, the result is midnight
    of 1958-01-01 plus [mod_day] days and [mod_msec] milliseconds whenever
    that time is one a [datetime] can hold, which is the case for every
    day count below 65536 and millisecond count below 2^32; a time outside
    the range of [datetime] raises [OverflowError]. *)
Theorem last_modified_accessor (x : SFDU.t) :
  match sec_chdo x with
  | Some o =>
      forall d ms,
        attrs o !! "mod_day" = Some d ->
        attrs o !! "mod_msec" = Some ms ->
        (representable (absolute_time 1958 (d + 1) (ms * 1000)) ->
         last_modified x = Ok (absolute_time 1958 (d + 1) (ms * 1000))) /\
        (0 <= d < 65536 -> 0 <= ms < 4294967296 ->
         last_modified x = Ok ((714780 + d) * us_per_day + ms * 1000)) /\
        (~ representable (absolute_time 1958 (d + 1) (ms * 1000)) ->
         last_modified x = Err OverflowError)
  | None => last_modified x = Err (AttributeError "NoneType" "mod_day")
  end.
Proof.
  destruct (sec_chdo x) as [o|] eqn:Ho.
  - intros d ms Hd Hms.
    assert (Hrun : last_modified x
                   = (td ← timedelta_of d (ms * 1000);
                      datetime_add (714780 * us_per_day) td)).
    { unfold last_modified. rewrite Ho. simpl. unfold getattr.
      by rewrite Hd, Hms. }
    assert (Habs : absolute_time 1958 (d + 1) (ms * 1000)
                   = 714780 * us_per_day + (d * us_per_day + ms * 1000)).
    { unfold absolute_time. rewrite january_1_1958. lia. }
    assert (Hdiv : (714780 * us_per_day + (d * us_per_day + ms * 1000))
                   / us_per_day
                   = 714780 + (d * us_per_day + ms * 1000) / us_per_day).
    { rewrite Z.add_comm, Z.div_add by done. lia. }
    assert (Hvalue : representable (absolute_time 1958 (d + 1) (ms * 1000)) ->
                     last_modified x
                     = Ok (absolute_time 1958 (d + 1) (ms * 1000))).
    { intros Hrep. rewrite Hrun, Habs.
      unfold representable, MAXORDINAL in Hrep. rewrite Habs, Hdiv in Hrep.
      unfold timedelta_of.
      rewrite (proj2 (Z.leb_le _ _)), (proj2 (Z.leb_le _ _)) by lia.
      simpl. unfold datetime_add, MAXORDINAL. rewrite Hdiv.
      by rewrite (proj2 (Z.ltb_lt _ _)), (proj2 (Z.leb_le _ _)) by lia. }
    split; [exact Hvalue|]. split.
    + intros Hday Hmsec.
      replace ((714780 + d) * us_per_day + ms * 1000)
        with (absolute_time 1958 (d + 1) (ms * 1000)) by (rewrite Habs; lia).
      apply Hvalue. unfold representable, MAXORDINAL.
      rewrite Habs, Hdiv.
      assert (0 <= (d * us_per_day + ms * 1000) / us_per_day < 65586).
      { unfold us_per_day. split.
        - apply Z.div_pos; lia.
        - apply Z.div_lt_upper_bound; lia. }
      lia.
    + intros Hrep. rewrite Hrun. unfold timedelta_of.
      match goal with
      | |- context [if ?c then _ else _] => destruct c; simpl; [|done]
      end.
      unfold datetime_add.
      match goal with
      | |- context [if ?c then _ else _] => destruct c eqn:Hadd; [|done]
      end.
      exfalso. apply Hrep. unfold representable. rewrite Habs.
      apply andb_prop in Hadd as [H1 H2].
      apply Z.ltb_lt in H1. apply Z.leb_le in H2. exact (conj H1 H2).
  - unfold last_modified. by rewrite Ho.
Qed.

Lemma last_modified_accessor_witness :
  last_modified
    (SFDU.mk [] 0 {| data_description_id := "C124" |}
       (Object "SFDUAggCHDO" ∅) {| format_code := 1 |}
       (Some (Object "DownlinkCHDO"
                (list_to_map [ ("mod_day", 20000);
                               ("mod_msec", 5000) ]%string)))
       None true)
  = Ok ((714780 + 20000) * us_per_day + 5000 * 1000).
Proof.
  pose proof (last_modified_accessor
                (SFDU.mk [] 0 {| data_description_id := "C124" |}
                   (Object "SFDUAggCHDO" ∅) {| format_code := 1 |}
                   (Some (Object "DownlinkCHDO"
                            (list_to_map [ ("mod_day", 20000);
                                           ("mod_msec", 5000) ]%string)))
                   None true)) as Hw.
  cbn [sec_chdo] in Hw.
  assert (Hd : attrs (Object "DownlinkCHDO"
                        (list_to_map [ ("mod_day", 20000);
                                       ("mod_msec", 5000) ]%string))
               !! "mod_day"%string = Some 20000) by (vm_compute; reflexivity).
  assert (Hm : attrs (Object "DownlinkCHDO"
                        (list_to_map [ ("mod_day", 20000);
                                       ("mod_msec", 5000) ]%string))
               !! "mod_msec"%string = Some 5000) by (vm_compute; reflexivity).
  destruct (Hw 20000 5000 Hd Hm) as (_ & Hr & _).
  apply Hr; lia.
Defined.

(** X9: [dss_id] and [radio_band].  [dss_id] never raises: each station
    id is the attribute of the secondary header, 0 when the header is
    absent or has no such attribute.  [radio_band] looks both band codes
    up in [bands], a missing one counting as 0: it returns the two names
    exactly when both codes are in 0..5, gives "Unknown" twice for a record
    without secondary header, and raises [KeyError] otherwise, for the
    uplink code first. *)
Theorem station_accessors (x : SFDU.t) :
  dss_id x = Ok (attr_or (sec_chdo x) "ul_dss_id" 0,
                 attr_or (sec_chdo x) "dl_dss_id" 0) /\
  (0 <= attr_or (sec_chdo x) "ul_band" 0 <= 5 ->
   0 <= attr_or (sec_chdo x) "dl_band" 0 <= 5 ->
   exists ub db,
     util.bands !! attr_or (sec_chdo x) "ul_band" 0 = Some ub /\
     util.bands !! attr_or (sec_chdo x) "dl_band" 0 = Some db /\
     radio_band x = Ok (ub, db)) /\
  (~ 0 <= attr_or (sec_chdo x) "ul_band" 0 <= 5 ->
   radio_band x = Err (KeyError (attr_or (sec_chdo x) "ul_band" 0))) /\
  (0 <= attr_or (sec_chdo x) "ul_band" 0 <= 5 ->
   ~ 0 <= attr_or (sec_chdo x) "dl_band" 0 <= 5 ->
   radio_band x = Err (KeyError (attr_or (sec_chdo x) "dl_band" 0))) /\
  (sec_chdo x = None -> radio_band x = Ok ("Unknown", "Unknown")%string).
Proof.
  split; [|split; [|split; [|split]]].
  - unfold dss_id. by rewrite !attr_or_get.
  - intros [ub Hub]%bands_keys [db Hdb]%bands_keys. exists ub, db.
    split; [done|]. split; [done|].
    unfold radio_band. rewrite !attr_or_get. simpl. unfold dict_get.
    by rewrite Hub, Hdb.
  - intros Hu. unfold radio_band. rewrite !attr_or_get. simpl.
    unfold dict_get.
    destruct (util.bands !! attr_or (sec_chdo x) "ul_band" 0) eqn:Hub;
      [|done].
    exfalso. apply Hu, bands_keys. eauto.
  - intros [ub Hub]%bands_keys Hd.
    unfold radio_band. rewrite !attr_or_get. simpl. unfold dict_get.
    rewrite Hub. simpl.
    destruct (util.bands !! attr_or (sec_chdo x) "dl_band" 0) eqn:Hdb;
      [|done].
    exfalso. apply Hd, bands_keys. eauto.
  - intros Ho. unfold radio_band. rewrite Ho. reflexivity.
Qed.

Lemma station_accessors_witness :
  radio_band (sfdu_with "C124" None) = Ok ("Unknown", "Unknown")%string /\
  radio_band
    (sfdu_with "C123"
       (Some (Object "UplinkCHDO" {[ "ul_band"%string := 7 ]})))
  = Err (KeyError 7).
Proof.
  split.
  - apply (proj2 (proj2 (proj2 (proj2
             (station_accessors (sfdu_with "C124" None)))))).
    reflexivity.
  - assert (Hk : attr_or
                    (sec_chdo
                       (sfdu_with "C123"
                          (Some (Object "UplinkCHDO"
                                   {[ "ul_band"%string := 7 ]}))))
                    "ul_band" 0 = 7) by (vm_compute; reflexivity).
    pose proof (proj1 (proj2 (proj2
                  (station_accessors
                     (sfdu_with "C123"
                        (Some (Object "UplinkCHDO"
                                 {[ "ul_band"%string := 7 ]}))))))) as Hw.
    rewrite Hk in Hw. apply Hw. lia.
Defined.

(** X10: where [tracking_mode] gives no label.  For a record that is not
    an uplink (C123) record it raises [AttributeError] when the secondary
    header is absent, when the header has no [prdx_mode], and when the mode
    is 3 and the header has no [ul_prdx_stn]; for a mode outside 0..4 no
    branch returns and the result is [None]. *)
Theorem tracking_mode_without_label (x : SFDU.t) :
  data_description_id (label x) <> "C123"%string ->
  (sec_chdo x = None ->
   tracking_mode x = Err (AttributeError "NoneType" "prdx_mode")) /\
  (forall o,
      sec_chdo x = Some o -> attrs o !! "prdx_mode" = None ->
      tracking_mode x = Err (AttributeError (cls o) "prdx_mode")) /\
  (forall o,
      sec_chdo x = Some o -> attrs o !! "prdx_mode" = Some 3 ->
      attrs o !! "ul_prdx_stn" = None ->
      tracking_mode x = Err (AttributeError (cls o) "ul_prdx_stn")) /\
  (forall o mode,
      sec_chdo x = Some o -> attrs o !! "prdx_mode" = Some mode ->
      ~ 0 <= mode <= 4 ->
      tracking_mode x = Ok None).
Proof.
  intros Hd. unfold tracking_mode. rewrite decide_True by done.
  split; [|split; [|split]].
  - intros Ho. by rewrite Ho.
  - intros o Ho Hm. rewrite Ho. simpl. unfold getattr. by rewrite Hm.
  - intros o Ho Hm Hs. rewrite Ho. simpl. unfold getattr.
    by rewrite Hm, Hs.
  - intros o mode Ho Hm Hr. rewrite Ho. simpl. unfold getattr.
    rewrite Hm. simpl. case_cmp; done.
Qed.

Lemma tracking_mode_without_label_witness :
  tracking_mode (sfdu_with "C124" None)
  = Err (AttributeError "NoneType" "prdx_mode") /\
  tracking_mode
    (sfdu_with "C124" (Some (downlink_header 2020 100 0 7 43)))
  = Ok None.
Proof.
  split.
  - apply (proj1 (tracking_mode_without_label (sfdu_with "C124" None)
                    ltac:(discriminate))).
    reflexivity.
  - apply (proj2 (proj2 (proj2
             (tracking_mode_without_label
                (sfdu_with "C124" (Some (downlink_header 2020 100 0 7 43)))
                ltac:(discriminate))))
             (downlink_header 2020 100 0 7 43) 7).
    + reflexivity.
    + vm_compute; reflexivity.
    + lia.
Defined.

End MoreAccessorsTheorems.

(** ** Counting the records of each type *)

Section TypeCounts.
Import Expected.
Context {A : Type} (code : A -> Z).

Lemma total_app l1 l2 : total (l1 ++ l2) = total l1 + total l2.
Proof. unfold total. induction l1 as [|x l1 IH]; simpl; lia. Qed.

Lemma count_code_cons x l i :
  util.count_code code (x :: l) i
  = (if code x =? i then 1 else 0) + util.count_code code l i.
Proof.
  unfold util.count_code, len. simpl.
  destruct (code x =? i); simpl; lia.
Qed.

Lemma count_code_nonneg l i : 0 <= util.count_code code l i.
Proof. apply len_nonneg. Qed.

Lemma count_code_pos l i :
  util.count_code code l i <> 0 <-> exists x, x ∈ l /\ code x = i.
Proof.
  induction l as [|x l IH].
  - split; [done|]. intros (x & Hx & _). by apply elem_of_nil in Hx.
  - rewrite count_code_cons. pose proof (count_code_nonneg l i).
    destruct (Z.eqb_spec (code x) i) as [He|He].
    + split; [|lia]. intros _. exists x. split; [left|done].
    + rewrite Z.add_0_l, IH. split.
      * intros (y & Hy & Hc). exists y. split; [by right|done].
      * intros (y & Hy & Hc). apply elem_of_cons in Hy as [->|Hy]; [done|].
        by exists y.
Qed.

Lemma total_indicator c ks :
  NoDup ks ->
  total (map (fun i => if c =? i then 1 else 0) ks)
  = if decide (c ∈ ks) then 1 else 0.
Proof.
  induction 1 as [|k ks Hk _ IH]; [done|].
  unfold total in *. simpl. rewrite IH.
  destruct (Z.eqb_spec c k) as [->|Hne].
  - rewrite decide_False by done. rewrite decide_True by left. done.
  - destruct (decide (c ∈ ks)) as [Hin|Hin].
    + rewrite decide_True by (by right). done.
    + rewrite decide_False; [done|].
      intros [?|?]%elem_of_cons; done.
Qed.

Lemma total_counts l ks :
  NoDup ks ->
  total (map (util.count_code code l) ks)
  = len (List.filter (fun x => bool_decide (code x ∈ ks)) l).
Proof.
  intros Hks. induction l as [|x l IH].
  - unfold util.count_code, len, total. simpl.
    induction ks as [|k ks IHk]; [done|].
    simpl. apply NoDup_cons in Hks as [_ Hks]. by rewrite IHk.
  - transitivity
      (total (map (fun i => if code x =? i then 1 else 0) ks)
       + total (map (util.count_code code l) ks)).
    + clear IH Hks. unfold total.
      induction ks as [|k ks IHk]; [done|].
      simpl. rewrite IHk, count_code_cons. lia.
    + rewrite IH, (total_indicator _ _ Hks). simpl.
      destruct (decide (code x ∈ ks)) as [Hin|Hin].
      * rewrite bool_decide_eq_true_2 by done. unfold len. simpl. lia.
      * rewrite bool_decide_eq_false_2 by done. lia.
Qed.

Lemma len_filter_le (f : A -> bool) l : len (List.filter f l) <= len l.
Proof.
  unfold len. induction l as [|x l IH]; simpl; [lia|].
  destruct (f x); simpl; lia.
Qed.

Lemma len_filter_all (f : A -> bool) l :
  len (List.filter f l) = len l <-> Forall (fun x => f x = true) l.
Proof.
  induction l as [|x l IH].
  - split; [constructor|done].
  - pose proof (len_filter_le f l) as Hle. simpl.
    destruct (f x) eqn:Hf.
    + rewrite Forall_cons. unfold len in *. simpl. split.
      * intros Hl. split; [done|]. apply IH. lia.
      * intros [_ Hl]. apply IH in Hl. lia.
    + split.
      * unfold len in *. simpl. lia.
      * intros Hall. apply Forall_cons in Hall as [Hx _]. congruence.
Qed.

End TypeCounts.

Section TypeCountsTheorems.
Import Expected.

Lemma range_lookup n (i : nat) :
  (i < Z.to_nat n)%nat -> range n !! i = Some (Z.of_nat i).
Proof.
  intros Hi. unfold range. rewrite list_lookup_fmap.
  by rewrite lookup_seq_lt.
Qed.

Lemma range_18_elem i : i ∈ range 18 <-> 0 <= i <= 17.
Proof. apply (sort_types_elem i). Qed.

Lemma range_18_NoDup : NoDup (range 18).
Proof. apply sort_types_NoDup. Qed.

(** X11: [types].  The result always has 18 entries; entry [i] is the
    number of records whose format code is [i]; the entries add up to the
    number of records whose code is in 0..17, so to the number of records
    exactly when no record has a code outside that range: such a record is
    counted nowhere. *)
Theorem types_counts {A} (code : A -> Z) (l : list A) :
  length (util.types code l) = 18%nat /\
  (forall i, 0 <= i <= 17 ->
             getitem (util.types code l) i
             = Ok (len (List.filter (fun x => code x =? i) l))) /\
  total (util.types code l)
  = len (List.filter (fun x => bool_decide (0 <= code x <= 17)) l) /\
  total (util.types code l) <= len l /\
  (total (util.types code l) = len l <->
   Forall (fun x => 0 <= code x <= 17) l).
Proof.
  assert (Htotal : total (util.types code l)
                   = len (List.filter
                            (fun x => bool_decide (0 <= code x <= 17)) l)).
  { unfold util.types. rewrite (total_counts code l _ range_18_NoDup).
    f_equal. apply filter_ext. intros x.
    apply bool_decide_ext, range_18_elem. }
  split; [|split; [|split; [|split]]].
  - unfold util.types, range. by rewrite !length_map, length_seq.
  - intros i Hi. rewrite getitem_nonneg by lia.
    unfold util.types. rewrite list_lookup_fmap, range_lookup by lia.
    simpl. by rewrite Z2Nat.id by lia.
  - exact Htotal.
  - rewrite Htotal. apply len_filter_le.
  - rewrite Htotal, len_filter_all. apply Forall_iff. intros x.
    apply bool_decide_eq_true.
Qed.

Lemma types_counts_witness :
  getitem (util.types (fun c : Z => c) [1; 9; 1; 18]) 1
  = Ok (len (List.filter (fun x => x =? 1) [1; 9; 1; 18])) /\
  total (util.types (fun c : Z => c) [1; 9; 1; 18]) = 3.
Proof.
  split.
  - apply (proj1 (proj2 (types_counts (fun c : Z => c) [1; 9; 1; 18]))).
    lia.
  - reflexivity.
Defined.

End TypeCountsTheorems.

(** ** The fields of the full summary *)

Section FullSummaryFields.
Import Info Expected.

Lemma get_info_fields self f r :
  get_info self f = Ok r ->
  exists dt t0 t1 dtm m scft acc dlb ulb dct,
    rmap SFDU.timestamp (List.filter SFDU.is_decoded (Reader.sfdu_list f))
    = Ok dt /\
    py_min dt = Ok t0 /\ py_max dt = Ok t1 /\
    rmap SFDU.last_modified
      (List.filter SFDU.is_decoded (Reader.sfdu_list f)) = Ok dtm /\
    py_max dtm = Ok m /\
    rmap (fun x => getattr_opt (SFDU.sec_chdo x) "scft_id")
      (List.filter SFDU.is_decoded (Reader.sfdu_list f)) = Ok scft /\
    station_loop (mk_lists [] [] [] [] []) (Reader.sfdu_list f) = Ok acc /\
    rmap (dict_get util.bands) (list_set (dl_band acc)) = Ok dlb /\
    rmap (dict_get util.bands) (list_set (ul_band acc)) = Ok ulb /\
    doppler_count_times (Reader.sfdu_list f) = Ok dct /\
    r = mk (len (Reader.sfdu_list f))
          (nonzero_indices (util.types code (Reader.sfdu_list f)))
          (util.types code (Reader.sfdu_list f))
          (Some t0) (Some t1) (Some m) (list_set scft)
          (list_set (dl_dss_id acc)) (list_set (ul_dss_id acc)) dlb ulb
          (list_set (trk_mode acc))
          (list_set (map ddid (Reader.sfdu_list f))) dct (filename self).
Proof.
  unfold get_info. cbv zeta.
  destruct (rmap SFDU.timestamp _) as [dt|] eqn:Hdt; simpl; [|done].
  destruct (py_min dt) as [t0|] eqn:Hmin; simpl; [|done].
  destruct (py_max dt) as [t1|] eqn:Hmax; simpl; [|done].
  destruct (rmap SFDU.last_modified _) as [dtm|] eqn:Hdtm; simpl; [|done].
  destruct (py_max dtm) as [m|] eqn:Hm; simpl; [|done].
  destruct (rmap (fun x => getattr_opt (SFDU.sec_chdo x) "scft_id") _)
    as [scft|] eqn:Hscft; simpl; [|done].
  destruct (station_loop _ _) as [acc|] eqn:Hacc; simpl; [|done].
  destruct (rmap (dict_get util.bands) (list_set (dl_band acc)))
    as [dlb|] eqn:Hdlb; simpl; [|done].
  destruct (rmap (dict_get util.bands) (list_set (ul_band acc)))
    as [ulb|] eqn:Hulb; simpl; [|done].
  destruct (doppler_count_times _) as [dct|] eqn:Hdct; simpl; [|done].
  intros [= <-].
  exists dt, t0, t1, dtm, m, scft, acc, dlb, ulb, dct.
  by repeat split.
Qed.

Lemma list_set_elem `{Countable B} (l : list B) x : x ∈ list_set l <-> x ∈ l.
Proof. unfold list_set. by rewrite elem_of_elements, elem_of_list_to_set. Qed.

Lemma list_set_NoDup `{Countable B} (l : list B) : NoDup (list_set l).
Proof. apply NoDup_elements. Qed.

Lemma nonzero_indices_counts (g : Z -> Z) n :
  0 <= n ->
  nonzero_indices (map g (range n))
  = List.filter (fun i => negb (g i =? 0)) (range n).
Proof.
  intros Hn. unfold nonzero_indices.
  assert (Hlen : len (map g (range n)) = n).
  { unfold len, range. rewrite !length_map, length_seq. lia. }
  rewrite Hlen. generalize (range n). intros l.
  induction l as [|i l IH]; [done|].
  simpl. destruct (g i =? 0); simpl; by rewrite IH.
Qed.

Lemma filter_sorted (R : Z -> Z -> Prop) (f : Z -> bool) l :
  StronglySorted R l -> StronglySorted R (List.filter f l).
Proof.
  induction 1 as [|x l Hl IH Hx]; simpl; [constructor|].
  destruct (f x); [|done]. constructor; [done|].
  rewrite Forall_forall in Hx |- *. intros y Hy.
  apply Hx. apply list_elem_of_In in Hy. apply filter_In in Hy as [Hy _].
  by apply list_elem_of_In.
Qed.

Lemma data_types_spec {A} (c : A -> Z) (l : list A) i :
  i ∈ nonzero_indices (util.types c l)
  <-> 0 <= i <= 17 /\ exists x, x ∈ l /\ c x = i.
Proof.
  unfold util.types. rewrite nonzero_indices_counts by lia.
  rewrite list_elem_of_In, filter_In, <- list_elem_of_In.
  rewrite (sort_types_elem i), negb_true_iff, Z.eqb_neq.
  by rewrite count_code_pos.
Qed.

Lemma data_types_sorted {A} (c : A -> Z) (l : list A) :
  StronglySorted Z.lt (nonzero_indices (util.types c l)).
Proof.
  unfold util.types. rewrite nonzero_indices_counts by lia.
  apply filter_sorted, sort_types_sorted.
Qed.

Lemma station_step_inv acc x acc' :
  station_step acc x = Ok acc' ->
  (forall v, v ∈ ul_dss_id acc' <-> v ∈ ul_dss_id acc \/ uplink_station x v) /\
  (forall v, v ∈ dl_dss_id acc'
             <-> v ∈ dl_dss_id acc \/ downlink_station x v) /\
  (forall m, m ∈ trk_mode acc' <-> m ∈ trk_mode acc \/ mode_of x m).
Proof.
  unfold station_step, uplink_station, downlink_station, mode_of.
  repeat case_decide;
    repeat match goal with
      | |- (?r ≫= _) = Ok _ -> _ =>
          let H := fresh "Hr" in destruct r eqn:H; simpl; [|done]
      end;
    intros [= <-]; simpl;
    repeat match goal with
      | H : ddid x = _ |- _ => rewrite H in *
      end;
    (split; [|split]); intros v;
    rewrite ?elem_of_app, ?elem_of_cons, ?elem_of_nil;
    intuition (try congruence).
Qed.

Lemma exists_cons_iff {B} (P : B -> Prop) (Q : Prop) x (l : list B) :
  (Q \/ P x) \/ (exists y, y ∈ l /\ P y) <-> Q \/ exists y, y ∈ x :: l /\ P y.
Proof.
  split.
  - intros [[HQ|HP]|(y & Hy & HP)].
    + by left.
    + right. exists x. split; [left|done].
    + right. exists y. split; [by right|done].
  - intros [HQ|(y & Hy & HP)].
    + by left; left.
    + apply elem_of_cons in Hy as [->|Hy].
      * by left; right.
      * right. by exists y.
Qed.

Lemma station_loop_inv l acc acc' :
  station_loop acc l = Ok acc' ->
  (forall v, v ∈ ul_dss_id acc'
             <-> v ∈ ul_dss_id acc \/ exists x, x ∈ l /\ uplink_station x v) /\
  (forall v, v ∈ dl_dss_id acc'
             <-> v ∈ dl_dss_id acc
                 \/ exists x, x ∈ l /\ downlink_station x v) /\
  (forall m, m ∈ trk_mode acc'
             <-> m ∈ trk_mode acc \/ exists x, x ∈ l /\ mode_of x m).
Proof.
  revert acc. induction l as [|x l IH]; intros acc.
  - intros [= <-]. repeat split; try tauto;
      intros [?|(x & Hx & _)]; try done; by apply elem_of_nil in Hx.
  - simpl.
    destruct (station_step acc x) as [acc1|] eqn:Hstep; simpl; [|done].
    intros Hl. apply IH in Hl as (Hu & Hd & Hm).
    apply station_step_inv in Hstep as (Hu1 & Hd1 & Hm1).
    split; [|split]; intros v.
    + rewrite Hu, Hu1.
      apply (exists_cons_iff (fun y => uplink_station y v)).
    + rewrite Hd, Hd1.
      apply (exists_cons_iff (fun y => downlink_station y v)).
    + rewrite Hm, Hm1.
      apply (exists_cons_iff (fun y => mode_of y v)).
Qed.

End FullSummaryFields.

Section FullSummaryFieldsTheorems.
Import Info Expected components.

Lemma rmap_elem_l {A B} (g : A -> result B) l ys x :
  rmap g l = Ok ys -> x ∈ l -> exists y, y ∈ ys /\ g x = Ok y.
Proof.
  intros Hr%rmap_ok_inv [i Hi]%list_elem_of_lookup.
  destruct (Forall2_lookup_l _ _ _ _ _ Hr Hi) as (y & Hy & Hg).
  exists y. split; [|done]. by eapply list_elem_of_lookup_2.
Qed.

Lemma rmap_elem_r {A B} (g : A -> result B) l ys y :
  rmap g l = Ok ys -> y ∈ ys -> exists x, x ∈ l /\ g x = Ok y.
Proof.
  intros Hr%rmap_ok_inv [i Hi]%list_elem_of_lookup.
  destruct (Forall2_lookup_r _ _ _ _ _ Hr Hi) as (x & Hx & Hg).
  exists x. split; [|done]. by eapply list_elem_of_lookup_2.
Qed.

Lemma elem_of_decoded (l : list SFDU.t) x :
  x ∈ List.filter SFDU.is_decoded l <-> x ∈ l /\ SFDU.is_decoded x = true.
Proof. by rewrite list_elem_of_In, filter_In, <- list_elem_of_In. Qed.

(** X12: the counts and the times of the full summary.  When [get_info]
    returns, [numRecords] is the number of records, [dataTypes] lists in
    increasing order exactly the codes 0..17 that some record carries, at
    least one record is decoded, [startTime] and [endTime] are timestamps
    of decoded records with every decoded record's timestamp between
    them, and [lastModified] is the latest [last_modified] of the decoded
    records. *)
Theorem full_summary_counts_and_times self f r :
  get_info self f = Ok r ->
  numRecords r = len (Reader.sfdu_list f) /\
  (forall i, i ∈ dataTypes r
             <-> 0 <= i <= 17 /\
                 exists x, x ∈ Reader.sfdu_list f /\ code x = i) /\
  StronglySorted Z.lt (dataTypes r) /\
  exists s e lm,
    startTime r = Some s /\ endTime r = Some e /\ lastModified r = Some lm /\
    s <= e /\
    (exists x, x ∈ Reader.sfdu_list f /\ SFDU.is_decoded x = true /\
               SFDU.timestamp x = Ok s) /\
    (exists x, x ∈ Reader.sfdu_list f /\ SFDU.is_decoded x = true /\
               SFDU.timestamp x = Ok e) /\
    (exists x, x ∈ Reader.sfdu_list f /\ SFDU.is_decoded x = true /\
               SFDU.last_modified x = Ok lm) /\
    (forall x, x ∈ Reader.sfdu_list f -> SFDU.is_decoded x = true ->
               exists t tm, SFDU.timestamp x = Ok t /\ s <= t <= e /\
                            SFDU.last_modified x = Ok tm /\ tm <= lm).
Proof.
  intros Hr.
  apply get_info_fields in Hr
    as (dt & t0 & t1 & dtm & m & scft & acc & dlb & ulb & dct & Hdt & Hmin
        & Hmax & Hdtm & Hm & _ & _ & _ & _ & _ & ->).
  cbn [numRecords dataTypes startTime endTime lastModified].
  split; [done|]. split; [apply data_types_spec|].
  split; [apply data_types_sorted|].
  apply py_min_spec in Hmin as [Hmin_in Hmin_le].
  apply py_max_spec in Hmax as [Hmax_in Hmax_le].
  apply py_max_spec in Hm as [Hm_in Hm_le].
  exists t0, t1, m. do 3 (split; [done|]).
  split; [by apply Hmin_le|].
  split; [|split; [|split]].
  - destruct (rmap_elem_r _ _ _ _ Hdt Hmin_in) as (x & Hx & Ht).
    apply elem_of_decoded in Hx as [Hx Hd]. by exists x.
  - destruct (rmap_elem_r _ _ _ _ Hdt Hmax_in) as (x & Hx & Ht).
    apply elem_of_decoded in Hx as [Hx Hd]. by exists x.
  - destruct (rmap_elem_r _ _ _ _ Hdtm Hm_in) as (x & Hx & Ht).
    apply elem_of_decoded in Hx as [Hx Hd]. by exists x.
  - intros x Hx Hd.
    assert (Hxd : x ∈ List.filter SFDU.is_decoded (Reader.sfdu_list f))
      by (by apply elem_of_decoded).
    destruct (rmap_elem_l _ _ _ _ Hdt Hxd) as (t & Ht & Hxt).
    destruct (rmap_elem_l _ _ _ _ Hdtm Hxd) as (tm & Htm & Hxtm).
    exists t, tm. split; [done|]. split; [|split; [done|]].
    + split; [by apply Hmin_le|by apply Hmax_le].
    + by apply Hm_le.
Qed.

Lemma full_summary_counts_and_times_witness :
  exists r,
    get_info initial (reader_after later_first_full) = Ok r /\
    numRecords r = len (Reader.sfdu_list (reader_after later_first_full)) /\
    StronglySorted Z.lt (dataTypes r).
Proof.
  destruct (get_info initial (reader_after later_first_full))
    as [r|e] eqn:Hrun.
  - destruct (full_summary_counts_and_times _ _ _ Hrun) as (Hn & _ & Hs & _).
    exists r. exact (conj eq_refl (conj Hn Hs)).
  - exfalso. vm_compute in Hrun. discriminate Hrun.
Defined.

(** X13: the stations and modes of the full summary.  When [get_info]
    returns, [uplinkDssId] holds, once each, the [ul_dss_id] of the uplink
    (C123) and interferometric (C126) records; [dnlinkDssId] the
    [dl_dss_id] of the C124, C125, C126 and C127 records and the
    [dl_dss_id_2] of the C126 records; [trackingMode] what [tracking_mode]
    returns for the C124..C127 records; [dataDescriptionIds] the data
    description ids of all records, decoded or not.  Records of any other
    data description id contribute no station and no mode. *)
Theorem full_summary_stations self f r :
  get_info self f = Ok r ->
  (forall v, v ∈ uplinkDssId r
             <-> exists x, x ∈ Reader.sfdu_list f /\ uplink_station x v) /\
  (forall v, v ∈ dnlinkDssId r
             <-> exists x, x ∈ Reader.sfdu_list f /\ downlink_station x v) /\
  (forall m, m ∈ trackingMode r
             <-> exists x, x ∈ Reader.sfdu_list f /\ mode_of x m) /\
  (forall d, d ∈ dataDescriptionIds r
             <-> exists x, x ∈ Reader.sfdu_list f /\ ddid x = d) /\
  NoDup (uplinkDssId r) /\ NoDup (dnlinkDssId r) /\
  NoDup (trackingMode r) /\ NoDup (dataDescriptionIds r).
Proof.
  intros Hr.
  apply get_info_fields in Hr
    as (dt & t0 & t1 & dtm & m & scft & acc & dlb & ulb & dct & _ & _
        & _ & _ & _ & _ & Hacc & _ & _ & _ & ->).
  cbn [uplinkDssId dnlinkDssId trackingMode dataDescriptionIds].
  apply station_loop_inv in Hacc as (Hu & Hd & Hm).
  assert (Hnil : forall B (v : B), v ∈ @nil B <-> False)
    by (intros; apply elem_of_nil).
  split; [|split; [|split; [|split]]].
  - intros v. rewrite list_set_elem, Hu. simpl. rewrite Hnil. tauto.
  - intros v. rewrite list_set_elem, Hd. simpl. rewrite Hnil. tauto.
  - intros v. rewrite list_set_elem, Hm. simpl. rewrite Hnil. tauto.
  - intros d. rewrite list_set_elem.
    change (map ddid (Reader.sfdu_list f))
      with (ddid <$> Reader.sfdu_list f).
    rewrite list_elem_of_fmap. split.
    + intros (x & -> & Hx). by exists x.
    + intros (x & Hx & <-). by exists x.
  - repeat split; apply list_set_NoDup.
Qed.

Lemma full_summary_stations_witness :
  exists r,
    get_info initial (reader_after later_first_full) = Ok r /\
    NoDup (dnlinkDssId r) /\
    (forall v, v ∈ uplinkDssId r
               <-> exists x, x ∈ Reader.sfdu_list
                                   (reader_after later_first_full) /\
                             uplink_station x v).
Proof.
  destruct (get_info initial (reader_after later_first_full))
    as [r|e] eqn:Hrun.
  - destruct (full_summary_stations _ _ _ Hrun)
      as (Hu & _ & _ & _ & _ & Hn & _).
    exists r. exact (conj eq_refl (conj Hn Hu)).
  - exfalso. vm_compute in Hrun. discriminate Hrun.
Defined.

End FullSummaryFieldsTheorems.

(** ** A file without a record to summarise *)

Section NoRecord.
Import Info Expected components.

(** X14: summaries of nothing.  [get_info] raises [ValueError], from
    [min] of an empty list, whenever no record of the reader is decoded:
    for an empty file, and for a file all of whose records have an unknown
    data description id.  For an empty file [Reader] succeeds with the
    index [[0]] and no record; the full summary then raises that
    [ValueError] and the quicklook summary raises [IndexError], from
    [f.index[1]]. *)
Theorem summary_of_no_record `{SFDU.Components} :
  (forall self f,
      List.filter SFDU.is_decoded (Reader.sfdu_list f) = [] ->
      get_info self f = Err (ValueError "min() arg is an empty sequence")) /\
  (forall path w,
      files w !! path = Some [] ->
      Reader.new path w
      = (Ok (Reader.mk (last_component "" path) [] false [] [0]), w) /\
      fst (Info.new (Reader.mk (last_component "" path) [] false [] [0])
             false w)
      = Err (ValueError "min() arg is an empty sequence") /\
      fst (Info.new (Reader.mk (last_component "" path) [] false [] [0])
             true w)
      = Err IndexError).
Proof.
  split.
  - intros self f Hnone. unfold get_info. cbv zeta. by rewrite Hnone.
  - intros path w Hfile. split; [|split].
    + unfold Reader.new, Reader.read, read_file.
      rewrite bind_run, Hfile. reflexivity.
    + reflexivity.
    + reflexivity.
Qed.

Lemma summary_of_no_record_witness :
  (exists f',
      fst (Reader.decode (H := fixed_offsets)
             (reader_of unknown_ddid [0; 80]) true true true true false
             no_files) = Ok f' /\
      get_info initial f'
      = Err (ValueError "min() arg is an empty sequence")) /\
  fst (Info.new (H := fixed_offsets)
         (Reader.mk (last_component "" "in.tnf") [] false [] [0]) true
         (input_file []))
  = Err IndexError.
Proof.
  split.
  - destruct (Reader.decode (H := fixed_offsets)
                (reader_of unknown_ddid [0; 80]) true true true true false
                no_files) as [[f'|e] w'] eqn:Hrun.
    + exists f'. split; [reflexivity|].
      apply (proj1 (summary_of_no_record (H := fixed_offsets))).
      vm_compute in Hrun. injection Hrun as <- _. reflexivity.
    + exfalso. vm_compute in Hrun. discriminate Hrun.
  - apply (proj2 (summary_of_no_record (H := fixed_offsets)) "in.tnf"
             (input_file [])).
    apply lookup_singleton_eq.
Defined.

End NoRecord.

(** ** The stations and modes of the quicklook summary *)

Section QuickFields.
Context `{SFDU.Components}.
Import Info Expected.





End QuickFields.

Section QuickFieldsTheorems.
Import Info Expected components.



End QuickFieldsTheorems.

(** ** The purify script with any filter *)

Section PurifyAnyFilter.
Context `{SFDU.Components}.
Import trk234_purify Expected.





Lemma purify_step_inv a s w w1 old :
  files w !! Output a = Some old ->
  purify_step a s w = (Ok tt, w1) ->
  files w1
  = <[Output a := old ++ (if selected a s then SFDU.binarydata s else [])]>
      (files w).
Proof.
  intros Hold. unfold purify_step, selected. intros Hs.
  apply lift_bind_ok_inv in Hs as (r & Hr & Hs). rewrite Hr.
  destruct r as [msg|].
  - apply (keeps_files_run _ _ _ _ (keeps_files_purify_log _ _)) in Hs.
    by rewrite Hs, app_nil_r, insert_id.
  - unfold write in Hs. injection Hs as <-. simpl. by rewrite Hold.
Qed.

Lemma purify_loop_inv a l w w1 old :
  files w !! Output a = Some old ->
  for_each l (purify_step a) w = (Ok tt, w1) ->
  files w1
  = <[Output a
      := old ++ trk234_regroup.bytes_of (List.filter (selected a) l)]>
      (files w).
Proof.
  revert w old. induction l as [|s l IH]; intros w old Hold.
  - intros [= <-]. unfold trk234_regroup.bytes_of. simpl.
    by rewrite app_nil_r, insert_id.
  - simpl. intros Hl. apply bind_ok_inv in Hl as ([] & w2 & Hs & Hl).
    apply (purify_step_inv _ _ _ _ _ Hold) in Hs.
    apply (IH w2 (old ++ (if selected a s then SFDU.binarydata s else [])))
      in Hl; [|rewrite Hs; apply lookup_insert_eq].
    rewrite Hl, Hs, insert_insert_eq. f_equal.
    rewrite <- app_assoc. f_equal.
    unfold trk234_regroup.bytes_of. by destruct (selected a s).
Qed.

Lemma purify_main_any a w w' :
  main a w = (Ok tt, w') ->
  exists data ind sfdus,
    files w !! Input a = Some data /\
    Reader.sfdu_index data = Ok ind /\
    Forall2 (Reader.decoded_from true false)
      (enumerate (Reader.frames data ind)) sfdus /\
    files w'
    = <[Output a
        := trk234_regroup.bytes_of (List.filter (selected a) sfdus)]>
        (files w).
Proof.
  unfold main. intros Hm.
  apply bind_ok_inv in Hm as ([] & w1 & H1 & Hm).
  apply (keeps_files_run _ _ _ _ (keeps_files_purify_log _ _)) in H1.
  apply bind_ok_inv in Hm as (f & w2 & H2 & Hm).
  apply new_inv in H2 as (-> & data & ind & Hdata & Hind & ->).
  apply bind_ok_inv in Hm as (f' & w3 & H3 & Hm).
  apply decode_stream_inv in H3 as (_ & _ & _ & _ & H3 & Hall).
  simpl in Hall.
  apply bind_ok_inv in Hm as ([] & w5 & H5 & Hm).
  assert (w5 = w3) as ->.
  { destruct (prompt a); [done|]. by injection H5. }
  clear H5.
  apply bind_ok_inv in Hm as ([] & w6 & H6 & Hm).
  unfold open_wb in H6. injection H6 as <-.
  apply bind_ok_inv in Hm as ([] & w7 & H7 & Hm).
  apply (keeps_files_run _ _ _ _ (keeps_files_purify_log _ _)) in H7.
  simpl in H7.
  apply bind_ok_inv in Hm as ([] & w8 & H8 & Hm).
  apply (purify_loop_inv a _ _ _ []) in H8;
    [|rewrite H7; apply lookup_insert_eq].
  simpl in H8.
  apply (keeps_files_run _ _ _ _ (keeps_files_purify_log _ _)) in Hm.
  exists data, ind, (Reader.sfdu_list f'). repeat split; try done.
  - by rewrite <- H1.
  - rewrite Hm, H8, H7, insert_insert_eq, H3, H1. done.
Qed.

End PurifyAnyFilter.

Section PurifyAnyFilterTheorems.
Import Expected components.



End PurifyAnyFilterTheorems.

(** ** Regrouping a stream that is already grouped *)

Section RegroupSorted.
Import trk234_regroup Expected.

Lemma filter_code_sorted (f : SFDU.t -> bool) l :
  StronglySorted Z.le (map Info.code l) ->
  StronglySorted Z.le (map Info.code (List.filter f l)).
Proof.
  induction l as [|x l IH]; simpl; [done|].
  intros [Hx Hl]%StronglySorted_cons.
  destruct (f x); simpl; [|by apply IH].
  apply StronglySorted_cons. split; [|by apply IH].
  rewrite Forall_forall in Hx |- *. intros c Hc. apply Hx.
  change (map Info.code ?l) with (Info.code <$> l) in *.
  apply list_elem_of_fmap in Hc as (y & -> & Hy).
  apply list_elem_of_fmap. exists y. split; [done|].
  apply list_elem_of_In in Hy. apply filter_In in Hy as [Hy _].
  by apply list_elem_of_In.
Qed.

Lemma filter_none {A} (f : A -> bool) l :
  Forall (fun x => f x = false) l -> List.filter f l = [].
Proof.
  induction 1 as [|x l Hx _ IH]; simpl; [done|]. by rewrite Hx.
Qed.

Lemma sorted_split l k :
  StronglySorted Z.le (map Info.code l) ->
  Forall (fun x => k <= Info.code x) l ->
  l = matching l k ++ List.filter (fun x => negb (Info.code x =? k)) l.
Proof.
  unfold matching. induction l as [|x l IH]; [done|].
  simpl. intros [Hx Hl]%StronglySorted_cons [Hk Hall]%Forall_cons.
  destruct (Z.eqb_spec (Info.code x) k) as [He|Hne]; simpl.
  - f_equal. by apply IH.
  - assert (Hgt : Forall (fun y => (Info.code y =? k) = false) l).
    { rewrite Forall_forall in Hx. apply Forall_forall. intros y Hy.
      apply Z.eqb_neq.
      assert (Info.code x <= Info.code y); [|lia].
      apply Hx. change (map Info.code l) with (Info.code <$> l).
      apply list_elem_of_fmap. by exists y. }
    rewrite (filter_none _ _ Hgt). simpl. f_equal.
    symmetry. apply filter_all_true.
    eapply Forall_impl; [exact Hgt|]. simpl. intros y ->. done.
Qed.

Lemma buckets_of_sorted ks l :
  StronglySorted Z.lt ks ->
  StronglySorted Z.le (map Info.code l) ->
  Forall (fun x => Info.code x ∈ ks) l ->
  concat (map (matching l) ks) = l.
Proof.
  intros Hks. revert l.
  induction Hks as [|k ks Hks IH Hk]; intros l Hl Hall.
  - destruct l as [|x l]; [done|].
    apply Forall_cons in Hall as [Hx _]. by apply elem_of_nil in Hx.
  - rewrite Forall_forall in Hk.
    assert (Hge : Forall (fun x => k <= Info.code x) l).
    { eapply Forall_impl; [exact Hall|]. simpl. intros x Hx.
      apply elem_of_cons in Hx as [->|Hx]; [lia|].
      specialize (Hk _ Hx). lia. }
    simpl.
    set (l' := List.filter (fun x => negb (Info.code x =? k)) l).
    assert (Hsame : map (matching l) ks = map (matching l') ks).
    { apply map_ext_in. intros i Hi%list_elem_of_In.
      specialize (Hk _ Hi). unfold matching, l'.
      rewrite filter_filter_bool. apply filter_ext. intros x.
      destruct (Z.eqb_spec (Info.code x) i) as [He|Hne];
        [|by rewrite andb_false_r].
      rewrite andb_true_r. symmetry. apply negb_true_iff, Z.eqb_neq. lia. }
    rewrite Hsame, (IH l').
    + symmetry. by apply sorted_split.
    + by apply filter_code_sorted.
    + apply Forall_forall. intros x Hx. unfold l' in Hx.
      apply list_elem_of_In in Hx. apply filter_In in Hx as [Hx Hne].
      apply list_elem_of_In in Hx.
      rewrite Forall_forall in Hall. specialize (Hall _ Hx).
      apply negb_true_iff, Z.eqb_neq in Hne.
      apply elem_of_cons in Hall as [?|?]; [done|done].
Qed.

Lemma written_codes l : Forall (fun x => Info.code x ∈ sort_types) (written l).
Proof.
  apply Forall_forall. intros x Hx. unfold written in Hx.
  apply list_elem_of_In, in_concat in Hx as (b & Hb & Hx).
  apply in_map_iff in Hb as (i & <- & Hi).
  apply list_elem_of_In in Hx, Hi.
  by rewrite (matching_code _ _ _ Hx).
Qed.

Lemma written_elem l x : x ∈ written l -> x ∈ l.
Proof.
  intros Hx. unfold written in Hx.
  apply list_elem_of_In, in_concat in Hx as (b & Hb & Hx).
  apply in_map_iff in Hb as (i & <- & Hi).
  unfold matching in Hx. apply filter_In in Hx as [Hx _].
  by apply list_elem_of_In.
Qed.

Lemma written_sorted l :
  StronglySorted Z.le (map Info.code l) ->
  Forall (fun x => SFDU.known_code (Info.code x)) l ->
  written l = l.
Proof.
  intros Hl Hall. apply buckets_of_sorted; [apply sort_types_sorted|done|].
  eapply Forall_impl; [exact Hall|]. simpl. intros x Hx.
  by apply sort_types_elem.
Qed.

Lemma written_written l : written (written l) = written l.
Proof.
  apply buckets_of_sorted.
  - apply sort_types_sorted.
  - apply buckets_sorted, sort_types_sorted.
  - apply written_codes.
Qed.

End RegroupSorted.

Section RegroupSortedTheorems.
Import trk234_regroup Expected components.

(** X17: regrouping what is already grouped changes nothing.  The order
    the grouping loop writes the records in is not changed by grouping it
    again, and a list of records whose format codes are all in 0..17 and
    already non-decreasing is written as it is.  So when [main] of the
    regroup script returns for an input whose records, as decoded, have
    known format codes in non-decreasing order, the output file is the
    input file, byte for byte. *)
Theorem regroup_of_grouped `{SFDU.Components} :
  (forall sfdus, written (written sfdus) = written sfdus) /\
  (forall sfdus,
      StronglySorted Z.le (map Info.code sfdus) ->
      Forall (fun x => SFDU.known_code (Info.code x)) sfdus ->
      written sfdus = sfdus) /\
  (forall a w w',
      main a w = (Ok tt, w') ->
      exists data ind sfdus,
        files w !! Input a = Some data /\
        Reader.sfdu_index data = Ok ind /\
        Forall2 (Reader.decoded_from false false)
          (enumerate (Reader.frames data ind)) sfdus /\
        files w' !! Output a = Some (bytes_of (written sfdus)) /\
        (StronglySorted Z.le (map Info.code sfdus) ->
         Forall (fun x => SFDU.known_code (Info.code x)) sfdus ->
         files w' !! Output a = Some data)).
Proof.
  split; [exact written_written|]. split; [exact written_sorted|].
  intros a w w' Hm.
  apply main_inv in Hm
    as (data & ind & sfdus & Hdata & Hind & Hall & Hfiles).
  pose proof (decoded_binarydata _ _ _ _ Hall) as Hbin.
  exists data, ind, sfdus. do 3 (split; [done|]).
  assert (Hout : files w' !! Output a = Some (bytes_of (written sfdus)))
    by (rewrite Hfiles; apply lookup_insert_eq).
  split; [done|]. intros Hs Hk.
  rewrite Hout, (written_sorted _ Hs Hk). f_equal.
  unfold bytes_of.
  change (map SFDU.binarydata sfdus) with (SFDU.binarydata <$> sfdus).
  rewrite Hbin. by apply sfdu_index_frames.
Qed.

Lemma regroup_of_grouped_witness :
  written [sfdu_with "C124" None; sfdu_with "C123" None]
  = [sfdu_with "C124" None; sfdu_with "C123" None] /\
  exists data ind sfdus,
    files (input_file (carrier_5s ++ carrier_6s ++ ramp_4s))
      !! Input (regroup_args false) = Some data /\
    Reader.sfdu_index data = Ok ind /\
    files (snd (main (H := fixed_offsets) (regroup_args false)
                  (input_file (carrier_5s ++ carrier_6s ++ ramp_4s))))
      !! Output (regroup_args false)
    = Some (bytes_of (written sfdus)).
Proof.
  split.
  - apply (proj1 (proj2 (regroup_of_grouped (H := fixed_offsets)))).
    + change (StronglySorted Z.le [1; 1]). repeat constructor; lia.
    + rewrite !Forall_cons, Forall_nil. unfold SFDU.known_code. unfold Info.code, sfdu_with. simpl. lia.
  - assert (Hrun :
      main (H := fixed_offsets) (regroup_args false)
        (input_file (carrier_5s ++ carrier_6s ++ ramp_4s))
      = (Ok tt,
         snd (main (H := fixed_offsets) (regroup_args false)
                (input_file (carrier_5s ++ carrier_6s ++ ramp_4s)))))
      by (vm_compute; reflexivity).
    destruct (proj2 (proj2 (regroup_of_grouped (H := fixed_offsets)))
                _ _ _ Hrun)
      as (data & ind & sfdus & Hdata & Hind & _ & Hout & _).
    exists data, ind, sfdus. exact (conj Hdata (conj Hind Hout)).
Defined.

(** X18: the files the two transforms write can be read back.  When the
    input ends at a record boundary (the last boundary of its index is its
    length), the output of the regroup script, and of the purify script
    under any filter, is again a stream of whole records: [sfdu_index]
    succeeds on it, and the byte ranges it yields are exactly the records
    that were written, in the order they were written. *)
Theorem transform_output_is_framed `{SFDU.Components} :
  (forall a w w',
      main a w = (Ok tt, w') ->
      exists data ind sfdus out,
        files w !! Input a = Some data /\
        Reader.sfdu_index data = Ok ind /\
        SFDU.binarydata <$> sfdus = Reader.frames data ind /\
        files w' !! Output a = Some out /\
        out = bytes_of (written sfdus) /\
        (last ind = Some (len data) ->
         Reader.sfdu_index out
         = Ok (boundaries 0 (SFDU.binarydata <$> written sfdus)) /\
         Reader.frames out (boundaries 0 (SFDU.binarydata <$> written sfdus))
         = SFDU.binarydata <$> written sfdus)) /\
  (forall a w w',
      trk234_purify.main a w = (Ok tt, w') ->
      exists data ind sfdus out,
        files w !! trk234_purify.Input a = Some data /\
        Reader.sfdu_index data = Ok ind /\
        SFDU.binarydata <$> sfdus = Reader.frames data ind /\
        files w' !! trk234_purify.Output a = Some out /\
        out = bytes_of (List.filter (selected a) sfdus) /\
        (last ind = Some (len data) ->
         Reader.sfdu_index out
         = Ok (boundaries 0
                 (SFDU.binarydata <$> List.filter (selected a) sfdus)) /\
         Reader.frames out
           (boundaries 0
              (SFDU.binarydata <$> List.filter (selected a) sfdus))
         = SFDU.binarydata <$> List.filter (selected a) sfdus)).
Proof.
  assert (Hframed : forall data ind (sfdus sub : list SFDU.t),
             Reader.sfdu_index data = Ok ind ->
             SFDU.binarydata <$> sfdus = Reader.frames data ind ->
             (forall x, x ∈ sub -> x ∈ sfdus) ->
             last ind = Some (len data) ->
             Reader.sfdu_index (bytes_of sub)
             = Ok (boundaries 0 (SFDU.binarydata <$> sub)) /\
             Reader.frames (bytes_of sub)
               (boundaries 0 (SFDU.binarydata <$> sub))
             = SFDU.binarydata <$> sub).
  { intros data ind sfdus sub Hind Hbin Hsub Hlast.
    apply sfdu_index_chain in Hind.
    pose proof (chain_from_whole _ _ _ Hind ltac:(lia) Hlast) as Hwhole.
    rewrite <- Hbin in Hwhole.
    assert (Hsubwhole : Forall whole (SFDU.binarydata <$> sub)).
    { apply Forall_forall. intros b Hb.
      apply list_elem_of_fmap in Hb as (x & -> & Hx).
      rewrite Forall_forall in Hwhole. apply Hwhole.
      apply list_elem_of_fmap. exists x. split; [done|]. by apply Hsub. }
    unfold bytes_of.
    change (map SFDU.binarydata sub) with (SFDU.binarydata <$> sub).
    split.
    - apply sfdu_index_chain.
      exact (boundaries_chain [] _ Hsubwhole).
    - exact (boundaries_frames [] _). }
  split.
  - intros a w w' Hm.
    apply main_inv in Hm
      as (data & ind & sfdus & Hdata & Hind & Hall & Hfiles).
    pose proof (decoded_binarydata _ _ _ _ Hall) as Hbin.
    exists data, ind, sfdus, (bytes_of (written sfdus)).
    do 3 (split; [done|]).
    split; [rewrite Hfiles; apply lookup_insert_eq|]. split; [done|].
    intros Hlast.
    apply (Hframed data ind sfdus); [done|done| |done].
    apply written_elem.
  - intros a w w' Hm.
    apply purify_main_any in Hm
      as (data & ind & sfdus & Hdata & Hind & Hall & Hfiles).
    pose proof (decoded_binarydata _ _ _ _ Hall) as Hbin.
    exists data, ind, sfdus, (bytes_of (List.filter (selected a) sfdus)).
    do 3 (split; [done|]).
    split; [rewrite Hfiles; apply lookup_insert_eq|]. split; [done|].
    intros Hlast.
    apply (Hframed data ind sfdus); [done|done| |done].
    intros x Hx. apply list_elem_of_In in Hx.
    apply filter_In in Hx as [Hx _]. by apply list_elem_of_In.
Qed.

Lemma transform_output_is_framed_witness :
  exists data ind sfdus out,
    files (input_file (carrier_5s ++ ramp_4s ++ carrier_6s))
      !! Input (regroup_args false) = Some data /\
    Reader.sfdu_index data = Ok ind /\
    files (snd (main (H := fixed_offsets) (regroup_args false)
                  (input_file (carrier_5s ++ ramp_4s ++ carrier_6s))))
      !! Output (regroup_args false) = Some out /\
    Reader.sfdu_index out
    = Ok (boundaries 0 (SFDU.binarydata <$> written sfdus)) /\
    Reader.frames out (boundaries 0 (SFDU.binarydata <$> written sfdus))
    = SFDU.binarydata <$> written sfdus.
Proof.
  assert (Hrun :
    main (H := fixed_offsets) (regroup_args false)
      (input_file (carrier_5s ++ ramp_4s ++ carrier_6s))
    = (Ok tt,
       snd (main (H := fixed_offsets) (regroup_args false)
              (input_file (carrier_5s ++ ramp_4s ++ carrier_6s)))))
    by (vm_compute; reflexivity).
  destruct (proj1 (transform_output_is_framed (H := fixed_offsets))
              _ _ _ Hrun)
    as (data & ind & sfdus & out & Hdata & Hind & _ & Hout & _ & Hframed).
  assert (Hd : data = carrier_5s ++ ramp_4s ++ carrier_6s).
  { vm_compute in Hdata. by injection Hdata. }
  assert (Hi : ind = [0; 80; 160; 240]).
  { rewrite Hd in Hind. vm_compute in Hind. by injection Hind. }
  assert (Hlast : last ind = Some (len data)).
  { rewrite Hi, Hd. vm_compute. reflexivity. }
  destruct (Hframed Hlast) as [H1 H2].
  exists data, ind, sfdus, out.
  exact (conj Hdata (conj Hind (conj Hout (conj H1 H2)))).
Defined.

End RegroupSortedTheorems.

(** ** The validation of the regroup script *)

Section Quiet.
Import Expected.

Lemma keeps_stdout_ret {A} (a : A) : keeps_stdout (mret a).
Proof. by intros w. Qed.

Lemma keeps_stdout_lift {A} (r : result A) : keeps_stdout (lift r).
Proof. by intros w. Qed.

Lemma keeps_stdout_raise {A} e : keeps_stdout (raise (A := A) e).
Proof. by intros w. Qed.


Lemma keeps_stdout_open_wb path : keeps_stdout (open_wb path).
Proof. by intros w. Qed.

Lemma keeps_stdout_bind {A B} (m : M A) (f : A -> M B) :
  keeps_stdout m -> (forall a, keeps_stdout (f a)) -> keeps_stdout (m ≫= f).
Proof.
  intros Hm Hf w. rewrite bind_run. specialize (Hm w).
  destruct (m w) as [[a|e] w1]; simpl in *; [|done].
  by rewrite Hf.
Qed.





End Quiet.

Section HeadersOnly.
Context `{SFDU.Components}.
Import Expected.



Lemma keeps_stdout_new path : keeps_stdout (Reader.new path).
Proof.
  unfold Reader.new. cbv zeta.
  apply keeps_stdout_bind.
  { intros w. unfold Reader.read, read_file.
    by destruct (files w !! path). }
  intros data. apply keeps_stdout_bind; [apply keeps_stdout_lift|].
  intros ind. apply keeps_stdout_ret.
Qed.

(** Decoding does not look at the world: it gives the same records and
    prints the same lines wherever it is run. *)
Lemma mmap_again {A B} (g : A -> M B) l w ys w1 :
  (forall x w y w1,
      g x w = (Ok y, w1) ->
      exists out,
        w1 = World (stdout w ++ out) (files w) /\
        forall w2, g x w2 = (Ok y, World (stdout w2 ++ out) (files w2))) ->
  mmap g l w = (Ok ys, w1) ->
  exists out,
    w1 = World (stdout w ++ out) (files w) /\
    forall w2, mmap g l w2 = (Ok ys, World (stdout w2 ++ out) (files w2)).
Proof.
  intros Hg. revert w ys w1. induction l as [|x l IH]; intros w ys w1.
  - intros [= <- <-]. exists []. rewrite world_eta. split; [done|].
    intros w2. by rewrite world_eta.
  - simpl. intros Hm.
    apply bind_ok_inv in Hm as (y & wa & Hx & Hm).
    apply bind_ok_inv in Hm as (ys' & wb & Hl & [= <- <-]).
    apply Hg in Hx as (out1 & -> & Hx).
    apply IH in Hl as (out2 & -> & Hl).
    exists (out1 ++ out2). simpl. rewrite app_assoc. split; [done|].
    intros w2. rewrite bind_run, Hx, bind_run, Hl. simpl.
    by rewrite app_assoc.
Qed.

Lemma reader_decode_again f lbl agg pri sec trk w f' w1 :
  Reader.decode f lbl agg pri sec trk w = (Ok f', w1) ->
  exists out,
    w1 = World (stdout w ++ out) (files w) /\
    forall w2, Reader.decode f lbl agg pri sec trk w2
               = (Ok f', World (stdout w2 ++ out) (files w2)).
Proof.
  unfold Reader.decode. cbv zeta. intros Hd.
  apply bind_ok_inv in Hd as (sfdus & wa & Hm & [= <- <-]).
  apply mmap_again in Hm as (out & -> & Hm).
  - exists out. split; [done|]. intros w2. by rewrite bind_run, Hm.
  - clear. intros i w y w1 Hi.
    apply lift_bind_ok_inv in Hi as (a & Ha & Hi).
    apply lift_bind_ok_inv in Hi as (b & Hb & Hi).
    apply decode_again in Hi as (out & -> & _ & _ & Hi & _).
    exists out. split; [done|]. intros w2.
    rewrite bind_run. unfold lift. rewrite Ha. simpl.
    rewrite bind_run, Hb. simpl. apply Hi.
Qed.


Lemma new_run path w data ind :
  files w !! path = Some data -> Reader.sfdu_index data = Ok ind ->
  Reader.new path w
  = (Ok (Reader.mk (last_component "" path) [] false data ind), w).
Proof.
  intros Hdata Hind. unfold Reader.new, Reader.read, read_file.
  rewrite bind_run, Hdata, bind_run. unfold lift. by rewrite Hind.
Qed.

End HeadersOnly.

Section ValidationReport.
Context `{SFDU.Components}.
Import trk234_regroup Expected.










End ValidationReport.

Section ValidationTheorems.
Import trk234_regroup Expected components.



End ValidationTheorems.

(** ** The confirmation prompt of the two scripts *)

Section PromptFacts.
Context `{SFDU.Components}.

Lemma read_then_raise {C} path lbl agg pri sec trk (k : Reader.t -> M C) w :
  (forall f w, exists w',
      k f w = (Err (NameError "raw_input"), w') /\ files w' = files w) ->
  exists e w',
    (f ← Reader.new path; f ← Reader.decode f lbl agg pri sec trk; k f) w
    = (Err e, w') /\
    files w' = files w /\
    forall data ind f' w0 w0',
      files w !! path = Some data ->
      Reader.sfdu_index data = Ok ind ->
      Reader.decode (Reader.mk (last_component "" path) [] false data ind)
        lbl agg pri sec trk w0 = (Ok f', w0') ->
      e = NameError "raw_input".
Proof.
  intros Hk. rewrite bind_run.
  destruct (Reader.new path w) as [[f|e] w2] eqn:Hn.
  - apply new_inv in Hn as (-> & data & ind & Hdata & Hind & ->).
    rewrite bind_run.
    destruct (Reader.decode _ lbl agg pri sec trk w) as [[f'|e] w3] eqn:Hd.
    + destruct (Hk f' w3) as (w4 & Hr & F4).
      exists (NameError "raw_input"), w4. split; [exact Hr|].
      split; [|reflexivity].
      rewrite F4.
      exact (keeps_files_run _ _ _ _
               (decode_keeps_files_stream _ _ _ _ _ _) Hd).
    + exists e, w3. split; [reflexivity|]. split.
      * exact (keeps_files_run _ _ _ _
                 (decode_keeps_files_stream _ _ _ _ _ _) Hd).
      * intros data' ind' f' w0 w0' Hdata' Hind' Hdec. exfalso.
        rewrite Hdata in Hdata'. injection Hdata' as <-.
        rewrite Hind in Hind'. injection Hind' as <-.
        apply reader_decode_again in Hdec as (out & _ & Hdec).
        rewrite Hdec in Hd. discriminate Hd.
  - exists e, w2. split; [reflexivity|]. split.
    + exact (keeps_files_run _ _ _ _ (keeps_files_new _) Hn).
    + intros data ind f' w0 w0' Hdata Hind _. exfalso.
      rewrite (new_run _ _ _ _ Hdata Hind) in Hn. discriminate Hn.
Qed.

Lemma print_log_run (log : string -> bool -> M unit) :
  (forall msg v w, log msg v w
                   = if v then print msg w else (Ok tt, w)) ->
  forall msg v w, exists w1, log msg v w = (Ok tt, w1) /\ files w1 = files w.
Proof.
  intros Hlog msg v w. rewrite Hlog. destruct v; eauto.
Qed.

Lemma regroup_log_run msg v w :
  exists w1, trk234_regroup.print_log msg v w = (Ok tt, w1)
             /\ files w1 = files w.
Proof.
  apply (print_log_run trk234_regroup.print_log).
  intros ? [] ?; reflexivity.
Qed.

Lemma purify_log_run msg v w :
  exists w1, trk234_purify.print_log msg v w = (Ok tt, w1)
             /\ files w1 = files w.
Proof.
  apply (print_log_run trk234_purify.print_log).
  intros ? [] ?; reflexivity.
Qed.

End PromptFacts.

Section PromptTheorems.
Import components.

(** X20: the regroup script cannot be run with [--prompt].  The prompt
    calls [raw_input], which Python 3 does not define, before the output
    file is opened: every run ends in an exception and leaves all files as
    they were, and when the input file can be read and decoded the
    exception is the [NameError] of [raw_input]. *)
Theorem regroup_prompt_raises `{SFDU.Components}
    (a : trk234_regroup.args) w :
  trk234_regroup.prompt a = true ->
  exists e w',
    trk234_regroup.main a w = (Err e, w') /\
    files w' = files w /\
    forall data ind f' w0 w0',
      files w !! trk234_regroup.Input a = Some data ->
      Reader.sfdu_index data = Ok ind ->
      Reader.decode
        (Reader.mk (last_component "" (trk234_regroup.Input a)) [] false
           data ind)
        true true true false false w0 = (Ok f', w0') ->
      e = NameError "raw_input".
Proof.
  intros Hp. unfold trk234_regroup.main.
  destruct (regroup_log_run
              ("Reading " +:+ trk234_regroup.Input a)
              (trk234_regroup.verbose a) w) as (w1 & H1 & F1).
  rewrite (bind_ok _ _ _ _ _ H1), Hp, <- F1.
  apply read_then_raise. intros f w2. cbv zeta.
  destruct (regroup_log_run
              ("Sorting " +:+ trk234_regroup.Input a
                 +:+ " by file type ascending")
              (trk234_regroup.verbose a) w2) as (w3 & H3 & F3).
  rewrite (bind_ok _ _ _ _ _ H3). exists w3. split; [reflexivity|exact F3].
Qed.

Lemma regroup_prompt_raises_witness :
  exists e w',
    trk234_regroup.main (H := fixed_offsets)
      (trk234_regroup.mk_args "in.tnf" "out.tnf" false true false)
      (input_file carrier_5s)
    = (Err e, w') /\
    files w' = files (input_file carrier_5s).
Proof.
  destruct (regroup_prompt_raises (H := fixed_offsets)
              (trk234_regroup.mk_args "in.tnf" "out.tnf" false true false)
              (input_file carrier_5s) eq_refl)
    as (e & w' & Hrun & Hfiles & _).
  exists e, w'. exact (conj Hrun Hfiles).
Defined.

(** X21: the purify script cannot be run with [--prompt] either: every run
    ends in an exception and leaves all files as they were, and when the
    input file can be read and decoded the exception is the [NameError] of
    [raw_input]. *)
Theorem purify_prompt_raises `{SFDU.Components}
    (a : trk234_purify.args) w :
  trk234_purify.prompt a = true ->
  exists e w',
    trk234_purify.main a w = (Err e, w') /\
    files w' = files w /\
    forall data ind f' w0 w0',
      files w !! trk234_purify.Input a = Some data ->
      Reader.sfdu_index data = Ok ind ->
      Reader.decode
        (Reader.mk (last_component "" (trk234_purify.Input a)) [] false
           data ind)
        true true true true false w0 = (Ok f', w0') ->
      e = NameError "raw_input".
Proof.
  intros Hp. unfold trk234_purify.main.
  destruct (purify_log_run
              ("Reading " +:+ trk234_purify.Input a)
              (trk234_purify.verbose a) w) as (w1 & H1 & F1).
  rewrite (bind_ok _ _ _ _ _ H1), Hp, <- F1.
  apply read_then_raise. intros f w2. exists w2. split; reflexivity.
Qed.

Lemma purify_prompt_raises_witness :
  exists e w',
    trk234_purify.main (H := fixed_offsets)
      (trk234_purify.mk_args "in.tnf" "out.tnf" false true None None None
         None None)
      (input_file carrier_5s)
    = (Err e, w') /\
    files w' = files (input_file carrier_5s).
Proof.
  destruct (purify_prompt_raises (H := fixed_offsets)
              (trk234_purify.mk_args "in.tnf" "out.tnf" false true None None
                 None None None)
              (input_file carrier_5s) eq_refl)
    as (e & w' & Hrun & Hfiles & _).
  exists e, w'. exact (conj Hrun Hfiles).
Defined.

End PromptTheorems.

(** ** Sorting two lists together *)

Section TwoListSort.
Import trk234_info Expected.
Context {B : Type}.
Implicit Types (p q : datetime * B) (l : list (datetime * B)).

Lemma insert_pair_perm p l : insert_pair p l ≡ₚ p :: l.
Proof.
  induction l as [|q l IH]; simpl; [done|].
  destruct (p.1 <=? q.1); [done|].
  rewrite IH. apply Permutation_swap.
Qed.

Lemma sorted_by_first_perm l : sorted_by_first l ≡ₚ l.
Proof.
  induction l as [|p l IH]; simpl; [done|].
  by rewrite insert_pair_perm, IH.
Qed.

Lemma insert_pair_hd p q l :
  HdRel by_first q l -> by_first q p -> HdRel by_first q (insert_pair p l).
Proof.
  intros Hl Hp. destruct l as [|r l]; simpl; [by constructor|].
  destruct (p.1 <=? r.1); constructor; [done|].
  by apply HdRel_inv in Hl.
Qed.

Lemma insert_pair_sorted p l :
  Sorted by_first l -> Sorted by_first (insert_pair p l).
Proof.
  induction 1 as [|q l Hs IH Hhd]; simpl; [by repeat constructor|].
  destruct (p.1 <=? q.1) eqn:Hle.
  - apply Z.leb_le in Hle. constructor; [by constructor|by constructor].
  - apply Z.leb_gt in Hle. constructor; [done|].
    apply insert_pair_hd; [done|]. unfold by_first. lia.
Qed.

Lemma sorted_by_first_sorted l : Sorted by_first (sorted_by_first l).
Proof.
  induction l as [|p l IH]; simpl; [constructor|].
  by apply insert_pair_sorted.
Qed.

Lemma by_first_keys l :
  StronglySorted by_first l -> StronglySorted Z.le (l.*1).
Proof.
  induction 1 as [|p l Hs IH Hall]; simpl; constructor; [done|].
  apply Forall_fmap. exact Hall.
Qed.

Lemma sorted_by_first_keys l : StronglySorted Z.le ((sorted_by_first l).*1).
Proof.
  apply by_first_keys, Sorted_StronglySorted; [|apply sorted_by_first_sorted].
  intros p q r. unfold by_first. lia.
Qed.

Lemma insert_pair_filter (k : datetime) p l :
  filter (fun q => q.1 = k) (insert_pair p l)
  = filter (fun q => q.1 = k) (p :: l).
Proof.
  induction l as [|q l IH]; simpl; [done|].
  destruct (p.1 <=? q.1) eqn:Hle; [done|].
  apply Z.leb_gt in Hle.
  rewrite (filter_cons _ q (insert_pair p l)), IH, !filter_cons.
  repeat case_decide; try done; lia.
Qed.

Lemma sorted_by_first_filter (k : datetime) l :
  filter (fun q => q.1 = k) (sorted_by_first l)
  = filter (fun q => q.1 = k) l.
Proof.
  induction l as [|p l IH]; simpl; [done|].
  by rewrite insert_pair_filter, !filter_cons, IH.
Qed.

Lemma insert_pair_least p l :
  Forall (by_first p) l -> insert_pair p l = p :: l.
Proof.
  intros Hall. destruct l as [|q l]; simpl; [done|].
  apply Forall_cons in Hall as [Hq _]. unfold by_first in Hq.
  apply Z.leb_le in Hq. by rewrite Hq.
Qed.

Lemma sorted_by_first_id l :
  StronglySorted by_first l -> sorted_by_first l = l.
Proof.
  induction 1 as [|p l Hs IH Hall]; simpl; [done|].
  rewrite IH. by apply insert_pair_least.
Qed.

Lemma zip_by_first (l1 : list datetime) (l2 : list B) :
  StronglySorted Z.le l1 -> StronglySorted by_first (zip l1 l2).
Proof.
  intros Hs. revert l2.
  induction Hs as [|x l1 Hs IH Hall]; intros [|y l2]; simpl;
    try constructor; [apply IH|].
  apply Forall_forall. intros [x' y'] Hin.
  apply elem_of_zip_l in Hin. rewrite Forall_forall in Hall.
  by apply Hall.
Qed.

End TwoListSort.

Section TwoListSortTheorems.
Import trk234_info Expected.

(** X22: what [two_list_sort] returns.  With an empty list on either side
    it raises [IndexError].  Otherwise it returns two lists of the same
    length whose pairs are the pairs of the two inputs (as far as the
    shorter goes) in another order, the first list in non-decreasing
    order, and pairs of equal key in the order they had: the sort is
    stable. *)
Theorem two_list_sort_outcome {B} (list1 : list datetime) (list2 : list B) :
  match two_list_sort list1 list2 with
  | Err e => e = IndexError /\ (list1 = [] \/ list2 = [])
  | Ok (t, m) =>
      list1 <> [] /\ list2 <> [] /\
      length t = length m /\
      StronglySorted Z.le t /\
      zip t m ≡ₚ zip list1 list2 /\
      forall k : datetime,
        filter (fun q => q.1 = k) (zip t m)
        = filter (fun q => q.1 = k) (zip list1 list2)
  end.
Proof.
  unfold two_list_sort.
  pose proof (sorted_by_first_perm (zip list1 list2)) as Hperm.
  pose proof (sorted_by_first_keys (zip list1 list2)) as Hkeys.
  pose proof (fun k => sorted_by_first_filter k (zip list1 list2)) as Hst.
  destruct (sorted_by_first (zip list1 list2)) as [|p ps] eqn:Hs.
  - split; [done|]. symmetry in Hperm. apply Permutation_nil_r in Hperm.
    destruct list1, list2; try discriminate Hperm; auto.
  - assert (Hzip : zip ((p :: ps).*1) ((p :: ps).*2) = p :: ps).
    { apply zip_fst_snd. }
    split; [|split; [|split; [|split; [|split]]]].
    + intros ->. apply Permutation_length in Hperm. discriminate Hperm.
    + intros ->. rewrite zip_with_nil_r in Hperm.
      apply Permutation_length in Hperm. discriminate Hperm.
    + by rewrite !length_fmap.
    + exact Hkeys.
    + by rewrite Hzip.
    + intros k. rewrite Hzip. apply Hst.
Qed.

(** X23: [two_list_sort] leaves lists that are in order as they are: when
    the first list is non-empty and in non-decreasing order and the second
    is as long, the two lists come back unchanged. *)
Theorem two_list_sort_of_sorted {B}
    (list1 : list datetime) (list2 : list B) :
  list1 <> [] -> length list1 = length list2 ->
  StronglySorted Z.le list1 ->
  two_list_sort list1 list2 = Ok (list1, list2).
Proof.
  intros Hne Hlen Hs. unfold two_list_sort.
  rewrite sorted_by_first_id by (by apply zip_by_first).
  destruct (zip list1 list2) as [|p ps] eqn:Hz.
  - destruct list1, list2; try done.
  - rewrite <- Hz. by rewrite fst_zip, snd_zip by lia.
Qed.

Lemma two_list_sort_of_sorted_witness :
  two_list_sort [1; 1; 2] ["b"; "a"; "c"]%string
  = Ok ([1; 1; 2], ["b"; "a"; "c"]%string).
Proof.
  apply two_list_sort_of_sorted.
  - discriminate.
  - reflexivity.
  - repeat constructor; lia.
Defined.

End TwoListSortTheorems.
